(** * Tzimisce dicebot: macros, guild settings, initiative and comment splitting

    A shallow embedding of the parts of the bot that resolve stored rolls
    (storyteller/databases/database.py), keep per-guild settings
    (storyteller/databases/settings.py), display arithmetic rolls
    (tzimisce/parse/traditional.py), manage initiative
    (tzimisce/initiative/initiative.py, storyteller/parse/initiative.py)
    and split a command from its comment (masquerade.py).

    Text is modelled as [string], that is, as ASCII text: the character
    classes below ([isspace], [isdigit], the word class of the patterns) are
    the restrictions of Python's to code points below 128.  Integers are
    unbounded; the interpreter's configurable limit on the length of a
    decimal literal is not modelled. *)

From Stdlib Require Import ZArith String Ascii List DecimalString DecimalZ DecimalPos Lia.
From stdpp Require Import gmap strings list fin_maps.

Open Scope Z_scope.

(** ** Python built-ins used by the sources *)

Module Py.

(** Exceptions the modelled code can raise. *)
Inductive exn :=
| ValueError (msg : string)
| IndexError
| KeyError
| TypeError
| AttributeError
| RecursionError
| UniqueViolation.

(** Truth value of an optional string ([None] and [""] are false). *)
Definition truthy (o : option string) : bool :=
  match o with
  | Some (String _ _) => true
  | _ => false
  end.

(** [str.isspace] on one character: tab, line feed, vertical tab, form feed,
    carriage return, the four separators 0x1c-0x1f and the space. *)
Definition isspace (c : ascii) : bool :=
  let n := nat_of_ascii c in
  ((9 <=? n) && (n <=? 13) || (28 <=? n) && (n <=? 32))%nat.

(** [c.isdigit()] for one character. *)
Definition isdigit_char (c : ascii) : bool :=
  let n := nat_of_ascii c in ((48 <=? n) && (n <=? 57))%nat.

(** [s.isdigit()]: at least one character, and all of them digits. *)
Fixpoint all_digits (s : string) : bool :=
  match s with
  | EmptyString => true
  | String c s' => isdigit_char c && all_digits s'
  end.

Definition isdigit (s : string) : bool :=
  match s with
  | EmptyString => false
  | _ => all_digits s
  end.

(** [s.split()]: the maximal runs of non-space characters.  [cur] holds the
    run being read, reversed. *)
Definition flush (cur : list ascii) (acc : list string) : list string :=
  match cur with
  | [] => acc
  | _ => string_of_list_ascii (rev cur) :: acc
  end.

Fixpoint split_aux (s : string) (cur : list ascii) : list string :=
  match s with
  | EmptyString => flush cur []
  | String c s' =>
      if isspace c then flush cur (split_aux s' [])
      else split_aux s' (c :: cur)
  end.

Definition split (s : string) : list string := split_aux s [].

(** [sep.join(l)]. *)
Fixpoint join (sep : string) (l : list string) : string :=
  match l with
  | [] => ""
  | [x] => x
  | x :: l' => x +:+ sep +:+ join sep l'
  end.

(** The white space that [int] skips before and after a literal, that of
    C's [isspace]: tab, line feed, vertical tab, form feed, carriage return
    and the space.  The separators 0x1c-0x1f, white space for [str.isspace]
    and [str.split], are not skipped: [int] raises on them. *)
Definition isspace_int (c : ascii) : bool :=
  let n := nat_of_ascii c in
  ((9 <=? n) && (n <=? 13) || (n =? 32))%nat.

Fixpoint lstrip (s : string) : string :=
  match s with
  | String c s' => if isspace_int c then lstrip s' else s
  | EmptyString => s
  end.

Definition rstrip (s : string) : string :=
  string_of_list_ascii (rev (list_ascii_of_string
    (lstrip (string_of_list_ascii (rev (list_ascii_of_string s)))))).

Definition strip (s : string) : string := rstrip (lstrip s).

Definition digit_val (c : ascii) : Z := Z.of_nat (nat_of_ascii c) - 48.

(** The digits of a decimal literal: digits, with single underscores allowed
    between two digits.  [acc] is the value read so far; [after_digit] says
    whether the previous character was a digit. *)
Fixpoint int_digits (s : string) (acc : Z) (after_digit : bool) : option Z :=
  match s with
  | EmptyString => if after_digit then Some acc else None
  | String c s' =>
      if isdigit_char c then int_digits s' (10 * acc + digit_val c) true
      else if (Ascii.eqb c "_" && after_digit)%bool then
        match s' with
        | String d _ => if isdigit_char d then int_digits s' acc false else None
        | EmptyString => None
        end
      else None
  end.

(** [int(s)] for a string, base 10: the white space [int] skips is dropped
    at both ends, one sign is allowed; [None] stands for [ValueError]. *)
Definition int (s : string) : option Z :=
  match strip s with
  | String "+" d => int_digits d 0 false
  | String "-" d => option_map Z.opp (int_digits d 0 false)
  | d => int_digits d 0 false
  end.

(** [str(n)] for an integer. *)
Definition str (n : Z) : string := NilZero.string_of_int (Z.to_int n).

(** The format [{n:+}]: the sign is always written. *)
Definition format_plus (n : Z) : string :=
  if 0 <=? n then "+" +:+ str n else str n.

(** [s.lower()]. *)
Definition lower_char (c : ascii) : ascii :=
  let n := nat_of_ascii c in
  if ((65 <=? n) && (n <=? 90))%nat then ascii_of_nat (n + 32) else c.

Fixpoint lower (s : string) : string :=
  match s with
  | EmptyString => EmptyString
  | String c s' => String (lower_char c) (lower s')
  end.

(** [sub in s] *)
Definition contains (sub s : string) : Prop :=
  exists before after, s = before +:+ sub +:+ after.

(** [s.index(c)]: position of the first [c]; [None] stands for [ValueError]. *)
Fixpoint index (c : ascii) (s : string) : option nat :=
  match s with
  | EmptyString => None
  | String d s' =>
      if Ascii.eqb d c then Some O else option_map S (index c s')
  end.

(** [s.split(c, 1)]: at most one cut, at the first [c]. *)
Fixpoint split_once (c : ascii) (s : string) : list string :=
  match s with
  | EmptyString => [""]
  | String d s' =>
      if Ascii.eqb d c then [""; s']
      else match split_once c s' with
           | x :: l => String d x :: l
           | [] => []
           end
  end.

End Py.

(** ** Regular expressions, as Python's backtracking matcher reads them *)

Module Re.

Inductive re :=
| Eps
| Class (p : ascii -> bool)
| Seq (a b : re)
| Alt (a b : re)
| Star (a : re)
| Group (g : string) (a : re)
| End.

Definition Plus (a : re) : re := Seq a (Star a).
Definition Opt (a : re) : re := Alt a Eps.

Definition newline : ascii := "010"%char.

(** [run r s gs k] matches [r] at the head of [s] and hands the rest of the
    text and the groups captured so far to [k]; alternatives are tried in
    order and repetition is greedy, giving characters back when [k] fails. *)
Fixpoint run (r : re) (s : string) (gs : gmap string string)
    (k : string -> gmap string string -> option (gmap string string))
    : option (gmap string string) :=
  match r with
  | Eps => k s gs
  | Class p =>
      match s with
      | String c s' => if p c then k s' gs else None
      | EmptyString => None
      end
  | Seq a b => run a s gs (fun s' gs' => run b s' gs' k)
  | Alt a b =>
      match run a s gs k with
      | Some res => Some res
      | None => run b s gs k
      end
  | Star a =>
      (fix loop (n : nat) (s : string) (gs : gmap string string) :=
         match n with
         | O => k s gs
         | S n' =>
             match run a s gs (fun s' gs' =>
                     if (String.length s' <? String.length s)%nat
                     then loop n' s' gs' else None) with
             | Some res => Some res
             | None => k s gs
             end
         end) (String.length s) s gs
  | Group g a =>
      run a s gs (fun s' gs' =>
        k s' (<[g := substring 0 (String.length s - String.length s') s]> gs'))
  | End =>
      match s with
      | EmptyString => k s gs
      | String c EmptyString => if Ascii.eqb c newline then k s gs else None
      | _ => None
      end
  end.

(** [pattern.match(s)]: anchored at the start of [s] only. *)
Definition match_ (r : re) (s : string) : option (gmap string string) :=
  run r s ∅ (fun _ gs => Some gs).

Definition is_char (c : ascii) : ascii -> bool := Ascii.eqb c.

(** [\w], [\s], [\d], [.] and the classes [[\w-]], [[+-]]. *)
Definition word (c : ascii) : bool :=
  let n := nat_of_ascii c in
  ((48 <=? n) && (n <=? 57) || (65 <=? n) && (n <=? 90)
   || (97 <=? n) && (n <=? 122) || (n =? 95))%nat.
Definition space : ascii -> bool := Py.isspace.
Definition digit : ascii -> bool := Py.isdigit_char.
Definition dot (c : ascii) : bool := negb (Ascii.eqb c newline).
Definition word_or_dash (c : ascii) : bool := word c || Ascii.eqb c "-".
Definition plus_or_minus (c : ascii) : bool := Ascii.eqb c "+" || Ascii.eqb c "-".

End Re.

(** ** Stored rolls: storyteller/databases/database.py *)

Module RollDB.

Import Re.

(** A row of the table SavedRolls (the generated macro_id is left out). *)
Record Row := {
  ID : Z;
  Name : string;
  Syntax : string;
  Guild : Z;
  Comment : option string
}.

(** [value LIKE pattern]: [_] stands for one character, [%] for any run of
    characters, and a backslash takes the next character literally (a
    pattern that ends in a lone backslash, which the database refuses, is
    read literally here; a name matched by the macro patterns has none). *)
Fixpoint like (pat : string) (s : string) : bool :=
  match pat with
  | EmptyString => match s with EmptyString => true | _ => false end
  | String "%" pat' =>
      (fix any (s : string) : bool :=
         like pat' s || match s with
                        | EmptyString => false
                        | String _ s' => any s'
                        end) s
  | String "_" pat' =>
      match s with
      | String _ s' => like pat' s'
      | EmptyString => false
      end
  | String "\" (String c pat') =>
      match s with
      | String d s' => Ascii.eqb c d && like pat' s'
      | EmptyString => false
      end
  | String c pat' =>
      match s with
      | String d s' => Ascii.eqb c d && like pat' s'
      | EmptyString => false
      end
  end.

(** [value ILIKE pattern]: [LIKE] without regard to case. *)
Definition ilike (value pattern : string) : bool :=
  like (Py.lower pattern) (Py.lower value).

(** The macro patterns compiled in [__init__]. *)
Definition name_group : re := Group "name" (Plus (Class word_or_dash)).

(** storex: "^(?P<name>[\w-]+)\s*=\s*(?P<syntax>.+)$" *)
Definition storex : re :=
  Seq name_group (Seq (Star (Class space)) (Seq (Class (is_char "="))
    (Seq (Star (Class space)) (Seq (Group "syntax" (Plus (Class dot))) End)))).

(** commentx: the name group, then "\s+c=", then the group comment, which
    is ".*", up to "$". *)
Definition commentx : re :=
  Seq name_group (Seq (Plus (Class space)) (Seq (Class (is_char "c"))
    (Seq (Class (is_char "=")) (Seq (Group "comment" (Star (Class dot))) End)))).

(** usex: "^(?P<name>[\w-]+)\s*(?P<mods>(?P<sign>[+-])?\d+(?:\s[+-]?\d+)?)?$" *)
Definition usex : re :=
  Seq name_group (Seq (Star (Class space))
    (Seq (Opt (Group "mods"
            (Seq (Opt (Group "sign" (Class plus_or_minus)))
              (Seq (Plus (Class digit))
                (Opt (Seq (Class space)
                  (Seq (Opt (Class plus_or_minus)) (Plus (Class digit)))))))))
      End)).

(** deletex: "^(?P<name>[\w-]+)\s*=$" *)
Definition deletex : re :=
  Seq name_group (Seq (Star (Class space)) (Seq (Class (is_char "=")) End)).

(** multiwordx: "[\w-]+ [\w-]+" *)
Definition multiwordx : re :=
  Seq (Plus (Class word_or_dash))
    (Seq (Class (is_char " ")) (Plus (Class word_or_dash))).

(** What a function returns: a value, or the exception it raised. *)
Inductive outcome (A : Type) :=
| Ok (a : A)
| Raise (e : Py.exn).
Arguments Ok {A} a.
Arguments Raise {A} e.

(** [query_saved_rolls] answers with a message, or with the command itself
    once a macro has been substituted into it. *)
Inductive reply :=
| Message (text : string)
| Command.

(** The groups of a [usex] match that [__match_stored_roll] reads. *)
Record usematch := {
  name : string;
  mods : option string;
  sign : option string
}.

Definition usex_match (s : string) : option usematch :=
  match match_ usex s with
  | Some gs =>
      match gs !! "name" with
      | Some n => Some {| name := n; mods := gs !! "mods"; sign := gs !! "sign" |}
      | None => None
      end
  | None => None
  end.

(** A token of the stored syntax while it is rebuilt: [syntax.insert(1, 6)]
    puts the integer 6, not a string, into the list. *)
Inductive token :=
| TStr (s : string)
| TInt (n : Z).

(** [int(t)]. *)
Definition int_token (t : token) : option Z :=
  match t with
  | TStr s => Py.int s
  | TInt n => Some n
  end.

(** [" ".join(tokens)]: every item has to be a string. *)
Fixpoint token_strings (ts : list token) : option (list string) :=
  match ts with
  | [] => Some []
  | TStr s :: ts' => option_map (cons s) (token_strings ts')
  | TInt _ :: _ => None
  end.

(** [syntax[1][0].isdigit()] *)
Definition starts_with_digit (t : token) : option bool :=
  match t with
  | TStr (String c _) => Some (Py.isdigit_char c)
  | TStr EmptyString => None
  | TInt _ => None
  end.

Definition pool_sign_error : string :=
  "Pool modifiers must be zero or have a +/- sign.".

Definition value_error : Py.exn := Py.ValueError "invalid literal for int()".

Section Environment.

(** [SIMILARITY(Name, %s) > 0.2] of the pg_trgm extension, and
    [storyteller.parse.is_valid_roll]; neither is among the sources. *)
Variable similar : string -> string -> bool.
Variable is_valid_roll : string -> bool.

Definition selects (guild userid : Z) (pattern : string) (r : Row) : bool :=
  (Guild r =? guild) && (ID r =? userid) && ilike (Name r) pattern.

(** [retrieve_stored_roll]: the first row the SELECT yields, as
    (Syntax, Comment). *)
Definition retrieve_stored_roll (db : list Row) (guild userid : Z) (name : string)
    : option (string * option string) :=
  match filter (fun r => selects guild userid name r = true) db with
  | r :: _ => Some (Syntax r, Comment r)
  | [] => None
  end.

Definition is_roll_stored (db : list Row) (guild userid : Z) (name : string) : bool :=
  match retrieve_stored_roll db guild userid name with
  | Some _ => true
  | None => false
  end.

Definition find_similar_macro (db : list Row) (guild userid : Z) (name : string)
    : option string :=
  match filter (fun r => (Guild r =? guild) && (ID r =? userid)
                         && similar (Name r) name = true) db with
  | r :: _ => Some (Name r)
  | [] => None
  end.

(** [UPDATE SavedRolls SET ... WHERE ID=%s AND Guild=%s AND Name ILIKE %s] *)
Definition update_where (guild userid : Z) (name : string) (f : Row -> Row)
    (db : list Row) : list Row :=
  map (fun r => if selects guild userid name r then f r else r) db.

Definition set_syntax (syntax : string) (r : Row) : Row :=
  {| ID := ID r; Name := Name r; Syntax := syntax; Guild := Guild r;
     Comment := Comment r |}.

Definition set_comment (comment : option string) (r : Row) : Row :=
  {| ID := ID r; Name := Name r; Syntax := Syntax r; Guild := Guild r;
     Comment := comment |}.

(** [__store_roll] *)
Definition store_roll (db : list Row) (guild userid : Z) (name syntax : string)
    (comment : option string) : string * list Row :=
  if negb (is_roll_stored db guild userid name) then
    ("Saved new macro: `" +:+ name +:+ "`.",
     db ++ [{| ID := userid; Name := name; Syntax := syntax; Guild := guild;
               Comment := comment |}])
  else if Py.truthy comment then
    ("Updated `" +:+ name +:+ "` syntax and comment.",
     update_where guild userid name
       (fun r => set_comment comment (set_syntax syntax r)) db)
  else
    ("Updated `" +:+ name +:+ "` syntax.",
     update_where guild userid name (set_syntax syntax) db).

(** [__update_stored_comment] *)
Definition update_stored_comment (db : list Row) (guild userid : Z)
    (name comment : string) : string * list Row :=
  if is_roll_stored db guild userid name then
    let comment := match comment with EmptyString => None | _ => Some comment end in
    ("Updated comment for `" +:+ name +:+ "`.",
     update_where guild userid name (set_comment comment) db)
  else
    ("Unable to update. You don't have a roll named `" +:+ name +:+ "`!", db).

(** [delete_stored_roll] *)
Definition delete_stored_roll (db : list Row) (guild userid : Z) (name : string)
    : string * list Row :=
  if negb (is_roll_stored db guild userid name) then
    ("Can't delete. `" +:+ name +:+ "` not found!", db)
  else
    ("`" +:+ name +:+ "` deleted! It has also been removed from any meta-macros containing it.",
     filter (fun r => selects guild userid name r = false) db).

(** [f"Pool {pool_mod:+}. " if pool_mod != 0 else ""] *)
Definition pool_desc (pool_mod : Z) : string :=
  if negb (pool_mod =? 0) then "Pool " +:+ Py.format_plus pool_mod +:+ ". " else "".

(** The body of [if mods:] in [__match_stored_roll]: the rebuilt syntax and
    the override notice, a message when the pool modifier is refused, or the
    exception raised on the way. *)
Definition apply_mods (syntax : string) (mods : string) (sign : option string)
    : outcome (string + string * string) :=
  let mods := Py.split mods in
  match mods with
  | [] => Raise Py.IndexError
  | mod0 :: mods_tl =>
  match Py.int mod0 with
  | None => Raise value_error
  | Some pool_mod =>
  if negb (pool_mod =? 0) && negb (Py.truthy sign) then
    Ok (inl pool_sign_error)
  else
    let pool_desc := pool_desc pool_mod in
    let syntax := map TStr (Py.split syntax) in
    (* Need a default difficulty *)
    let need_default :=
      match syntax with
      | [_] => Some true
      | _ :: t1 :: _ => option_map negb (starts_with_digit t1)
      | [] => None
      end in
    match need_default with
    | None => Raise Py.IndexError
    | Some need =>
    let syntax :=
      if need then
        match syntax with
        | t0 :: rest => t0 :: TInt 6 :: rest
        | [] => [TInt 6]
        end
      else syntax in
    match syntax with
    | t0 :: t1 :: rest =>
      match int_token t0 with
      | None => Raise value_error
      | Some pool =>
      (* Set the recalculated pool *)
      let t0 := TStr (Py.str (pool + pool_mod)) in
      (* Modify or replace the difficulty *)
      let diff_mod := match mods_tl with [] => "+0"%string | m1 :: _ => m1 end in
      let finish (t1 : token) (diff_desc : string) :=
        match token_strings (t0 :: t1 :: rest) with
        | Some l => Ok (inr (Py.join " " l, pool_desc +:+ diff_desc))
        | None => Raise Py.TypeError
        end in
      if Py.isdigit diff_mod then
        finish (TStr diff_mod) ("Diff. to " +:+ diff_mod +:+ ".")
      else
        match Py.int diff_mod with
        | None => Raise value_error
        | Some diff_mod =>
        match int_token t1 with
        | None => Raise value_error
        | Some current_diff =>
            finish (TStr (Py.str (current_diff + diff_mod)))
                   (if negb (diff_mod =? 0)
                    then "Diff. " +:+ Py.format_plus diff_mod +:+ "."
                    else "")
        end
        end
      end
    | _ => Raise Py.IndexError
    end
    end
  end
  end.

(** The last lines of [__match_stored_roll]: the syntax goes into the
    command, and the stored comment [compound[1]] does when the command has
    none of its own. *)
Definition finish_command (compound : string * option string)
    (command : gmap string string) (syntax : string) : gmap string string :=
  (* Only use the stored command if a new one isn't given *)
  let command := <["syntax" := syntax]> command in
  if Py.truthy (snd compound) && negb (Py.truthy (command !! "comment"))
  then match snd compound with
       | Some c => <["comment" := c]> command
       | None => command
       end
  else command.

(** [__match_stored_roll]: the reply, then the command dictionary and the
    table as the call leaves them.  A key of [command] bound to [None] is
    an absent key of the map. *)
Definition match_stored_roll (db : list Row) (command : gmap string string)
    (m : usematch) (guild userid : Z)
    : outcome reply * gmap string string * list Row :=
  let name := name m in
  match retrieve_stored_roll db guild userid name with
  | None =>
      match find_similar_macro db guild userid name with
      | Some alt =>
          (Ok (Message ("`" +:+ name +:+ "` not found. Did you mean `" +:+ alt +:+ "`?")),
           command, db)
      | None =>
          (Ok (Message ("Sorry, you have no macro named `" +:+ name +:+ "`!")),
           command, db)
      end
  | Some compound =>
      let syntax := fst compound in
      match mods m with
      | Some (String _ _ as mods) =>
          (* The user may modify a stored roll by changing the pool, diff, or both *)
          match apply_mods syntax mods (sign m) with
          | Raise e => (Raise e, command, db)
          | Ok (inl msg) => (Ok (Message msg), command, db)
          | Ok (inr (syntax, override)) =>
              (Ok Command,
               finish_command compound (<["override" := override]> command) syntax,
               db)
          end
      | _ => (Ok Command, finish_command compound command syntax, db)
      end
  end.

(** [query_saved_rolls] *)
Definition query_saved_rolls (db : list Row) (guild userid : Z)
    (command : gmap string string)
    : outcome reply * gmap string string * list Row :=
  match command !! "syntax" with
  | None => (Raise Py.TypeError, command, db)
  | Some syntax =>
  let comment := command !! "comment" in
  (* Store a new roll or change an old one. *)
  match match_ storex syntax with
  | Some gs =>
      let syntax := default "" (gs !! "syntax") in
      if is_valid_roll syntax then
        let '(msg, db) := store_roll db guild userid (default "" (gs !! "name"))
                            syntax comment in
        (Ok (Message msg), command, db)
      else (Ok (Message ("Sorry, `" +:+ syntax +:+ "` is invalid roll syntax!")),
            command, db)
  | None =>
  (* Change the comment of a stored roll *)
  match match_ commentx syntax with
  | Some gs =>
      let '(msg, db) := update_stored_comment db guild userid
                          (default "" (gs !! "name")) (default "" (gs !! "comment")) in
      (Ok (Message msg), command, db)
  | None =>
  (* Use a stored roll. *)
  match usex_match syntax with
  | Some m => match_stored_roll db command m guild userid
  | None =>
  (* Delete a stored roll. *)
  match match_ deletex syntax with
  | Some gs =>
      let '(msg, db) := delete_stored_roll db guild userid (default "" (gs !! "name")) in
      (Ok (Message msg), command, db)
  | None =>
  (* See if the user tried to do a multi-word macro *)
  match match_ multiwordx syntax with
  | Some _ => (Ok (Message "Sorry, macro names can't contain spaces!"), command, db)
  | None => (Ok (Message "Come again?"), command, db)
  end end end end end
  end.

(** [macro_count] *)
Definition macro_count (db : list Row) (guildid userid : Z) : nat :=
  length (filter (fun r => (Guild r =? guildid) && (ID r =? userid) = true) db).

(** [delete_user_rolls] *)
Definition delete_user_rolls (db : list Row) (guild userid : Z) : list Row :=
  filter (fun r => (Guild r =? guild) && (ID r =? userid) = false) db.

(** [stored_rolls]: the rows come in the order of the names, by a collation
    that is the database's; [order_by_name] stands for that sorting. *)
Definition stored_rolls (order_by_name : list Row -> list Row) (db : list Row)
    (guild userid : Z) : list (string * string) :=
  map (fun row =>
         let name := Name row in
         let syntax := Syntax row in
         let comment := Comment row in
         (name,
          if Py.truthy comment then syntax +:+ " # " +:+ default "" comment
          else syntax))
      (order_by_name
         (filter (fun r => (Guild r =? guild) && (ID r =? userid) = true) db)).

End Environment.

End RollDB.

(** ** Guild settings: storyteller/databases/settings.py *)

Module SettingsDB.

Import RollDB.

(** The values a setting can hold. *)
Inductive value :=
| VNone
| VBool (b : bool)
| VInt (n : Z)
| VStr (s : string).

Definition DEFAULT_DIFF : string := "default_diff".
Definition PREFIX : string := "prefix".
Definition XPL_ALWAYS : string := "xpl_always".
Definition NEVER_DOUBLE : string := "never_double".
Definition NULLIFY_ONES : string := "nullify_ones".
Definition NO_BOTCH : string := "no_botch".
Definition CHRONICLES : string := "chronicles".

(** The keys of [__PARAMETERS], in the order of the literal; the key
    written twice ("xpl_always" and [XPL_ALWAYS]) is one key. *)
Definition available_parameters : list string :=
  [PREFIX; "use_compact"; DEFAULT_DIFF; "xpl_always"; NEVER_DOUBLE;
   "always_double"; NULLIFY_ONES; NO_BOTCH; "wp_cancelable"; CHRONICLES]%string.

(** An entry of the cache [__all_settings].  The factory of that
    [defaultdict] is [lambda: default_params]: every guild without a row is
    handed the one dictionary [default_params] itself, not a copy, whereas a
    guild with a row owns the dictionary built from it. *)
Inductive slot :=
| Own (parameters : gmap string value)
| Shared.

Record state := {
  GuildSettings : gmap Z (gmap string value);  (* the table, by ID *)
  default_params : gmap string value;          (* the shared dictionary *)
  all_settings : gmap Z slot                   (* entries of the cache *)
}.

(** [str(value)] *)
Definition str_value (v : value) : string :=
  match v with
  | VNone => "None"
  | VBool true => "True"
  | VBool false => "False"
  | VInt n => Py.str n
  | VStr s => s
  end.

(** [int(value)] *)
Definition int_value (v : value) : outcome Z :=
  match v with
  | VNone => Raise Py.TypeError
  | VBool b => Ok (if b then 1 else 0)
  | VInt n => Ok n
  | VStr s => match Py.int s with
              | Some n => Ok n
              | None => Raise value_error
              end
  end.

(** [distutils.util.strtobool] *)
Definition strtobool (v : value) : outcome Z :=
  match v with
  | VStr s =>
      let val := Py.lower s in
      if bool_decide (val ∈ ["y"; "yes"; "t"; "true"; "on"; "1"]%string) then Ok 1
      else if bool_decide (val ∈ ["n"; "no"; "f"; "false"; "off"; "0"]%string) then Ok 0
      else Raise (Py.ValueError "invalid truth value")
  | _ => Raise Py.AttributeError
  end.

(** [__validated_parameter] *)
Definition validated_parameter (key : string) (new_value : value) : outcome value :=
  if negb (bool_decide (key ∈ available_parameters)) then
    Raise (Py.ValueError ("Unknown setting `" +:+ key +:+ "`!"))
  else if String.eqb key DEFAULT_DIFF then
    match int_value new_value with
    | Ok n =>
        if negb ((2 <=? n) && (n <=? 10)) then
          Raise (Py.ValueError ("Error! `" +:+ key +:+ "` must be an integer between 2-10."))
        else Ok (VInt n)
    | Raise (Py.ValueError _) =>
        Raise (Py.ValueError ("Error! `" +:+ key +:+ "` must be an integer between 2-10."))
    | Raise e => Raise e
    end
  else if String.eqb key PREFIX then Ok new_value
  else
    (* All other keys are true/false *)
    match strtobool new_value with
    | Ok n => Ok (VBool (negb (n =? 0)))
    | Raise (Py.ValueError _) =>
        Raise (Py.ValueError ("Error! `" +:+ key +:+ "` must be `true` or `false`!"))
    | Raise e => Raise e
    end.

(** The row a guild gets from the column defaults of the table. *)
Definition default_row : gmap string value :=
  list_to_map [("prefix", VNone); ("use_compact", VBool false);
    ("xpl_spec", VBool false); ("nullify_ones", VBool false);
    ("xpl_always", VBool false); ("never_double", VBool false);
    ("always_double", VBool false); ("default_diff", VInt 6);
    ("wp_cancelable", VBool false); ("chronicles", VBool false);
    ("no_botch", VBool false)]%string.

(** [__fetch_all_settings]: one dictionary per row, holding the columns
    named by [available_parameters]. *)
Definition row_parameters (row : gmap string value) : gmap string value :=
  list_to_map (map (fun param => (param, default VNone (row !! param)))
                   available_parameters).

Definition initial_default_params : gmap string value :=
  <[PREFIX := VNone]> (<[DEFAULT_DIFF := VInt 6]> ∅).

Definition fetch_all_settings (table : gmap Z (gmap string value)) : state :=
  {| GuildSettings := table;
     default_params := initial_default_params;
     all_settings := (fun row => Own (row_parameters row)) <$> table |}.

Definition enter_shared (st : state) (guild : Z) : state :=
  {| GuildSettings := GuildSettings st;
     default_params := default_params st;
     all_settings := <[guild := Shared]> (all_settings st) |}.

(** [settings_for_guild], that is [self.__all_settings[guild]]: a guild that
    has no entry gets [default_params] and is entered under it.  The
    dictionary is returned as its contents at the time of the call. *)
Definition settings_for_guild (st : state) (guild : Z)
    : gmap string value * state :=
  match all_settings st !! guild with
  | Some (Own parameters) => (parameters, st)
  | Some Shared => (default_params st, st)
  | None => (default_params st, enter_shared st guild)
  end.

(** The settings a guild is shown now. *)
Definition cached (st : state) (guild : Z) : gmap string value :=
  fst (settings_for_guild st guild).

(** [self.__all_settings[guild][key]]: a dictionary built from a row raises
    [KeyError] on a key it lacks; [default_params], itself a
    [defaultdict(lambda: False)], answers [False] and keeps it. *)
Definition getitem (st : state) (guild : Z) (key : string) : outcome value * state :=
  match all_settings st !! guild with
  | Some (Own parameters) =>
      match parameters !! key with
      | Some v => (Ok v, st)
      | None => (Raise Py.KeyError, st)
      end
  | _ =>
      let st := enter_shared st guild in
      match default_params st !! key with
      | Some v => (Ok v, st)
      | None =>
          (Ok (VBool false),
           {| GuildSettings := GuildSettings st;
              default_params := <[key := VBool false]> (default_params st);
              all_settings := all_settings st |})
      end
  end.

(** [self.__all_settings[guild][key] = value] *)
Definition set_cached (st : state) (guild : Z) (key : string) (v : value) : state :=
  match all_settings st !! guild with
  | Some (Own parameters) =>
      {| GuildSettings := GuildSettings st;
         default_params := default_params st;
         all_settings := <[guild := Own (<[key := v]> parameters)]> (all_settings st) |}
  | _ =>
      {| GuildSettings := GuildSettings st;
         default_params := <[key := v]> (default_params st);
         all_settings := <[guild := Shared]> (all_settings st) |}
  end.

(** [UPDATE GuildSettings SET {key}=%s WHERE ID=%s;] *)
Definition execute_update (st : state) (guild : Z) (key : string) (v : value) : state :=
  {| GuildSettings := alter (<[key := v]>) guild (GuildSettings st);
     default_params := default_params st;
     all_settings := all_settings st |}.

(** The two writes of [update]: the table, then the cache. *)
Definition written (st : state) (guild : Z) (key : string) (v : value) : state :=
  set_cached (execute_update st guild key v) guild key v.

Definition is_true (v : value) : bool :=
  match v with
  | VNone => false
  | VBool b => b
  | VInt n => negb (n =? 0)
  | VStr s => negb (String.eqb s "")
  end.

(** [update].  The calls it makes to itself are bounded by [fuel]; they are
    made with the keys of the Chronicles bundle only, which do not recurse. *)
Fixpoint update (fuel : nat) (st : state) (guild : Z) (key : string) (value : value)
    : outcome string * state :=
  match fuel with
  | O => (Raise Py.RecursionError, st)
  | S fuel =>
  match validated_parameter key value with
  | Raise e => (Raise e, st)
  | Ok value =>
    let st := written st guild key value in
    let message := "Setting `" +:+ key +:+ "` to `" +:+ str_value value +:+ "`!" in
    if String.eqb key PREFIX then
      if is_true value then
        let message := "Setting the prefix to `" +:+ str_value value +:+ "`." in
        match value with
        | VStr s =>
            if (3 <? String.length s)%nat then
              (Ok (message +:+ " A prefix this long might be annoying to type!"), st)
            else (Ok message, st)
        | _ => (Raise Py.TypeError, st)
        end
      else (Ok "Reset the command prefix to `/m` and `!m`.", st)
    else if String.eqb key CHRONICLES then
      (* Also set default difficulty, always explode, nullify ones, no botching *)
      match update fuel st guild DEFAULT_DIFF (VInt (if is_true value then 8 else 6)) with
      | (Raise e, st) => (Raise e, st)
      | (Ok _, st) =>
      match update fuel st guild XPL_ALWAYS (VStr (str_value value)) with
      | (Raise e, st) => (Raise e, st)
      | (Ok _, st) =>
      match update fuel st guild NULLIFY_ONES (VStr (str_value value)) with
      | (Raise e, st) => (Raise e, st)
      | (Ok _, st) =>
      match update fuel st guild NO_BOTCH (VStr (str_value value)) with
      | (Raise e, st) => (Raise e, st)
      | (Ok _, st) =>
          (Ok ((if is_true value then "Enabling" else "Disabling")
               +:+ " Chronicles of Darkness mode."), st)
      end end end end
    else (Ok message, st)
  end
  end.

(** Every dictionary built from a row has the key [PREFIX]. *)
Definition has_prefix_keys (st : state) : Prop :=
  forall guild parameters,
    all_settings st !! guild = Some (Own parameters) -> is_Some (parameters !! PREFIX).

(** [get_prefixes] *)
Definition get_prefixes (st : state) (guild : Z) : outcome (list value) * state :=
  match getitem st guild PREFIX with
  | (Ok prefix, st) =>
      if is_true prefix then (Ok [prefix], st)
      else (Ok [VStr "!m"; VStr "/m"], st)
  | (Raise e, st) => (Raise e, st)
  end.

(** [add_guild] and [remove_guild]: they write the table only.  [ID] is the
    primary key, so a second row for a guild is refused. *)
Definition add_guild (st : state) (guildid : Z) : outcome unit * state :=
  match GuildSettings st !! guildid with
  | Some _ => (Raise Py.UniqueViolation, st)
  | None =>
      (Ok tt,
       {| GuildSettings := <[guildid := default_row]> (GuildSettings st);
          default_params := default_params st;
          all_settings := all_settings st |})
  end.

Definition remove_guild (st : state) (guildid : Z) : state :=
  {| GuildSettings := delete guildid (GuildSettings st);
     default_params := default_params st;
     all_settings := all_settings st |}.

(** [", ".join(...)] of setting values: every item has to be a string. *)
Fixpoint texts (vs : list value) : option (list string) :=
  match vs with
  | [] => Some []
  | VStr s :: vs =>
      match texts vs with
      | Some l => Some (s :: l)
      | None => None
      end
  | _ :: _ => None
  end.

(** [value], the method that reads one setting of a guild. *)
Definition value_of (st : state) (guild : Z) (key : string) : outcome value * state :=
  if negb (bool_decide (key ∈ available_parameters)) then
    (Raise (Py.ValueError ("Unknown setting `" +:+ key +:+ "`!")), st)
  else if String.eqb key PREFIX then
    match get_prefixes st guild with
    | (Ok prefixes, st) =>
        match texts prefixes with
        | Some l => (Ok (VStr (Py.join ", " l)), st)
        | None => (Raise Py.TypeError, st)
        end
    | (Raise e, st) => (Raise e, st)
    end
  else getitem st guild key.

End SettingsDB.

(** ** Dice *)

Module Roll.

(** Modelled from the spec: [roll.Traditional.roll(pool, faces)] is not among
    the sources.  It draws [pool] independent faces from 1..[faces]
    ("draw pool independent faces uniformly from {1..10}", "die (1-10,
    freshly rolled unless explicitly reused)").  The generator is an endless
    supply of raw numbers of which [used] have been consumed; a face is one
    more than the next raw number reduced modulo [faces]. *)
Record generator := {
  supply : nat -> Z;
  used : nat
}.

Definition next_face (g : generator) (faces : Z) : Z * generator :=
  (1 + supply g (used g) mod faces,
   {| supply := supply g; used := S (used g) |}).

Fixpoint roll (g : generator) (pool : nat) (faces : Z) : list Z * generator :=
  match pool with
  | O => ([], g)
  | S pool =>
      let '(face, g) := next_face g faces in
      let '(rest, g) := roll g pool faces in
      (face :: rest, g)
  end.

End Roll.

(** ** One initiative roll: tzimisce/initiative/initiative.py *)

Module Initiative.

Import RollDB.

(** The attributes of an [Initiative]; [modifier] is the attribute [mod]. *)
Record t := {
  modifier : Z;
  die : Z;
  action : option string
}.

(** [__init__]: a die that is [None] or 0 is replaced by a fresh draw. *)
Definition new (g : Roll.generator) (modifier : Z) (die : option Z)
    (action : option string) : outcome t * Roll.generator :=
  match die with
  | Some (Zpos _ as d) | Some (Zneg _ as d) =>
      (Ok {| modifier := modifier; die := d; action := action |}, g)
  | _ =>
      match Roll.roll g 1 10 with
      | (d :: _, g) => (Ok {| modifier := modifier; die := d; action := action |}, g)
      | ([], g) => (Raise Py.IndexError, g)
      end
  end.

(** The property [init]. *)
Definition init (i : t) : Z := modifier i + die i.

(** [__eq__] and [__lt__] *)
Definition eq (i other : t) : bool := init i =? init other.
Definition lt (i other : t) : bool := init i <? init other.

(** [__str__] *)
Definition to_string (i : t) : string :=
  "*" +:+ Py.str (die i) +:+ " + " +:+ Py.str (modifier i) +:+ ":*   **"
  +:+ Py.str (init i) +:+ "**".

(** [reroll] *)
Definition reroll (i : t) (g : Roll.generator) : outcome t * Roll.generator :=
  match Roll.roll g 1 10 with
  | (d :: _, g) =>
      (Ok {| modifier := modifier i; die := d;
             action := None (* Reroll means new action *) |}, g)
  | ([], g) => (Raise Py.IndexError, g)
  end.

End Initiative.

(** ** The initiative table of a channel *)

Module InitiativeManager.

(** Modelled from the spec: the class [InitiativeManager] of
    [storyteller.initiative] is not among the sources.  A table is an
    "ordered sequence of InitiativeEntry, descending by score"; "a character
    may hold multiple entries" and "identity for modification/removal
    purposes is the character name"; ties keep their insertion order. *)
Definition t := list (string * Initiative.t).

Definition count (m : t) : nat := length m.

Definition has_character (m : t) (character : string) : bool :=
  existsb (fun e => String.eqb (fst e) character) m.

(** Modelled from the spec: the order of the table, "descending by score",
    "stable by insertion order" on equal scores. *)
Fixpoint place (e : string * Initiative.t) (m : t) : t :=
  match m with
  | [] => [e]
  | e' :: m' =>
      if Initiative.lt (snd e') (snd e) then e :: m
      else e' :: place e m'
  end.

Definition sorted (m : t) : t := foldl (fun acc e => place e acc) [] m.

(** Modelled from the spec: [add_init], "draws a fresh die via the Dice
    Evaluator's single-d10 primitive, creates an InitiativeEntry, inserts
    into the table re-sorted descending by score". *)
Definition add_init (m : t) (g : Roll.generator) (character : string) (modifier : Z)
    : RollDB.outcome Initiative.t * t * Roll.generator :=
  match Initiative.new g modifier None None with
  | (RollDB.Ok init, g) => (RollDB.Ok init, sorted (m ++ [(character, init)]), g)
  | (RollDB.Raise e, g) => (RollDB.Raise e, m, g)
  end.

(** Modelled from the spec: [modify_init], "locates the character's entry
    (first match if several); if absent, reports no-op; otherwise adds delta
    to modifier, recomputes score, re-sorts".  The answer is the entry's
    roll, or [None] when the character has none. *)
Fixpoint modify_first (m : t) (character : string) (delta : Z)
    : option (Initiative.t * t) :=
  match m with
  | [] => None
  | (c, i) :: m' =>
      if String.eqb c character then
        let i' := {| Initiative.modifier := Initiative.modifier i + delta;
                     Initiative.die := Initiative.die i;
                     Initiative.action := Initiative.action i |} in
        Some (i', (c, i') :: m')
      else
        match modify_first m' character delta with
        | Some (i', m'') => Some (i', (c, i) :: m'')
        | None => None
        end
  end.

Definition modify_init (m : t) (character : string) (delta : Z)
    : option Initiative.t * t :=
  match modify_first m character delta with
  | Some (i', m') => (Some i', sorted m')
  | None => (None, m)
  end.

End InitiativeManager.

(** ** The command minit: storyteller/parse/initiative.py *)

Module ParseInitiative.

Import RollDB.

(** Modelled from the spec: [storyteller.engine.build_embed] is not among
    the sources; the embed is "a structured result that a presentation layer
    formats", kept here as the arguments it was built from.  A description
    is the text of one roll or the table that [str(manager)] would render. *)
Inductive description :=
| OfInitiative (text : string)
| OfTable (m : InitiativeManager.t).

Record embed := {
  title : string;
  embed_description : description;
  footer : string
}.

(** Modelled from the spec: the class [Response] of the parse package is not
    among the sources; it carries the text and the embed of the answer. *)
Record response := {
  content : option string;
  response_embed : option embed
}.

(** What the command reads of its context. *)
Record context := {
  guild : Z;
  channel : Z;
  display_name : string;
  invoked_with : string
}.

(** Modelled from the spec: the module state of [storyteller.initiative] and
    [storyteller.engine.statistics], not among the sources.  Tables are
    "keyed by channel id", the persistence layer keeps "per (guild, channel,
    character) rows" of modifier and die, and the statistics count the
    initiative rolls of a guild. *)
Record world := {
  settings : SettingsDB.state;
  tables : gmap Z InitiativeManager.t;
  persisted : gmap (Z * Z * string) (Z * Z);
  initiative_rolls : gmap Z nat;
  dice : Roll.generator
}.

(** Modelled from the spec: [get_table], [add_table], [set_initiative] and
    [increment_initiative_rolls] are not among the sources; they read and
    write the parts of the state named above. *)
Definition get_table (w : world) (channel : Z) : option InitiativeManager.t :=
  tables w !! channel.

Definition with_settings (w : world) (st : SettingsDB.state) : world :=
  {| settings := st; tables := tables w; persisted := persisted w;
     initiative_rolls := initiative_rolls w; dice := dice w |}.

Definition add_table (w : world) (channel : Z) (m : InitiativeManager.t) : world :=
  {| settings := settings w; tables := <[channel := m]> (tables w);
     persisted := persisted w; initiative_rolls := initiative_rolls w;
     dice := dice w |}.

Definition with_dice (w : world) (g : Roll.generator) : world :=
  {| settings := settings w; tables := tables w; persisted := persisted w;
     initiative_rolls := initiative_rolls w; dice := g |}.

Definition set_initiative (w : world) (guild channel : Z) (character : string)
    (modifier die : Z) : world :=
  {| settings := settings w; tables := tables w;
     persisted := <[(guild, channel, character) := (modifier, die)]> (persisted w);
     initiative_rolls := initiative_rolls w; dice := dice w |}.

Definition increment_initiative_rolls (w : world) (guild : Z) : world :=
  {| settings := settings w; tables := tables w; persisted := persisted w;
     initiative_rolls :=
       <[guild := S (default O (initiative_rolls w !! guild))]> (initiative_rolls w);
     dice := dice w |}.

Definition nl : string := String Re.newline "".

Definition usage (prefix : string) : string :=
  "**Initiative Manager Commands**" +:+ nl
  +:+ "`" +:+ prefix +:+ "i` — Show initiative table (if one exists in this channel)" +:+ nl
  +:+ "`" +:+ prefix +:+ "i <mod> <character>` — Roll initiative (character optional)" +:+ nl
  +:+ "`" +:+ prefix +:+ "i dec <action> [-n character] [-c N]` — Declare a character action" +:+ nl
  +:+ "`" +:+ prefix +:+ "i remove [character]` — Remove initiative (character optional)" +:+ nl
  +:+ "`" +:+ prefix +:+ "i reroll` — Reroll all initiatives" +:+ nl
  +:+ "`" +:+ prefix +:+ "i clear` — Clear the table".

Definition is_sign (c : ascii) : bool := Ascii.eqb c "-" || Ascii.eqb c "+".

(** [initiative(ctx, mod, character_name)]: the response, or the exception
    that leaves the function, and the state afterwards. *)
Definition initiative (w : world) (ctx : context) (modifier : option string)
    (character_name : option string) : outcome response * world :=
  match SettingsDB.get_prefixes (settings w) (guild ctx) with
  | (Raise e, st) => (Raise e, with_settings w st)
  | (Ok [], st) => (Raise Py.IndexError, with_settings w st)
  | (Ok (prefix :: _), st) =>
  let w := with_settings w st in
  let prefix := SettingsDB.str_value prefix in
  let usage := usage prefix in
  let manager := get_table w (channel ctx) in
  match modifier with
  | None | Some EmptyString =>
      (* Not adding a new initiative to the table *)
      match manager with
      | Some m =>
          (Ok {| content := if String.eqb (invoked_with ctx) "reroll"
                            then Some "Rerolling initiative!"%string else None;
                 response_embed :=
                   Some {| title := "Initiative"; embed_description := OfTable m;
                           footer := "Commands: remove | clear | reroll | declare" |} |},
           w)
      | None => (Ok {| content := Some usage; response_embed := None |}, w)
      end
  | Some (String sign0 _ as text) =>
      (* Rolling a new initiative or augmenting an old one *)
      let is_augmenting := is_sign sign0 in
      match Py.int text with
      | None => (Ok {| content := Some usage; response_embed := None |}, w)
      | Some delta =>
      let character_name :=
        if Py.truthy character_name then default "" character_name
        else display_name ctx in
      let answer (w : world) (m : InitiativeManager.t) (init : Initiative.t) :=
        let entry := if (1 <? InitiativeManager.count m)%nat then "entries" else "entry" in
        let footer := Py.str (Z.of_nat (InitiativeManager.count m)) +:+ " " +:+ entry
                      +:+ " in table. To see initiative: " +:+ prefix +:+ "i" in
        let footer := if is_augmenting
                      then "Initiative modified by " +:+ Py.format_plus delta
                           +:+ "." +:+ nl +:+ footer
                      else footer in
        (* Track the initiative in the database *)
        let w := set_initiative w (guild ctx) (channel ctx) character_name
                   (Initiative.modifier init) (Initiative.die init) in
        let w := increment_initiative_rolls w (guild ctx) in
        (Ok {| content := None;
               response_embed :=
                 Some {| title := character_name +:+ "'s Initiative";
                         embed_description := OfInitiative (Initiative.to_string init);
                         footer := footer |} |}, w) in
      if negb is_augmenting then
        match InitiativeManager.add_init (default [] manager) (dice w)
                character_name delta with
        | (Ok init, m, g) =>
            let w := add_table (with_dice w g) (channel ctx) m in
            answer w m init
        | (Raise (Py.ValueError _), _, g) =>
            (Ok {| content := Some usage; response_embed := None |}, with_dice w g)
        | (Raise e, _, g) => (Raise e, with_dice w g)
        end
      else
        match InitiativeManager.modify_init (default [] manager) character_name delta with
        | (Some init, m) =>
            (* the table is changed in place; a manager made by this call
               and never added is seen by nobody else *)
            let w := match manager with
                     | Some _ => add_table w (channel ctx) m
                     | None => w
                     end in
            answer w m init
        | (None, _) =>
            (Ok {| content := Some (character_name +:+ " has no initiative to modify!");
                   response_embed := None |}, w)
        end
      end
  end
  end.

End ParseInitiative.

(** ** Arithmetic rolls: tzimisce/parse/traditional.py *)

Module Traditional.

Import RollDB.

(** Modelled from the spec: [tzimisce.masquerade.build_embed] is not among
    the sources; the embed is kept as the arguments it was built from. *)
Record embed := {
  author : string;
  header : option string;
  color : Z;
  fields : list (string * string * bool);
  footer : option string;
  description : option string
}.

Definition sum (rolls : list Z) : Z := foldl Z.add 0 rolls.

(** [__traditional_roll].  [roll.traditional.roll_from_string] is not among
    the sources: [rolled] is what it returned for the syntax of the command,
    the rolls and whether this looks like an initiative roll. *)
Definition traditional_roll (author : string) (command : gmap string string)
    (rolled : list Z * bool) : bool * (string + embed) :=
  let compact := command !! "compact" in
  let syntax := command !! "syntax" in
  let comment := command !! "comment" in
  let '(rolls, rolling_initiative) := rolled in
  let result := Py.str (sum rolls) in
  let suggestion := "Rolling initiative? Try the /mi command!"%string in
  let suggested := rolling_initiative in
  let comment :=
    if rolling_initiative then
      if Py.truthy comment
      then Some (default "" comment +:+ ParseInitiative.nl +:+ suggestion)
      else Some suggestion
    else comment in
  (* Show the individual dice if more than 1 were rolled *)
  let description :=
    if (1 <? length rolls)%nat then Some (Py.join "+" (map Py.str rolls))
    else None in
  (* Compact mode means no embed *)
  if Py.truthy compact then
    let compact_string :=
      if Py.truthy description then default "" description +:+ " =" else "" in
    let compact_string := compact_string +:+ " " +:+ result in
    let compact_string :=
      if Py.truthy comment
      then compact_string +:+ ParseInitiative.nl +:+ "> " +:+ default "" comment
      else compact_string in
    (suggested, inl compact_string)
  else
    (* Not using compact mode! *)
    (suggested,
     inr {| author := author; header := syntax; color := 0;
            fields := [("Result"%string, result, false)];
            footer := comment; description := description |}).

(** [s.split(c)] for a separator of one character: the pieces of the text
    between the occurrences of [c].  It is used to read a description back
    term by term. *)
Fixpoint split_on (c : ascii) (s : string) : list string :=
  match s with
  | EmptyString => [""]
  | String d s' =>
      match split_on c s' with
      | x :: l => if Ascii.eqb d c then "" :: x :: l else String d x :: l
      | [] => []
      end
  end.

(** [__tradx]: a number, or dice written NdM, and then any number of such
    terms, each after a plus sign.  The groups without a name are not
    kept. *)
Definition tradx : Re.re :=
  Re.Seq
    (Re.Group "syntax"
       (Re.Seq (Re.Plus (Re.Class Re.digit))
       (Re.Seq (Re.Opt (Re.Seq (Re.Class (Re.is_char "d")) (Re.Plus (Re.Class Re.digit))))
               (Re.Star
                  (Re.Seq (Re.Star (Re.Class Re.space))
                  (Re.Seq (Re.Class (Re.is_char "+"))
                  (Re.Seq (Re.Star (Re.Class Re.space))
                          (Re.Alt (Re.Plus (Re.Class Re.digit))
                                  (Re.Seq (Re.Plus (Re.Class Re.digit))
                                  (Re.Seq (Re.Class (Re.is_char "d"))
                                          (Re.Plus (Re.Class Re.digit))))))))))))
    Re.End.

End Traditional.

(** ** Splitting off the comment: masquerade.py *)

Module Masquerade.

(** [split_comment(raw, clean)]: the two items of the answer; the second is
    [None] where the source returns [None]. *)
Definition split_comment (raw clean : string) : list (option string) :=
  match Py.index "#" raw with
  | None => [Some raw; None]
  | Some raw_comment =>
      match Py.index "#" clean with
      | None => [Some raw; None]
      | Some clean_comment =>
          let split_candidate :=
            if (raw_comment =? clean_comment)%nat then clean else raw in
          map Some (Py.split_once "#" split_candidate)
      end
  end.

End Masquerade.

(** ** Concrete inputs used further down *)

Module Examples.

(** A table holding the macro "brawl" of user 2 on guild 1. *)
Definition brawl_db : list RollDB.Row :=
  [{| RollDB.ID := 2; RollDB.Name := "brawl"; RollDB.Syntax := "7 6";
      RollDB.Guild := 1; RollDB.Comment := None |}].

(** The same macro, stored with a comment. *)
Definition brawl_with_comment : list RollDB.Row :=
  [{| RollDB.ID := 2; RollDB.Name := "brawl"; RollDB.Syntax := "7 6";
      RollDB.Guild := 1; RollDB.Comment := Some "stored"%string |}].

(** A similarity search that finds nothing, and a validity check that
    accepts every syntax. *)
Definition no_similar : string -> string -> bool := fun _ _ => false.
Definition any_roll : string -> bool := fun _ => true.

(** Two guilds join after the settings were loaded: each gets its row in the
    table, and neither has an entry of its own in the cache. *)
Definition two_new_guilds : SettingsDB.state :=
  snd (SettingsDB.add_guild
         (snd (SettingsDB.add_guild (SettingsDB.fetch_all_settings ∅) 1)) 2).

(** Channel 7 of guild 1 has a table with Alice in it; Bob is not in it. *)
Definition quiet_world : ParseInitiative.world :=
  {| ParseInitiative.settings := SettingsDB.fetch_all_settings ∅;
     ParseInitiative.tables :=
       {[ 7 := [("Alice"%string,
                 {| Initiative.modifier := 3; Initiative.die := 7;
                    Initiative.action := None |})] ]};
     ParseInitiative.persisted := {[ (1, 7, "Alice"%string) := (3, 7) ]};
     ParseInitiative.initiative_rolls := {[ 1 := 1%nat ]};
     ParseInitiative.dice := {| Roll.supply := fun _ => 0; Roll.used := 0 |} |}.

Definition bob_in_channel_7 : ParseInitiative.context :=
  {| ParseInitiative.guild := 1; ParseInitiative.channel := 7;
     ParseInitiative.display_name := "Bob"; ParseInitiative.invoked_with := "i" |}.

End Examples.

(** ** Notions used to state properties of the code above *)

Module Notions.

(** A character that [LIKE] reads literally. *)
Definition literal (c : ascii) : Prop :=
  c <> "_"%char /\ c <> "%"%char /\ c <> "\"%char.

(** A text without white space. *)
Definition spaceless (s : string) : Prop :=
  forall c, In c (list_ascii_of_string s) -> Py.isspace c = false.

(** A token as [split] makes them: not empty, and without white space. *)
Definition token_like (t : string) : Prop := t <> ""%string /\ spaceless t.

(** A text made of word characters and dashes, the characters of a macro
    name. *)
Definition wordy (s : string) : Prop :=
  forall c, In c (list_ascii_of_string s) -> Re.word_or_dash c = true.

(** Whether some character class of a pattern takes the character. *)
Fixpoint accepts (r : Re.re) (c : ascii) : bool :=
  match r with
  | Re.Eps | Re.End => false
  | Re.Class p => p c
  | Re.Seq a b | Re.Alt a b => accepts a c || accepts b c
  | Re.Star a | Re.Group _ a => accepts a c
  end.

End Notions.

(** * Properties *)

(** ** The built-ins and the patterns on sample texts *)

Section Samples.

Import RollDB.

Example split_sample : Py.split "  7   6 w " = ["7"; "6"; "w"]%string.
Proof. reflexivity. Qed.

Example int_sample :
  (Py.int "+2", Py.int " -03 ", Py.int "1_0", Py.int "6w", Py.int "")
  = (Some 2, Some (-3), Some 10, None, None).
Proof. reflexivity. Qed.

Example str_sample :
  (Py.str 9, Py.str (-4), Py.format_plus 2, Py.format_plus (-2), Py.format_plus 0)
  = ("9", "-4", "+2", "-2", "+0")%string.
Proof. reflexivity. Qed.

Example ilike_sample :
  (ilike "BraWl" "brawl", ilike "axb" "a_b", ilike "brawl" "braw") = (true, true, false).
Proof. reflexivity. Qed.

Example usex_plain : usex_match "brawl" = Some {| name := "brawl"; mods := None; sign := None |}.
Proof. vm_compute. reflexivity. Qed.

Example usex_signed :
  usex_match "brawl +2"
  = Some {| name := "brawl"; mods := Some "+2"%string; sign := Some "+"%string |}.
Proof. vm_compute. reflexivity. Qed.

Example usex_two_tokens :
  usex_match "brawl 0 8"
  = Some {| name := "brawl"; mods := Some "0 8"%string; sign := None |}.
Proof. vm_compute. reflexivity. Qed.

Example usex_dash_in_name :
  usex_match "brawl-2 +3 -1"
  = Some {| name := "brawl-2"; mods := Some "+3 -1"%string; sign := Some "+"%string |}.
Proof. vm_compute. reflexivity. Qed.

Example usex_two_spaces : usex_match "brawl 2  8" = None.
Proof. vm_compute. reflexivity. Qed.

Example storex_sample :
  (fun gs => (gs !! "name", gs !! "syntax")) <$> Re.match_ storex "brawl = 7 6"
  = Some (Some "brawl"%string, Some "7 6"%string).
Proof. vm_compute. reflexivity. Qed.

End Samples.

(** ** Stored rolls *)

Module MacroFacts.

Import RollDB.

Lemma selects_set_syntax g u n s r : selects g u n (set_syntax s r) = selects g u n r.
Proof. reflexivity. Qed.

Lemma selects_set_comment g u n c r : selects g u n (set_comment c r) = selects g u n r.
Proof. reflexivity. Qed.

(** An UPDATE that leaves ID, Guild and Name alone changes the first
    selected row into its image. *)
Lemma retrieve_update_where g u n f db :
  (forall r, selects g u n (f r) = selects g u n r) ->
  retrieve_stored_roll (update_where g u n f db) g u n =
  option_map (fun r => (Syntax (f r), Comment (f r)))
    (head (filter (fun r => selects g u n r = true) db)).
Proof.
  intros Hf. unfold retrieve_stored_roll, update_where.
  induction db as [|r db IH]; [reflexivity|].
  cbn [map]. rewrite !filter_cons.
  destruct (selects g u n r) eqn:E.
  - rewrite decide_True by (rewrite Hf; exact E).
    rewrite decide_True by reflexivity. reflexivity.
  - rewrite decide_False by (rewrite E; discriminate).
    rewrite decide_False by discriminate. exact IH.
Qed.

Lemma retrieve_app_miss g u n db r :
  retrieve_stored_roll db g u n = None ->
  selects g u n r = true ->
  retrieve_stored_roll (db ++ [r]) g u n = Some (Syntax r, Comment r).
Proof.
  unfold retrieve_stored_roll. intros Hnone Hsel.
  rewrite filter_app.
  destruct (filter _ db) as [|r0 l]; [|discriminate].
  rewrite filter_cons, decide_True by exact Hsel. reflexivity.
Qed.

(** After [__store_roll], the macro is found under its name and carries the
    stored syntax. *)
Lemma retrieve_after_store db g u n syntax c :
  ilike n n = true ->
  exists c', retrieve_stored_roll (snd (store_roll db g u n syntax c)) g u n
             = Some (syntax, c').
Proof.
  intros Hn. unfold store_roll, is_roll_stored.
  destruct (retrieve_stored_roll db g u n) as [p|] eqn:E; cbn [negb].
  - assert (Hhd : exists r, head (filter (fun r => selects g u n r = true) db) = Some r).
    { unfold retrieve_stored_roll in E.
      destruct (filter _ db) as [|r l]; [discriminate|]. exists r. reflexivity. }
    destruct Hhd as [r Hr].
    destruct (Py.truthy c); cbn [snd];
      rewrite retrieve_update_where by reflexivity; rewrite Hr; cbn; eauto.
  - cbn [snd]. eexists. apply retrieve_app_miss; [exact E|].
    unfold selects; cbn. rewrite !Z.eqb_refl. exact Hn.
Qed.


Lemma finish_command_syntax compound command syntax :
  finish_command compound command syntax !! "syntax" = Some syntax.
Proof.
  unfold finish_command.
  destruct (Py.truthy (snd compound) && _); [destruct (snd compound)|];
    rewrite ?lookup_insert_ne by discriminate; apply lookup_insert_eq.
Qed.

Lemma finish_command_override compound command syntax :
  finish_command compound command syntax !! "override" = command !! "override".
Proof.
  unfold finish_command.
  destruct (Py.truthy (snd compound) && _); [destruct (snd compound)|];
    rewrite ?lookup_insert_ne by discriminate; reflexivity.
Qed.

Section Hit.

Variable similar : string -> string -> bool.
Variables (db : list Row) (guild userid : Z) (m : usematch).
Variable compound : string * option string.
Hypothesis hit : retrieve_stored_roll db guild userid (name m) = Some compound.

Lemma match_hit_plain command :
  Py.truthy (mods m) = false ->
  match_stored_roll similar db command m guild userid
  = (Ok Command, finish_command compound command (fst compound), db).
Proof.
  intros Hm. unfold match_stored_roll. rewrite hit.
  destruct (mods m) as [[|c ms]|]; try reflexivity; discriminate.
Qed.

Lemma match_hit_mods command ms :
  mods m = Some ms -> Py.truthy (Some ms) = true ->
  match_stored_roll similar db command m guild userid
  = match apply_mods (fst compound) ms (sign m) with
    | Raise e => (Raise e, command, db)
    | Ok (inl msg) => (Ok (Message msg), command, db)
    | Ok (inr (syntax, override)) =>
        (Ok Command,
         finish_command compound (<["override" := override]> command) syntax, db)
    end.
Proof.
  intros Hm Ht. unfold match_stored_roll. rewrite hit, Hm.
  destruct ms; [discriminate|reflexivity].
Qed.

End Hit.

(** [query_saved_rolls] on a text that only the use pattern matches. *)
Lemma query_use similar is_valid_roll db guild userid command text m :
  command !! "syntax" = Some text ->
  Re.match_ storex text = None ->
  Re.match_ commentx text = None ->
  usex_match text = Some m ->
  query_saved_rolls similar is_valid_roll db guild userid command
  = match_stored_roll similar db command m guild userid.
Proof.
  intros Hs H1 H2 H3. unfold query_saved_rolls. rewrite Hs, H1, H2, H3. reflexivity.
Qed.

Lemma finish_command_comment compound command syntax :
  finish_command compound command syntax !! "comment"
  = if Py.truthy (command !! "comment") then command !! "comment"
    else if Py.truthy (snd compound) then snd compound
    else command !! "comment".
Proof.
  unfold finish_command.
  rewrite lookup_insert_ne by discriminate.
  destruct (Py.truthy (command !! "comment")); cbn [negb andb].
  - rewrite andb_false_r. apply lookup_insert_ne. discriminate.
  - rewrite andb_true_r. destruct (snd compound) as [[|a c]|]; cbn.
    + apply lookup_insert_ne. discriminate.
    + apply lookup_insert_eq.
    + apply lookup_insert_ne. discriminate.
Qed.

(** Whatever the modifiers, a command that comes back was finished by
    [finish_command] from the command as it was, up to its override notice. *)
Lemma match_hit_command similar db guild userid m compound command c db' :
  retrieve_stored_roll db guild userid (name m) = Some compound ->
  match_stored_roll similar db command m guild userid = (Ok Command, c, db') ->
  db' = db /\
  exists c0 syntax, c = finish_command compound c0 syntax
                    /\ c0 !! "comment" = command !! "comment".
Proof.
  intros Hhit. unfold match_stored_roll. rewrite Hhit.
  destruct (mods m) as [[|a ms]|].
  - intros [= <- <-]. split; [reflexivity|]. eauto.
  - destruct (apply_mods _ _ _) as [[msg|[syntax override]]|e]; try discriminate.
    intros [= <- <-]. split; [reflexivity|].
    exists (<["override" := override]> command), syntax. split; [reflexivity|].
    apply lookup_insert_ne. discriminate.
  - intros [= <- <-]. split; [reflexivity|]. eauto.
Qed.

Lemma split_nonempty ms t ts : Py.split ms = t :: ts -> Py.truthy (Some ms) = true.
Proof. destruct ms; [discriminate|reflexivity]. Qed.

Lemma token_strings_TStr l : token_strings (map TStr l) = Some l.
Proof. induction l as [|x l IH]; [reflexivity|]. cbn. rewrite IH. reflexivity. Qed.

Section Accepted.

Variables (stored ms : string) (sign : option string).
Variables (t0 : string) (ts : list string) (pool_mod : Z).
Variables (p : string) (rest : list string) (pool : Z).
Hypothesis split_mods : Py.split ms = t0 :: ts.
Hypothesis int_mod : Py.int t0 = Some pool_mod.
Hypothesis accepted : pool_mod = 0 \/ Py.truthy sign = true.
Hypothesis split_stored : Py.split stored = p :: rest.
Hypothesis int_pool : Py.int p = Some pool.

Lemma guard_passes : negb (pool_mod =? 0) && negb (Py.truthy sign) = false.
Proof.
  destruct accepted as [-> | ->]; [reflexivity|]. cbn. apply andb_false_r.
Qed.

(** The difficulty is the second token [d] when it starts with a digit, and
    the default [TInt 6] put before [tail] otherwise. *)
Lemma apply_mods_with (d : token) (tail : list string) :
  (rest = [] /\ d = TInt 6 /\ tail = []
   \/ (exists c r rs, rest = String c r :: rs /\ Py.isdigit_char c = false
                      /\ d = TInt 6 /\ tail = rest)
   \/ (exists c r, rest = String c r :: tail /\ Py.isdigit_char c = true
                   /\ d = TStr (String c r))) ->
  apply_mods stored ms sign =
  let diff_mod := match ts with [] => "+0"%string | m1 :: _ => m1 end in
  let pool' := Py.str (pool + pool_mod) in
  if Py.isdigit diff_mod then
    Ok (inr (Py.join " " (pool' :: diff_mod :: tail),
             pool_desc pool_mod +:+ ("Diff. to " +:+ diff_mod +:+ ".")))
  else
    match Py.int diff_mod with
    | None => Raise value_error
    | Some delta =>
        match int_token d with
        | None => Raise value_error
        | Some current_diff =>
            Ok (inr (Py.join " " (pool' :: Py.str (current_diff + delta) :: tail),
                     pool_desc pool_mod +:+
                       (if negb (delta =? 0)
                        then "Diff. " +:+ Py.format_plus delta +:+ "."
                        else "")))
        end
    end.
Proof.
  intros Hd. unfold apply_mods.
  rewrite split_mods, int_mod, guard_passes, split_stored.
  destruct Hd as [(-> & -> & ->) | [(c & r & rs & -> & Hc & -> & ->) | (c & r & -> & Hc & ->)]];
    cbn [map starts_with_digit option_map negb int_token token_strings];
    rewrite ?Hc; cbn [negb int_token]; rewrite int_pool;
    cbv zeta; destruct (Py.isdigit _);
    cbn [token_strings option_map]; rewrite ?token_strings_TStr;
    cbn [option_map]; try reflexivity;
    destruct (Py.int (match ts with [] => _ | _ => _ end)); try reflexivity;
    cbn [int_token]; try reflexivity.
Qed.

End Accepted.

End MacroFacts.

Section MacroClaims.

Import RollDB MacroFacts Examples.

(** C1. Once a macro "brawl" is stored with syntax "7 6", whatever the table
    held before, the command "brawl" comes back with the syntax "7 6", and
    the command "brawl +2" comes back with the syntax "9 6" and an override
    notice in which "Pool +2." occurs. *)
Theorem C1_macro_round_trip :
  forall similar is_valid_roll (db : list Row) (guild userid : Z)
         (comment : option string) (command : gmap string string),
    let db' := snd (store_roll db guild userid "brawl" "7 6" comment) in
    (exists c,
        query_saved_rolls similar is_valid_roll db' guild userid
          (<["syntax" := "brawl"]> command) = (Ok Command, c, db')
        /\ c !! "syntax" = Some "7 6"%string)
    /\ (exists c o,
        query_saved_rolls similar is_valid_roll db' guild userid
          (<["syntax" := "brawl +2"]> command) = (Ok Command, c, db')
        /\ c !! "syntax" = Some "9 6"%string
        /\ c !! "override" = Some o /\ Py.contains "Pool +2." o).
Proof.
  intros similar is_valid_roll db guild userid comment command db'.
  destruct (retrieve_after_store db guild userid "brawl" "7 6" comment eq_refl)
    as [c' Hret].
  fold db' in Hret. split.
  - eexists. split.
    + rewrite (query_use _ _ _ _ _ _ "brawl"
                 {| name := "brawl"; mods := None; sign := None |});
        [ | apply lookup_insert_eq | vm_compute; reflexivity ..].
      apply (match_hit_plain similar db' guild userid
               {| name := "brawl"; mods := None; sign := None |} _ Hret).
      reflexivity.
    + apply finish_command_syntax.
  - eexists. exists "Pool +2. "%string. split; [|split; [|split]].
    + rewrite (query_use _ _ _ _ _ _ "brawl +2"
                 {| name := "brawl"; mods := Some "+2"%string; sign := Some "+"%string |});
        [ | apply lookup_insert_eq | vm_compute; reflexivity ..].
      rewrite (match_hit_mods similar db' guild userid
                 {| name := "brawl"; mods := Some "+2"%string; sign := Some "+"%string |}
                 _ Hret _ "+2") by reflexivity.
      reflexivity.
    + apply finish_command_syntax.
    + rewrite finish_command_override. apply lookup_insert_eq.
    + exists ""%string, " "%string. reflexivity.
Qed.

(** C2, as stated, fails: on the stored syntax "7 6" the command "brawl 2 8"
    carries the digits-only second token 8, yet the difficulty is not
    replaced: the pool modifier 2 has no sign, so the answer is the message
    about pool modifiers and the command is left as it was. *)
Lemma C2_counterexample :
  let command : gmap string string := {["syntax" := "brawl 2 8"%string]} in
  usex_match "brawl 2 8" = Some {| name := "brawl"; mods := Some "2 8"%string; sign := None |}
  /\ query_saved_rolls no_similar any_roll brawl_db 1 2 command
     = (Ok (Message pool_sign_error), command, brawl_db)
  /\ command !! "syntax" <> Some "7 8"%string
  /\ command !! "override" = None.
Proof.
  cbv zeta. split; [vm_compute; reflexivity|]. split; [|split].
  - rewrite (query_use _ _ _ _ _ _ "brawl 2 8"
               {| name := "brawl"; mods := Some "2 8"%string; sign := None |});
      [ | vm_compute; reflexivity ..].
    reflexivity.
  - intros H; vm_compute in H; discriminate.
  - vm_compute; reflexivity.
Qed.

(** C2, amended. On a stored macro whose syntax begins with an integer pool,
    and when the pool modifier is zero or carries a sign, a use with a second
    modifier token brings the command back with the syntax rebuilt: a
    digits-only token takes the place of the difficulty and the override
    notice ends in "Diff. to N."; a signed token is added to the current
    difficulty, which is the integer written by the second token of the stored
    syntax when that token starts with a digit, and the default 6 when the
    stored syntax has one token only or its second token does not start with
    a digit (the 6 is then put before that token). *)
Theorem C2_difficulty_override :
  forall similar (db : list Row) (command : gmap string string) (m : usematch)
         (guild userid : Z) (stored : string) (stored_comment : option string)
         (ms t0 t1 : string) (pool_mod : Z) (p : string) (rest : list string)
         (pool : Z) (d : option string) (tail : list string),
    retrieve_stored_roll db guild userid (name m) = Some (stored, stored_comment) ->
    mods m = Some ms -> Py.split ms = [t0; t1] -> Py.int t0 = Some pool_mod ->
    pool_mod = 0 \/ Py.truthy (sign m) = true ->
    Py.split stored = p :: rest -> Py.int p = Some pool ->
    (d = None /\ tail = rest
       /\ (rest = [] \/ exists c r rs, rest = String c r :: rs /\ Py.isdigit_char c = false)
     \/ exists c r, d = Some (String c r) /\ rest = String c r :: tail
                    /\ Py.isdigit_char c = true) ->
    let returns (syntax : string) (notice : string -> Prop) :=
      exists c o,
        match_stored_roll similar db command m guild userid = (Ok Command, c, db)
        /\ c !! "syntax" = Some syntax /\ c !! "override" = Some o /\ notice o in
    (Py.isdigit t1 = true ->
     returns (Py.join " " (Py.str (pool + pool_mod) :: t1 :: tail))
             (fun o => o = pool_desc pool_mod +:+ "Diff. to " +:+ t1 +:+ "."))
    /\ (forall delta current : Z,
          Py.isdigit t1 = false -> Py.int t1 = Some delta ->
          match d with
          | Some d => Py.int d = Some current
          | None => current = 6
          end ->
          returns (Py.join " " (Py.str (pool + pool_mod) :: Py.str (current + delta) :: tail))
                  (fun _ => True)).
Proof.
  intros similar db command m guild userid stored stored_comment ms t0 t1 pool_mod
         p rest pool d tail Hhit Hmods Hsplit Hint Hacc Hstored Hpool Hd returns.
  pose proof (match_hit_mods similar db guild userid m _ Hhit command ms Hmods
                (split_nonempty _ _ _ Hsplit)) as Hm.
  cbn [fst] in Hm.
  set (tok := match d with Some d => TStr d | None => TInt 6 end).
  assert (Hshape :
    rest = [] /\ tok = TInt 6 /\ tail = []
    \/ (exists c r rs, rest = String c r :: rs /\ Py.isdigit_char c = false
                       /\ tok = TInt 6 /\ tail = rest)
    \/ (exists c r, rest = String c r :: tail /\ Py.isdigit_char c = true
                    /\ tok = TStr (String c r))).
  { subst tok. destruct Hd as [(-> & -> & Hrest) | (c & r & -> & -> & Hc)].
    - destruct Hrest as [-> | (c & r & rs & -> & Hc)]; [left; auto|].
      right; left. exists c, r, rs. auto.
    - right; right. exists c, r. auto. }
  pose proof (apply_mods_with stored ms (sign m) t0 [t1] pool_mod p rest pool
                Hsplit Hint Hacc Hstored Hpool tok tail Hshape) as Happ.
  cbv zeta in Happ. rewrite Happ in Hm.
  split.
  - intros Hdig. rewrite Hdig in Hm. eexists. eexists. split; [exact Hm|].
    split; [apply finish_command_syntax|].
    split; [rewrite finish_command_override; apply lookup_insert_eq|reflexivity].
  - intros delta current Hdig Hdelta Hcur. rewrite Hdig, Hdelta in Hm.
    assert (Htokint : int_token tok = Some current).
    { subst tok. destruct d; cbn; [exact Hcur|congruence]. }
    rewrite Htokint in Hm. eexists. eexists. split; [exact Hm|].
    split; [apply finish_command_syntax|].
    split; [rewrite finish_command_override; apply lookup_insert_eq|exact I].
Qed.

(** C2 at work: "brawl +2 8" on the stored syntax "7 6". *)
Lemma C2_difficulty_override_witness :
  exists c o,
    match_stored_roll no_similar brawl_db {["syntax" := "brawl +2 8"%string]}
      {| name := "brawl"; mods := Some "+2 8"%string; sign := Some "+"%string |} 1 2
    = (Ok Command, c, brawl_db)
    /\ c !! "syntax" = Some "9 8"%string /\ c !! "override" = Some o
    /\ o = "Pool +2. Diff. to 8."%string.
Proof.
  exact (proj1 (C2_difficulty_override no_similar brawl_db
           {["syntax" := "brawl +2 8"%string]}
           {| name := "brawl"; mods := Some "+2 8"%string; sign := Some "+"%string |} 1 2
           "7 6" None "+2 8" "+2" "8" 2 "7" ["6"%string] 7 (Some "6"%string) []
           eq_refl eq_refl eq_refl eq_refl (or_intror eq_refl) eq_refl eq_refl
           (or_intror (ex_intro _ "6"%char (ex_intro _ ""%string
              (conj eq_refl (conj eq_refl eq_refl)))))) eq_refl).
Defined.

(** C4. On a hit, a first modifier token that reads as a nonzero number and
    has no sign is answered by the message about pool modifiers, and the
    command and the table are left as they were.  A first token that reads
    as zero is let through without a sign: no message is ever the answer,
    and on a stored syntax that is an integer pool followed by an integer
    difficulty the command comes back with both unchanged in value. *)
Theorem C4_pool_sign_validation :
  forall similar (db : list Row) (command : gmap string string) (m : usematch)
         (guild userid : Z) (stored : string) (stored_comment : option string)
         (ms t0 : string) (ts : list string),
    retrieve_stored_roll db guild userid (name m) = Some (stored, stored_comment) ->
    mods m = Some ms -> Py.split ms = t0 :: ts ->
    Py.truthy (sign m) = false ->
    (forall n : Z, Py.int t0 = Some n -> n <> 0 ->
       match_stored_roll similar db command m guild userid
       = (Ok (Message pool_sign_error), command, db))
    /\ (Py.int t0 = Some 0 ->
        (forall text,
           fst (fst (match_stored_roll similar db command m guild userid))
           <> Ok (Message text))
        /\ (forall p c r tail pool current,
              ts = [] -> Py.split stored = p :: String c r :: tail ->
              Py.isdigit_char c = true ->
              Py.int p = Some pool -> Py.int (String c r) = Some current ->
              exists cmd,
                match_stored_roll similar db command m guild userid
                = (Ok Command, cmd, db)
                /\ cmd !! "syntax"
                   = Some (Py.join " " (Py.str pool :: Py.str current :: tail)))).
Proof.
  intros similar db command m guild userid stored stored_comment ms t0 ts
         Hhit Hmods Hsplit Hsign.
  pose proof (match_hit_mods similar db guild userid m _ Hhit command ms Hmods
                (split_nonempty _ _ _ Hsplit)) as Hm.
  cbn [fst] in Hm. split.
  - intros n Hn Hnz. rewrite Hm. unfold apply_mods.
    rewrite Hsplit, Hn, Hsign.
    destruct (Z.eqb_spec n 0) as [|_]; [contradiction|]. reflexivity.
  - intros Hzero. split.
    + intros text. rewrite Hm. unfold apply_mods.
      rewrite Hsplit, Hzero. cbn [Z.eqb negb andb].
      repeat match goal with
             | |- context [match ?x with _ => _ end] =>
                 lazymatch x with
                 | context [match _ with _ => _ end] => fail
                 | _ => destruct x
                 end
             | |- context [if ?x then _ else _] =>
                 lazymatch x with
                 | context [if _ then _ else _] => fail
                 | _ => destruct x
                 end
             end; cbn; discriminate.
    + intros p c r tail pool current -> Hstored Hc Hpool Hcur.
      pose proof (apply_mods_with stored ms (sign m) t0 [] 0 p _ pool
                    Hsplit Hzero (or_introl eq_refl) Hstored Hpool
                    (TStr (String c r)) tail) as Happ.
      rewrite Happ in Hm by (right; right; exists c, r; auto).
      cbv zeta in Hm.
      change (Py.isdigit "+0") with false in Hm.
      change (Py.int "+0") with (Some 0) in Hm.
      cbn [int_token] in Hm. rewrite Hcur in Hm.
      rewrite !Z.add_0_r in Hm.
      eexists. split; [exact Hm|]. apply finish_command_syntax.
Qed.

(** C4 at work: "brawl 2" on the stored syntax "7 6". *)
Lemma C4_pool_sign_validation_witness :
  match_stored_roll no_similar brawl_db {["syntax" := "brawl 2"%string]}
    {| name := "brawl"; mods := Some "2"%string; sign := None |} 1 2
  = (Ok (Message pool_sign_error), {["syntax" := "brawl 2"%string]}, brawl_db).
Proof.
  refine (proj1 (C4_pool_sign_validation no_similar brawl_db
                   {["syntax" := "brawl 2"%string]}
                   {| name := "brawl"; mods := Some "2"%string; sign := None |} 1 2
                   "7 6" None "2" "2" [] eq_refl eq_refl eq_refl eq_refl)
                2 eq_refl _).
  discriminate.
Defined.

(** C3, as stated, fails: the macro "brawl" has the stored comment "stored",
    the command is given the comment "mine", and the command that comes back
    carries "mine". *)
Lemma C3_counterexample :
  exists c,
    match_stored_roll no_similar brawl_with_comment
      (<["comment" := "mine"]> {["syntax" := "brawl"]})
      {| name := "brawl"; mods := None; sign := None |} 1 2
    = (Ok Command, c, brawl_with_comment)
    /\ c !! "comment" = Some "mine"%string
    /\ c !! "comment" <> Some "stored"%string.
Proof.
  eexists. split; [reflexivity|]. split; [|intros H; vm_compute in H; discriminate].
  vm_compute. reflexivity.
Qed.

(** C3, amended. On a hit, a command that comes back keeps the comment given
    at invocation whenever there is one; the macro's stored comment is used
    only when none was given and the stored one is not empty.  Without
    modifiers a hit always brings the command back. *)
Theorem C3_comment_priority :
  forall similar (db : list Row) (command : gmap string string) (m : usematch)
         (guild userid : Z) (stored : string) (stored_comment : option string),
    retrieve_stored_roll db guild userid (name m) = Some (stored, stored_comment) ->
    let kept :=
      if Py.truthy (command !! "comment") then command !! "comment"
      else if Py.truthy stored_comment then stored_comment
      else command !! "comment" in
    (mods m = None ->
     exists c, match_stored_roll similar db command m guild userid = (Ok Command, c, db)
               /\ c !! "syntax" = Some stored /\ c !! "comment" = kept)
    /\ (forall c db',
          match_stored_roll similar db command m guild userid = (Ok Command, c, db') ->
          c !! "comment" = kept).
Proof.
  intros similar db command m guild userid stored stored_comment Hhit kept. split.
  - intros Hm. eexists. split; [|split].
    + apply (match_hit_plain similar db guild userid m _ Hhit). rewrite Hm. reflexivity.
    + apply finish_command_syntax.
    + apply finish_command_comment.
  - intros c db' Hc.
    destruct (match_hit_command _ _ _ _ _ _ _ _ _ Hhit Hc) as [_ (c0 & syntax & -> & Hc0)].
    rewrite finish_command_comment, Hc0. reflexivity.
Qed.

(** C3 at work: no comment at invocation, so the stored one is taken. *)
Lemma C3_comment_priority_witness :
  exists c,
    match_stored_roll no_similar brawl_with_comment {["syntax" := "brawl"]}
      {| name := "brawl"; mods := None; sign := None |} 1 2
    = (Ok Command, c, brawl_with_comment)
    /\ c !! "syntax" = Some "7 6"%string /\ c !! "comment" = Some "stored"%string.
Proof.
  exact (proj1 (C3_comment_priority no_similar brawl_with_comment {["syntax" := "brawl"]}
                  {| name := "brawl"; mods := None; sign := None |} 1 2
                  "7 6" (Some "stored"%string) eq_refl) eq_refl).
Defined.

End MacroClaims.

(** ** Guild settings *)

Module SettingsFacts.

Import RollDB SettingsDB.

Lemma cached_execute_update st g g' k v :
  cached (execute_update st g' k v) g = cached st g.
Proof.
  unfold cached, settings_for_guild, execute_update. cbn.
  destruct (all_settings st !! g) as [[d|]|]; reflexivity.
Qed.

Lemma cached_set_cached_eq st g k v : cached (set_cached st g k v) g !! k = Some v.
Proof.
  unfold cached, settings_for_guild, set_cached.
  destruct (all_settings st !! g) as [[d|]|]; cbn;
    rewrite lookup_insert_eq; cbn; apply lookup_insert_eq.
Qed.

Lemma cached_set_cached_ne st g k k' v :
  k <> k' -> cached (set_cached st g k v) g !! k' = cached st g !! k'.
Proof.
  intros Hk. unfold cached, settings_for_guild, set_cached.
  destruct (all_settings st !! g) as [[d|]|]; cbn;
    rewrite lookup_insert_eq; cbn; apply lookup_insert_ne; exact Hk.
Qed.

Lemma table_set_cached st g k v : GuildSettings (set_cached st g k v) = GuildSettings st.
Proof. unfold set_cached. destruct (all_settings st !! g) as [[d|]|]; reflexivity. Qed.

Lemma update_plain fuel st g key v v' :
  String.eqb key PREFIX = false -> String.eqb key CHRONICLES = false ->
  validated_parameter key v = Ok v' ->
  update (S fuel) st g key v
  = (Ok ("Setting `" +:+ key +:+ "` to `" +:+ str_value v' +:+ "`!"), written st g key v').
Proof.
  intros H1 H2 Hv. cbn [update]. rewrite Hv, H1, H2. reflexivity.
Qed.

Lemma cached_written_eq st g k v : cached (written st g k v) g !! k = Some v.
Proof. apply cached_set_cached_eq. Qed.

Lemma cached_written_ne st g k k' v :
  k <> k' -> cached (written st g k v) g !! k' = cached st g !! k'.
Proof.
  intros Hk. unfold written. rewrite cached_set_cached_ne by exact Hk.
  rewrite cached_execute_update. reflexivity.
Qed.

Lemma table_written st g k v :
  GuildSettings (written st g k v) = alter (<[k := v]>) g (GuildSettings st).
Proof. unfold written. rewrite table_set_cached. reflexivity. Qed.

Lemma validated_bool_text key b :
  key ∈ [XPL_ALWAYS; NULLIFY_ONES; NO_BOTCH] ->
  validated_parameter key (VStr (str_value (VBool b))) = Ok (VBool b).
Proof.
  intros Hk. repeat (apply elem_of_cons in Hk as [-> | Hk]);
    [destruct b; vm_compute; reflexivity ..|].
  apply elem_of_nil in Hk. destruct Hk.
Qed.

(** The update stays within the guild as soon as one of the two guilds has a
    dictionary of its own in the cache. *)
Lemma update_plain_frame fuel st g g' key v msg st' :
  g <> g' ->
  String.eqb key PREFIX = false -> String.eqb key CHRONICLES = false ->
  (exists d, all_settings st !! g = Some (Own d))
  \/ (exists d, all_settings st !! g' = Some (Own d)) ->
  update (S fuel) st g key v = (Ok msg, st') ->
  cached st' g' = cached st g'.
Proof.
  intros Hg H1 H2 Hown. cbn [update].
  destruct (validated_parameter key v) as [v'|e]; [|discriminate].
  rewrite H1, H2. intros [= _ <-].
  unfold cached, settings_for_guild, written, set_cached, execute_update. cbn.
  destruct Hown as [[d Hd] | [d Hd]].
  - rewrite Hd. cbn. rewrite lookup_insert_ne by exact Hg.
    destruct (all_settings st !! g') as [[d0|]|]; reflexivity.
  - destruct (all_settings st !! g) as [[d0|]|]; cbn;
      rewrite lookup_insert_ne by exact Hg; rewrite Hd; reflexivity.
Qed.

End SettingsFacts.

Section SettingsClaims.

Import RollDB SettingsDB SettingsFacts Examples.

(** C5. Whatever the state and the guild, [update(guild, "chronicles", v)]
    with a value that validates to a truth value [b] answers "Enabling" or
    "Disabling Chronicles of Darkness mode." according to [b]; afterwards the
    settings of the guild hold default_diff 8 if [b], 6 if not, and
    xpl_always, nullify_ones, no_botch and chronicles all equal to [b]; a row
    of the guild in the table holds the same five values. *)
Theorem C5_chronicles_composite_setter :
  forall (fuel : nat) (st : state) (guild : Z) (v : value) (b : bool),
    validated_parameter CHRONICLES v = Ok (VBool b) ->
    exists st',
      update (S (S fuel)) st guild CHRONICLES v
      = (Ok ((if b then "Enabling" else "Disabling") +:+ " Chronicles of Darkness mode."),
         st')
      /\ (let now := cached st' guild in
          now !! DEFAULT_DIFF = Some (VInt (if b then 8 else 6))
          /\ now !! XPL_ALWAYS = Some (VBool b)
          /\ now !! NULLIFY_ONES = Some (VBool b)
          /\ now !! NO_BOTCH = Some (VBool b)
          /\ now !! CHRONICLES = Some (VBool b))
      /\ (forall row, GuildSettings st !! guild = Some row ->
          exists row', GuildSettings st' !! guild = Some row'
            /\ row' !! DEFAULT_DIFF = Some (VInt (if b then 8 else 6))
            /\ row' !! XPL_ALWAYS = Some (VBool b)
            /\ row' !! NULLIFY_ONES = Some (VBool b)
            /\ row' !! NO_BOTCH = Some (VBool b)
            /\ row' !! CHRONICLES = Some (VBool b)).
Proof.
  intros fuel st guild v b Hv.
  set (st1 := written st guild CHRONICLES (VBool b)).
  set (st2 := written st1 guild DEFAULT_DIFF (VInt (if b then 8 else 6))).
  set (st3 := written st2 guild XPL_ALWAYS (VBool b)).
  set (st4 := written st3 guild NULLIFY_ONES (VBool b)).
  set (st5 := written st4 guild NO_BOTCH (VBool b)).
  exists st5. split; [|split].
  - change (update (S (S fuel)) st guild CHRONICLES v)
      with (match validated_parameter CHRONICLES v with
            | Raise e => (Raise e, st)
            | Ok value =>
                let st := written st guild CHRONICLES value in
                match update (S fuel) st guild DEFAULT_DIFF
                        (VInt (if is_true value then 8 else 6)) with
                | (Raise e, st) => (Raise e, st)
                | (Ok _, st) =>
                match update (S fuel) st guild XPL_ALWAYS (VStr (str_value value)) with
                | (Raise e, st) => (Raise e, st)
                | (Ok _, st) =>
                match update (S fuel) st guild NULLIFY_ONES (VStr (str_value value)) with
                | (Raise e, st) => (Raise e, st)
                | (Ok _, st) =>
                match update (S fuel) st guild NO_BOTCH (VStr (str_value value)) with
                | (Raise e, st) => (Raise e, st)
                | (Ok _, st) =>
                    (Ok ((if is_true value then "Enabling" else "Disabling")
                         +:+ " Chronicles of Darkness mode."), st)
                end end end end
            end).
    rewrite Hv. cbv zeta. cbn [is_true]. fold st1.
    rewrite (update_plain fuel st1 guild DEFAULT_DIFF _ (VInt (if b then 8 else 6)))
      by (try reflexivity; destruct b; reflexivity).
    fold st2.
    rewrite (update_plain fuel st2 guild XPL_ALWAYS _ (VBool b))
      by (try reflexivity; apply validated_bool_text; set_solver).
    fold st3.
    rewrite (update_plain fuel st3 guild NULLIFY_ONES _ (VBool b))
      by (try reflexivity; apply validated_bool_text; set_solver).
    fold st4.
    rewrite (update_plain fuel st4 guild NO_BOTCH _ (VBool b))
      by (try reflexivity; apply validated_bool_text; set_solver).
    reflexivity.
  - cbv zeta. subst st5 st4 st3 st2 st1.
    repeat split;
      repeat first [ apply cached_written_eq
                   | rewrite cached_written_ne by discriminate ].
  - intros row Hrow. subst st5 st4 st3 st2 st1.
    rewrite !table_written. rewrite !lookup_alter_eq, Hrow. cbn [fmap option_fmap option_map].
    eexists. split; [reflexivity|].
    repeat split;
      repeat first [ apply lookup_insert_eq
                   | rewrite lookup_insert_ne by discriminate ].
Qed.

(** C5 at work: Chronicles mode switched on for a guild without a row. *)
Lemma C5_chronicles_composite_setter_witness :
  exists st',
    update 2 (fetch_all_settings ∅) 1 CHRONICLES (VStr "true")
    = (Ok "Enabling Chronicles of Darkness mode."%string, st')
    /\ cached st' 1 !! DEFAULT_DIFF = Some (VInt 8)
    /\ cached st' 1 !! XPL_ALWAYS = Some (VBool true)
    /\ cached st' 1 !! NULLIFY_ONES = Some (VBool true)
    /\ cached st' 1 !! NO_BOTCH = Some (VBool true).
Proof.
  destruct (C5_chronicles_composite_setter 0 (fetch_all_settings ∅) 1 (VStr "true")
              true eq_refl) as (st' & Hu & (H1 & H2 & H3 & H4 & _) & _).
  exists st'. auto.
Defined.

(** C10 fails on the code: [update(1, "default_diff", "8")] succeeds, and the
    settings shown to guild 2, which were default_diff 6, are default_diff 8
    afterwards, although the row of guild 2 in the table still says 6. *)
Theorem C10_update_reaches_other_guild :
  exists st',
    update 2 two_new_guilds 1 DEFAULT_DIFF (VStr "8")
    = (Ok "Setting `default_diff` to `8`!"%string, st')
    /\ cached two_new_guilds 2 !! DEFAULT_DIFF = Some (VInt 6)
    /\ cached st' 2 !! DEFAULT_DIFF = Some (VInt 8)
    /\ cached st' 2 <> cached two_new_guilds 2
    /\ (GuildSettings st' !! 2) ≫= (.!! DEFAULT_DIFF) = Some (VInt 6).
Proof.
  eexists. split; [vm_compute; reflexivity|].
  split; [vm_compute; reflexivity|].
  split; [vm_compute; reflexivity|].
  split; [|vm_compute; reflexivity].
  intros H. apply (f_equal (.!! DEFAULT_DIFF)) in H. vm_compute in H. discriminate.
Qed.

End SettingsClaims.

(** ** Arithmetic rolls *)

Module StrFacts.

Lemma uint_no_plus d : Py.index "+" (NilEmpty.string_of_uint d) = None.
Proof. induction d; cbn; try rewrite IHd; reflexivity. Qed.

(** The decimal text of an integer has no plus sign in it. *)
Lemma str_no_plus z : Py.index "+" (Py.str z) = None.
Proof.
  unfold Py.str, NilZero.string_of_int, NilZero.string_of_uint.
  destruct (Z.to_int z) as [d|d]; destruct d; cbn;
    rewrite ?uint_no_plus; reflexivity.
Qed.

Lemma to_int_proper z :
  Z.to_int z <> Decimal.Pos Decimal.Nil /\ Z.to_int z <> Decimal.Neg Decimal.Nil.
Proof.
  destruct z as [|p|p]; cbn; split; try discriminate;
    intros [= H]; exact (Unsigned.to_uint_nonnil p H).
Qed.

(** [str] is one-to-one. *)
Lemma str_inj a b : Py.str a = Py.str b -> a = b.
Proof.
  unfold Py.str. intros H. apply DecimalZ.to_int_inj.
  apply (f_equal NilZero.int_of_string) in H.
  destruct (to_int_proper a), (to_int_proper b).
  rewrite !NilZero.isi in H by assumption. congruence.
Qed.

Lemma app_cons c x y : String c x +:+ y = String c (x +:+ y).
Proof. reflexivity. Qed.

Lemma app_nil y : "" +:+ y = y.
Proof. reflexivity. Qed.

Lemma append_assoc (a b c : string) : (a +:+ b) +:+ c = a +:+ (b +:+ c).
Proof. induction a as [|x a IH]; [reflexivity|]. rewrite !app_cons, IH. reflexivity. Qed.

Lemma append_empty_r s : s +:+ "" = s.
Proof. induction s as [|c s IH]; [reflexivity|]. rewrite app_cons, IH. reflexivity. Qed.

Lemma index_app_plus x y : Py.index "+" (x +:+ String "+" y) <> None.
Proof.
  induction x as [|c x IH]; rewrite ?app_cons, ?app_nil; cbn [Py.index];
    [discriminate|].
  destruct (Ascii.eqb c "+"); [discriminate|].
  destruct (Py.index "+" (x +:+ String "+" y)); [cbn; discriminate|contradiction].
Qed.

(** A text is cut at its first plus sign in one way only. *)
Lemma app_plus_inj x x' y y' :
  Py.index "+" x = None -> Py.index "+" x' = None ->
  x +:+ String "+" y = x' +:+ String "+" y' -> x = x' /\ y = y'.
Proof.
  revert x'. induction x as [|c x IH]; intros [|c' x'] Hx Hx' H;
    rewrite ?app_cons, ?app_nil in H; cbn [Py.index] in *.
  - injection H as ->. auto.
  - injection H as <- _. discriminate.
  - injection H as -> _. discriminate.
  - injection H as -> H.
    destruct (Ascii.eqb c' "+"); [discriminate|].
    destruct (Py.index "+" x) eqn:E1; [discriminate|].
    destruct (Py.index "+" x') eqn:E2; [discriminate|].
    destruct (IH x' eq_refl E2 H) as [-> ->]. auto.
Qed.

Lemma join_cons2 sep x y l :
  Py.join sep (x :: y :: l) = x +:+ sep +:+ Py.join sep (y :: l).
Proof. reflexivity. Qed.

(** Only the rolls 4 and 5 are described as "4+5". *)
Lemma described_4_5 rolls :
  Py.join "+" (map Py.str rolls) = "4+5"%string -> rolls = [4; 5].
Proof.
  destruct rolls as [|a [|b rest]]; cbn [map].
  - discriminate.
  - cbn. intros H. pose proof (str_no_plus a) as Ha. rewrite H in Ha. discriminate.
  - rewrite join_cons2. intros H.
    destruct (app_plus_inj (Py.str a) "4" _ "5" (str_no_plus a) eq_refl H) as [Ha Hb].
    apply (str_inj a 4) in Ha. subst a.
    destruct rest as [|c rest].
    + cbn in Hb. apply (str_inj b 5) in Hb. subst b. reflexivity.
    + cbn [map] in Hb. rewrite join_cons2 in Hb.
      exfalso. apply (index_app_plus (Py.str b) (Py.join "+" (map Py.str (c :: rest)))).
      change (Py.str b +:+ String "+" (Py.join "+" (map Py.str (c :: rest))))
        with (Py.str b +:+ "+" +:+ Py.join "+" (Py.str c :: map Py.str rest)).
      cbn [map]. rewrite Hb. reflexivity.
Qed.

End StrFacts.

Section TraditionalClaims.

Import RollDB StrFacts Traditional Examples.

(** C6, as stated, fails: the result and the description are made from the
    same list of rolls, so no roll is shown with the result 12 and the
    description "4+5": rolls described as "4+5" sum to 9. *)
Lemma C6_counterexample :
  ~ exists (author : string) (command : gmap string string) (rolled : list Z * bool)
           (suggested : bool) (e : embed),
      traditional_roll author command rolled = (suggested, inr e)
      /\ fields e = [("Result"%string, "12"%string, false)]
      /\ description e = Some "4+5"%string.
Proof.
  intros (author & command & [rolls ri] & suggested & e & Hroll & Hres & Hdesc).
  unfold traditional_roll in Hroll.
  destruct (Py.truthy (command !! "compact")); [discriminate|].
  injection Hroll as _ <-. cbn [fields description] in Hres, Hdesc.
  destruct (1 <? length rolls)%nat; [|discriminate].
  injection Hdesc as Hdesc. apply described_4_5 in Hdesc. subst rolls.
  vm_compute in Hres. discriminate.
Qed.

(** C6, amended. For the syntax "2d6+3" as for any other, the result shown
    is the sum of the values that were rolled and, when more than one value
    was rolled, the description is exactly those values joined by [+]; with
    one value or none there is no description.  So the description always
    adds up to the result: the description "4+5" is shown exactly when the
    values are 4 and 5, and then with the result 9; the result 12 is never
    shown with the description "4+5".  In compact mode the text shown begins
    with the description, if any, followed by [=], and then the result. *)
Theorem C6_arithmetic_roll_transparency :
  forall (author : string) (command : gmap string string) (rolls : list Z)
         (rolling_initiative : bool),
    let shown := traditional_roll author command (rolls, rolling_initiative) in
    let result := Py.str (sum rolls) in
    let described :=
      if (1 <? length rolls)%nat then Some (Py.join "+" (map Py.str rolls)) else None in
    (Py.truthy (command !! "compact") = false ->
     exists e,
       shown = (rolling_initiative, inr e)
       /\ header e = command !! "syntax"
       /\ fields e = [("Result"%string, result, false)]
       /\ description e = described)
    /\ (Py.truthy (command !! "compact") = true ->
        exists rest,
          shown
          = (rolling_initiative,
             inl (match described with
                  | Some d => d +:+ " ="
                  | None => ""
                  end +:+ " " +:+ result +:+ rest)))
    /\ (described = Some "4+5"%string <-> rolls = [4; 5])
    /\ (described = Some "4+5"%string -> result = "9"%string)
    /\ (result = "12"%string -> described <> Some "4+5"%string).
Proof.
  intros author command rolls ri shown result described.
  assert (H45 : described = Some "4+5"%string <-> rolls = [4; 5]).
  { subst described. split.
    - destruct (1 <? length rolls)%nat; [|discriminate].
      intros [= H]. apply described_4_5, H.
    - intros ->. reflexivity. }
  split; [|split; [|split; [exact H45|split]]].
  - intros Hcompact. subst shown. unfold traditional_roll. rewrite Hcompact.
    eexists. split; [reflexivity|]. repeat split.
  - intros Hcompact. subst shown. unfold traditional_roll. rewrite Hcompact.
    fold result. fold described.
    assert (Hd : (if Py.truthy described then default ""%string described +:+ " ="
                  else ""%string)
                 = match described with Some d => d +:+ " =" | None => ""%string end).
    { subst described. destruct (1 <? length rolls)%nat eqn:Hlen; [|reflexivity].
      destruct rolls as [|a [|b rest]]; try discriminate Hlen.
      cbn [map]. rewrite join_cons2.
      destruct (Py.str a) as [|c s]; [reflexivity|]. rewrite app_cons. reflexivity. }
    rewrite Hd.
    match goal with
    | |- context [if Py.truthy ?c then _ +:+ ParseInitiative.nl +:+ _ else _] =>
        destruct (Py.truthy c)
    end.
    + eexists. rewrite !append_assoc. reflexivity.
    + exists ""%string. rewrite append_empty_r. reflexivity.
  - intros H. apply H45 in H. subst result. rewrite H. reflexivity.
  - intros Hres H. apply H45 in H. subst result. rewrite H in Hres.
    vm_compute in Hres. discriminate.
Qed.

(** C6 at work: when the values rolled for "2d6+3" are the dice 4 and 5 alone,
    the description is "4+5" and the result shown is 9. *)
Lemma C6_arithmetic_roll_transparency_witness :
  exists e,
    traditional_roll "author" {["syntax" := "2d6+3"%string]} ([4; 5], false)
    = (false, inr e)
    /\ header e = Some "2d6+3"%string
    /\ fields e = [("Result"%string, "9"%string, false)]
    /\ description e = Some "4+5"%string.
Proof.
  pose proof (C6_arithmetic_roll_transparency "author" {["syntax" := "2d6+3"%string]}
                [4; 5] false) as H.
  cbv zeta in H. destruct H as (H & _).
  exact (H eq_refl).
Defined.

End TraditionalClaims.

(** ** Initiative *)

Module InitiativeFacts.

Import RollDB SettingsDB.

(** The prefix of a guild can always be read when the cache was built by
    [__fetch_all_settings] and written by [update] only. *)
Lemma fetch_has_prefix_keys table : has_prefix_keys (fetch_all_settings table).
Proof.
  intros g d. unfold fetch_all_settings. cbn. rewrite lookup_fmap.
  destruct (table !! g) as [row|]; [|discriminate].
  cbn. intros [= <-]. unfold row_parameters. cbn.
  rewrite lookup_insert_eq. eauto.
Qed.

Lemma written_has_prefix_keys st g k v :
  has_prefix_keys st -> has_prefix_keys (written st g k v).
Proof.
  intros H g' d. unfold written, set_cached, execute_update. cbn.
  destruct (all_settings st !! g) as [[d0|]|] eqn:E; cbn.
  - destruct (decide (g = g')) as [<-|Hne].
    + rewrite lookup_insert_eq. intros [= <-].
      destruct (decide (k = PREFIX)) as [->|Hk].
      * rewrite lookup_insert_eq. eauto.
      * rewrite lookup_insert_ne by exact Hk. exact (H g d0 E).
    + rewrite lookup_insert_ne by exact Hne. apply H.
  - destruct (decide (g = g')) as [<-|Hne].
    + rewrite lookup_insert_eq. discriminate.
    + rewrite lookup_insert_ne by exact Hne. apply H.
  - destruct (decide (g = g')) as [<-|Hne].
    + rewrite lookup_insert_eq. discriminate.
    + rewrite lookup_insert_ne by exact Hne. apply H.
Qed.

Lemma get_prefixes_ok st g :
  has_prefix_keys st ->
  exists prefix rest st',
    get_prefixes st g = (Ok (prefix :: rest), st').
Proof.
  intros H. unfold get_prefixes, getitem.
  destruct (all_settings st !! g) as [[d|]|] eqn:E.
  - destruct (H g d E) as [v Hv]. rewrite Hv.
    destruct (is_true v); eauto.
  - destruct (default_params (enter_shared st g) !! PREFIX) as [v|];
      [destruct (is_true v)|]; cbn; eauto.
  - destruct (default_params (enter_shared st g) !! PREFIX) as [v|];
      [destruct (is_true v)|]; cbn; eauto.
Qed.

(** A character without an entry is not modified, and neither is the table. *)
Lemma modify_absent m character delta :
  InitiativeManager.has_character m character = false ->
  InitiativeManager.modify_init m character delta = (None, m).
Proof.
  unfold InitiativeManager.modify_init, InitiativeManager.has_character.
  intros H.
  assert (Hf : InitiativeManager.modify_first m character delta = None).
  { induction m as [|[c i] m IH]; [reflexivity|].
    cbn in H. cbn [InitiativeManager.modify_first].
    destruct (String.eqb c character); [discriminate|].
    cbn in H. rewrite (IH H). reflexivity. }
  rewrite Hf. reflexivity.
Qed.

End InitiativeFacts.

Section InitiativeClaims.

Import RollDB InitiativeFacts ParseInitiative Examples.

(** C8. Whatever the roll, [reroll()] succeeds; the die is the face drawn by
    this call, between 1 and 10; the action is [None]; the modifier is the
    one before; and the score is the modifier plus the new die. *)
Theorem C8_reroll_frame :
  forall (i : Initiative.t) (g : Roll.generator),
    exists (i' : Initiative.t) (d : Z) (g' : Roll.generator),
      Initiative.reroll i g = (Ok i', g')
      /\ Roll.roll g 1 10 = ([d], g')
      /\ Initiative.die i' = d /\ 1 <= d <= 10
      /\ Initiative.action i' = None
      /\ Initiative.modifier i' = Initiative.modifier i
      /\ Initiative.init i' = Initiative.modifier i + d.
Proof.
  intros i g. unfold Initiative.reroll. cbn [Roll.roll Roll.next_face].
  eexists. eexists. eexists. split; [reflexivity|]. split; [reflexivity|].
  cbn. repeat split; try reflexivity;
    pose proof (Z.mod_pos_bound (Roll.supply g (Roll.used g)) 10 eq_refl); lia.
Qed.

(** C7, as stated, fails: a leading sign does not make the modifier an
    integer.  Bob, who has no entry in the table of channel 7, sends "+x":
    the answer is the usage text, not the message that Bob has no initiative
    to modify. *)
Lemma C7_counterexample :
  is_sign "+" = true
  /\ (forall m, get_table quiet_world (channel bob_in_channel_7) = Some m ->
                InitiativeManager.has_character m "Bob" = false)
  /\ fst (initiative quiet_world bob_in_channel_7 (Some "+x"%string) None)
     = Ok {| content := Some (usage "!m"); response_embed := None |}
  /\ usage "!m" <> "Bob has no initiative to modify!"%string.
Proof.
  split; [reflexivity|]. split; [|split].
  - intros m Hm. unfold get_table in Hm. cbn in Hm.
    rewrite lookup_singleton_eq in Hm. injection Hm as <-. reflexivity.
  - vm_compute. reflexivity.
  - intros H. vm_compute in H. discriminate.
Qed.

(** C7, amended. In any channel, when the modifier carries a leading sign
    and reads as an integer, and the named character has no entry in the
    table of the channel (or the channel has no table), the answer is that
    the character has no initiative to modify; the tables, and with them the
    set of channels that have one, the persisted rows, the statistics and
    the dice are as before. *)
Theorem C7_modify_absent_character :
  forall (w : world) (ctx : context) (sign0 : ascii) (digits : string)
         (delta : Z) (character_name : option string),
    SettingsDB.has_prefix_keys (settings w) ->
    is_sign sign0 = true ->
    Py.int (String sign0 digits) = Some delta ->
    let named := if Py.truthy character_name then default ""%string character_name
                 else display_name ctx in
    (forall m, get_table w (channel ctx) = Some m ->
               InitiativeManager.has_character m named = false) ->
    exists w',
      initiative w ctx (Some (String sign0 digits)) character_name
      = (Ok {| content := Some (named +:+ " has no initiative to modify!");
               response_embed := None |}, w')
      /\ tables w' = tables w
      /\ persisted w' = persisted w
      /\ initiative_rolls w' = initiative_rolls w
      /\ dice w' = dice w.
Proof.
  intros w ctx sign0 digits delta character_name Hwf Hsign Hint named Habsent.
  unfold initiative.
  destruct (get_prefixes_ok (settings w) (guild ctx) Hwf) as (prefix & rest & st' & ->).
  cbv zeta. rewrite Hsign, Hint. cbn [negb].
  change (get_table (with_settings w st') (channel ctx)) with (get_table w (channel ctx)).
  fold named.
  assert (Hmod : InitiativeManager.modify_init
                   (default [] (get_table w (channel ctx))) named delta
                 = (None, default [] (get_table w (channel ctx)))).
  { apply modify_absent. destruct (get_table w (channel ctx)) as [m|] eqn:E.
    - apply Habsent. reflexivity.
    - reflexivity. }
  rewrite Hmod. eexists. split; [reflexivity|]. cbn. auto.
Qed.

(** C7 at work: Bob, who is not in the table of channel 7, sends "+2". *)
Lemma C7_modify_absent_character_witness :
  exists w',
    initiative quiet_world bob_in_channel_7 (Some "+2"%string) None
    = (Ok {| content := Some "Bob has no initiative to modify!"%string;
             response_embed := None |}, w')
    /\ tables w' = tables quiet_world
    /\ persisted w' = persisted quiet_world
    /\ initiative_rolls w' = initiative_rolls quiet_world
    /\ dice w' = dice quiet_world.
Proof.
  refine (C7_modify_absent_character quiet_world bob_in_channel_7 "+" "2" 2 None
            (fetch_has_prefix_keys ∅) eq_refl eq_refl _).
  intros m Hm. unfold get_table in Hm. cbn in Hm.
  rewrite lookup_singleton_eq in Hm. injection Hm as <-. reflexivity.
Defined.

End InitiativeClaims.

(** ** Comment splitting *)

Module SplitFacts.

Import StrFacts.

(** [s.split(c, 1)] on a text that holds [c]: the text before the first [c]
    and the text after it. *)
Lemma split_once_first c s i :
  Py.index c s = Some i ->
  exists before after,
    Py.split_once c s = [before; after]
    /\ s = before +:+ String c after
    /\ Py.index c before = None
    /\ String.length before = i.
Proof.
  revert i. induction s as [|d s IH]; intros i; cbn [Py.index Py.split_once].
  - discriminate.
  - destruct (Ascii.eqb_spec d c) as [->|Hne].
    + intros [= <-]. exists ""%string, s. repeat split; reflexivity.
    + destruct (Py.index c s) as [j|]; [|discriminate].
      intros [= <-]. destruct (IH j eq_refl) as (b & a & -> & -> & Hb & Hl).
      exists (String d b), a. rewrite app_cons. cbn [Py.index String.length].
      destruct (Ascii.eqb_spec d c) as [|_]; [contradiction|].
      rewrite Hb, Hl. repeat split; reflexivity.
Qed.

End SplitFacts.

Section SplitClaims.

Import SplitFacts Masquerade.

(** C9. When the first [#] stands at the same index in the raw and in the
    clean text, the clean text is cut at its first [#]; when the two indices
    differ, the raw text is cut at its first [#]; in both cases the answer
    is the text before that [#] and the text after it.  When either text
    has no [#], the answer is the raw text, whole, and no comment. *)
Theorem C9_split_comment :
  forall raw clean : string,
    (forall i j, Py.index "#" raw = Some i -> Py.index "#" clean = Some j ->
       let cut (text : string) (at_ : nat) :=
         exists before after,
           split_comment raw clean = [Some before; Some after]
           /\ text = before +:+ "#" +:+ after
           /\ Py.index "#" before = None
           /\ String.length before = at_ in
       (i = j -> cut clean j) /\ (i <> j -> cut raw i))
    /\ (Py.index "#" raw = None \/ Py.index "#" clean = None ->
        split_comment raw clean = [Some raw; None]).
Proof.
  intros raw clean. split.
  - intros i j Hi Hj. cbv zeta. unfold split_comment. rewrite Hi, Hj. split.
    + intros ->. rewrite Nat.eqb_refl.
      destruct (split_once_first "#" clean j Hj) as (b & a & -> & H).
      exists b, a. split; [reflexivity|exact H].
    + intros Hne. destruct (Nat.eqb_spec i j) as [|_]; [contradiction|].
      destruct (split_once_first "#" raw i Hi) as (b & a & -> & H).
      exists b, a. split; [reflexivity|exact H].
  - unfold split_comment. intros [-> | Hc]; [reflexivity|].
    rewrite Hc. destruct (Py.index "#" raw); reflexivity.
Qed.

(** C9 at work: the same index in both texts, and a text without [#]. *)
Lemma C9_split_comment_witness :
  (exists before after,
     split_comment "5 # <@12> hits" "5 # @Al hits" = [Some before; Some after]
     /\ "5 # @Al hits"%string = before +:+ "#" +:+ after
     /\ Py.index "#" before = None
     /\ String.length before = 2%nat)
  /\ split_comment "5 6" "5 6" = [Some "5 6"%string; None].
Proof.
  exact (conj
           (proj1 (proj1 (C9_split_comment "5 # <@12> hits" "5 # @Al hits")
                     2%nat 2%nat eq_refl eq_refl) eq_refl)
           (proj2 (C9_split_comment "5 6" "5 6") (or_introl eq_refl))).
Defined.

End SplitClaims.

(** * Further properties of the code *)

(** ** Stored rolls: storing, commenting, deleting *)

Module StoreFacts.

Import RollDB MacroFacts.

(** Rows of one user on one guild. *)
Lemma selects_owner g u n r : selects g u n r = true -> Guild r = g /\ ID r = u.
Proof.
  unfold selects. intros H.
  apply andb_prop in H as [H _]. apply andb_prop in H as [H1 H2].
  split; [apply Z.eqb_eq, H1 | apply Z.eqb_eq, H2].
Qed.

Lemma selects_other g u n g' u' n' r :
  g' <> g \/ u' <> u -> selects g u n r = true -> selects g' u' n' r = false.
Proof.
  intros Hne H. destruct (selects_owner _ _ _ _ H) as [<- <-]. unfold selects.
  destruct Hne as [Hg | Hu].
  - destruct (Z.eqb_spec (Guild r) g'); [congruence|reflexivity].
  - destruct (Z.eqb_spec (ID r) u'); [congruence|]. apply andb_false_iff. left.
    apply andb_false_r.
Qed.

(** What one user retrieves does not depend on rows the query skips. *)
Lemma retrieve_filter_eq db db' g u n :
  filter (fun r => selects g u n r = true) db'
  = filter (fun r => selects g u n r = true) db ->
  retrieve_stored_roll db' g u n = retrieve_stored_roll db g u n.
Proof. unfold retrieve_stored_roll. intros ->. reflexivity. Qed.

Lemma filter_update_where_other g u n f g' u' n' db :
  (forall r, selects g' u' n' (f r) = selects g' u' n' r) ->
  g' <> g \/ u' <> u ->
  filter (fun r => selects g' u' n' r = true) (update_where g u n f db)
  = filter (fun r => selects g' u' n' r = true) db.
Proof.
  intros Hf Hne. unfold update_where. induction db as [|r db IH]; [reflexivity|].
  cbn [map]. rewrite !filter_cons, IH.
  destruct (selects g u n r) eqn:E; [|reflexivity].
  pose proof (selects_other _ _ _ _ _ n' _ Hne E) as E'.
  rewrite !decide_False; [reflexivity | rewrite E' | rewrite Hf, E']; discriminate.
Qed.

Lemma filter_filter_keep {A} (P Q : A -> Prop) `{forall x, Decision (P x)}
    `{forall x, Decision (Q x)} (l : list A) :
  (forall x, P x -> Q x) -> filter P (filter Q l) = filter P l.
Proof.
  intros HPQ. induction l as [|x l IH]; [reflexivity|].
  rewrite (filter_cons Q). destruct (decide (Q x)) as [HQ|HQ].
  - rewrite !filter_cons, IH. reflexivity.
  - rewrite filter_cons, IH. destruct (decide (P x)) as [HP|]; [|reflexivity].
    destruct (HQ (HPQ _ HP)).
Qed.

Lemma filter_filter_none {A} (P Q : A -> Prop) `{forall x, Decision (P x)}
    `{forall x, Decision (Q x)} (l : list A) :
  (forall x, P x -> Q x -> False) -> filter P (filter Q l) = [].
Proof.
  intros HPQ. induction l as [|x l IH]; [reflexivity|].
  rewrite (filter_cons Q). destruct (decide (Q x)) as [HQ|HQ]; [|exact IH].
  rewrite filter_cons, IH. destruct (decide (P x)) as [HP|]; [|reflexivity].
  destruct (HPQ _ HP HQ).
Qed.

End StoreFacts.

Section StoreProperties.

Import RollDB MacroFacts StoreFacts Examples.

(** X1. After [delete_stored_roll], whether or not it found the macro, the
    name retrieves nothing for that user on that guild, and a use of it is
    answered by a message; command and table are left as they are. *)
Theorem delete_then_use_not_found :
  forall similar (db : list Row) (guild userid : Z) (m : usematch)
         (command : gmap string string),
    let db' := snd (delete_stored_roll db guild userid (name m)) in
    retrieve_stored_roll db' guild userid (name m) = None
    /\ exists text,
        match_stored_roll similar db' command m guild userid
        = (Ok (Message text), command, db').
Proof.
  intros similar db guild userid m command db'.
  assert (Hnone : retrieve_stored_roll db' guild userid (name m) = None).
  { subst db'. unfold delete_stored_roll, is_roll_stored.
    destruct (retrieve_stored_roll db guild userid (name m)) eqn:E; cbn [negb snd].
    - unfold retrieve_stored_roll.
      rewrite filter_filter_none; [reflexivity|].
      intros r H1 H2. congruence.
    - exact E. }
  split; [exact Hnone|].
  unfold match_stored_roll. rewrite Hnone.
  destruct (find_similar_macro similar db' guild userid (name m)); eauto.
Qed.

(** X2. Storing a roll, changing a stored comment, deleting a roll and
    deleting all rolls of a user change nothing of what any other user, or
    the same user on another guild, retrieves under any name. *)
Theorem other_owners_untouched :
  forall (db : list Row) (guild userid : Z) (name syntax comment_text : string)
         (comment : option string) (guild' userid' : Z) (name' : string),
    guild' <> guild \/ userid' <> userid ->
    let same db' :=
      retrieve_stored_roll db' guild' userid' name'
      = retrieve_stored_roll db guild' userid' name' in
    same (snd (store_roll db guild userid name syntax comment))
    /\ same (snd (update_stored_comment db guild userid name comment_text))
    /\ same (snd (delete_stored_roll db guild userid name))
    /\ same (delete_user_rolls db guild userid).
Proof.
  intros db guild userid name syntax comment_text comment guild' userid' name' Hne same.
  subst same. cbv beta. repeat split; apply retrieve_filter_eq.
  - unfold store_roll. destruct (negb _); [|destruct (Py.truthy comment)]; cbn [snd].
    + rewrite filter_app, filter_cons, decide_False, filter_nil, app_nil_r; [reflexivity|].
      unfold selects; cbn. destruct Hne as [Hg|Hu].
      * destruct (Z.eqb_spec guild guild'); [congruence|]. discriminate.
      * destruct (Z.eqb_spec userid userid'); [congruence|].
        rewrite andb_false_r. discriminate.
    + apply filter_update_where_other; [reflexivity|exact Hne].
    + apply filter_update_where_other; [reflexivity|exact Hne].
  - unfold update_stored_comment. destruct (is_roll_stored _ _ _ _); cbn [snd];
      [|reflexivity].
    apply filter_update_where_other; [reflexivity|exact Hne].
  - unfold delete_stored_roll. destruct (negb _); cbn [snd]; [reflexivity|].
    apply filter_filter_keep. intros r Hr.
    destruct (selects guild userid name r) eqn:E; [|reflexivity].
    rewrite (selects_other _ _ _ _ _ name' _ Hne E) in Hr. discriminate.
  - unfold delete_user_rolls. apply filter_filter_keep. intros r Hr.
    destruct (selects_owner _ _ _ _ Hr) as [-> ->].
    destruct Hne as [Hg|Hu].
    + destruct (Z.eqb_spec guild' guild); [congruence|reflexivity].
    + destruct (Z.eqb_spec userid' userid); [congruence|]. apply andb_false_r.
Qed.

(** X2 at work: user 3 stores "brawl" on guild 1; user 2 still finds the
    macro "brawl" of [brawl_db]. *)
Lemma other_owners_untouched_witness :
  retrieve_stored_roll (snd (store_roll brawl_db 1 3 "brawl" "5 7" None)) 1 2 "brawl"
  = retrieve_stored_roll brawl_db 1 2 "brawl".
Proof.
  assert (Hne : (1 : Z) <> 1 \/ (2 : Z) <> 3) by (right; discriminate).
  pose proof (other_owners_untouched brawl_db 1 3 "brawl" "5 7" "" None 1 2 "brawl" Hne)
    as H.
  cbv zeta beta in H. exact (proj1 H).
Defined.

End StoreProperties.

Module CountFacts.

Import RollDB MacroFacts StoreFacts.

Lemma retrieve_head db g u n :
  retrieve_stored_roll db g u n
  = option_map (fun r => (Syntax r, Comment r))
      (head (filter (fun r => selects g u n r = true) db)).
Proof. unfold retrieve_stored_roll. destruct (filter _ db); reflexivity. Qed.

Lemma macro_count_update_where g u n f db g' u' :
  (forall r, Guild (f r) = Guild r /\ ID (f r) = ID r) ->
  macro_count (update_where g u n f db) g' u' = macro_count db g' u'.
Proof.
  intros Hf. unfold macro_count, update_where.
  induction db as [|r db IH]; [reflexivity|].
  cbn [map]. rewrite !filter_cons.
  assert (Hsame : (Guild (if selects g u n r then f r else r) =? g')
                  && (ID (if selects g u n r then f r else r) =? u')
                  = (Guild r =? g') && (ID r =? u')).
  { destruct (selects g u n r); [|reflexivity]. destruct (Hf r) as [-> ->]. reflexivity. }
  rewrite Hsame. destruct (decide _); cbn [length]; rewrite IH; reflexivity.
Qed.

End CountFacts.

Section StoreProperties2.

Import RollDB MacroFacts StoreFacts CountFacts Examples.

(** X3. What [__store_roll] leaves under the name: the new syntax always;
    the comment given when the macro is new; for a macro that existed, the
    comment given if it is not empty, and the comment stored before
    otherwise. *)
Theorem store_roll_then_retrieve :
  forall (db : list Row) (guild userid : Z) (name syntax : string)
         (comment : option string),
    ilike name name = true ->
    retrieve_stored_roll (snd (store_roll db guild userid name syntax comment))
      guild userid name
    = Some (syntax,
            match retrieve_stored_roll db guild userid name with
            | None => comment
            | Some (_, old) => if Py.truthy comment then comment else old
            end).
Proof.
  intros db guild userid name syntax comment Hn.
  unfold store_roll, is_roll_stored.
  destruct (retrieve_stored_roll db guild userid name) as [[sx old]|] eqn:E; cbn [negb].
  - rewrite retrieve_head in E.
    destruct (head (filter _ db)) as [r|] eqn:Hr; [|discriminate].
    injection E as _ <-.
    destruct (Py.truthy comment); cbn [snd];
      rewrite retrieve_update_where by reflexivity; rewrite Hr; reflexivity.
  - cbn [snd].
    rewrite (retrieve_app_miss guild userid name db
               {| ID := userid; Name := name; Syntax := syntax; Guild := guild;
                  Comment := comment |} E); [reflexivity|].
    unfold selects; cbn. rewrite !Z.eqb_refl. exact Hn.
Qed.

(** X3 at work: the stored comment outlives an update without comment. *)
Lemma store_roll_then_retrieve_witness :
  retrieve_stored_roll (snd (store_roll brawl_with_comment 1 2 "brawl" "8 6" None))
    1 2 "brawl"
  = Some ("8 6"%string, Some "stored"%string).
Proof.
  exact (store_roll_then_retrieve brawl_with_comment 1 2 "brawl" "8 6" None eq_refl).
Defined.

(** X4. [__store_roll] adds one macro to the count of the user on the guild
    when the name was not stored, and leaves the count as it is when it
    was. *)
Theorem store_roll_macro_count :
  forall (db : list Row) (guild userid : Z) (name syntax : string)
         (comment : option string),
    macro_count (snd (store_roll db guild userid name syntax comment)) guild userid
    = (macro_count db guild userid
       + if is_roll_stored db guild userid name then 0 else 1)%nat.
Proof.
  intros db guild userid name syntax comment. unfold store_roll.
  destruct (is_roll_stored db guild userid name); cbn [negb].
  - rewrite Nat.add_0_r.
    destruct (Py.truthy comment); cbn [snd];
      apply macro_count_update_where; intros r; split; reflexivity.
  - cbn [snd]. unfold macro_count.
    rewrite filter_app, length_app, filter_cons, decide_True; [reflexivity|].
    cbn. rewrite !Z.eqb_refl. reflexivity.
Qed.

(** X5. [__update_stored_comment] on a stored macro keeps its syntax and
    sets its comment to the text given, or to [None] when the text is
    empty. *)
Theorem update_stored_comment_then_retrieve :
  forall (db : list Row) (guild userid : Z) (name text syntax : string)
         (old : option string),
    retrieve_stored_roll db guild userid name = Some (syntax, old) ->
    update_stored_comment db guild userid name text
    = ("Updated comment for `" +:+ name +:+ "`.",
       snd (update_stored_comment db guild userid name text))
    /\ retrieve_stored_roll (snd (update_stored_comment db guild userid name text))
         guild userid name
       = Some (syntax, match text with EmptyString => None | _ => Some text end).
Proof.
  intros db guild userid name text syntax old E.
  unfold update_stored_comment, is_roll_stored. rewrite E. cbn [snd].
  split; [reflexivity|].
  rewrite retrieve_update_where by reflexivity.
  rewrite retrieve_head in E.
  destruct (head (filter _ db)) as [r|]; [|discriminate].
  injection E as <- _. reflexivity.
Qed.

(** X5 at work: the empty text clears the comment of "brawl". *)
Lemma update_stored_comment_then_retrieve_witness :
  update_stored_comment brawl_with_comment 1 2 "brawl" ""
  = ("Updated comment for `" +:+ "brawl" +:+ "`.",
     snd (update_stored_comment brawl_with_comment 1 2 "brawl" ""))
  /\ retrieve_stored_roll (snd (update_stored_comment brawl_with_comment 1 2 "brawl" ""))
       1 2 "brawl"
     = Some ("7 6"%string, None).
Proof.
  exact (update_stored_comment_then_retrieve brawl_with_comment 1 2 "brawl" "" "7 6"
           (Some "stored"%string) eq_refl).
Defined.

(** X6. After [delete_user_rolls] the user has no macro left on the guild:
    the count is zero and no name retrieves anything. *)
Theorem delete_user_rolls_leaves_none :
  forall (db : list Row) (guild userid : Z),
    macro_count (delete_user_rolls db guild userid) guild userid = 0%nat
    /\ forall name,
         retrieve_stored_roll (delete_user_rolls db guild userid) guild userid name
         = None.
Proof.
  intros db guild userid. unfold macro_count, delete_user_rolls, retrieve_stored_roll.
  split.
  - rewrite filter_filter_none; [reflexivity|]. intros r H1 H2. congruence.
  - intros name. rewrite filter_filter_none; [reflexivity|].
    intros r H1 H2. destruct (selects_owner _ _ _ _ H1) as [Hg Hu].
    rewrite Hg, Hu, !Z.eqb_refl in H2. discriminate.
Qed.

End StoreProperties2.

(** ** Looking a name up *)

Module LikeFacts.

Import RollDB Notions.

Lemma like_literal c p s :
  literal c ->
  like (String c p) s
  = match s with
    | String d s' => Ascii.eqb c d && like p s'
    | EmptyString => false
    end.
Proof.
  intros (H1 & H2 & H3).
  destruct c as [[] [] [] [] [] [] [] []]; try reflexivity;
    try (exfalso; apply H1; reflexivity);
    try (exfalso; apply H2; reflexivity).
  destruct p; [reflexivity|]. exfalso; apply H3; reflexivity.
Qed.

Lemma lower_literal c : literal c -> literal (Py.lower_char c).
Proof.
  intros (H1 & H2 & H3).
  destruct c as [[] [] [] [] [] [] [] []];
    try (exfalso; apply H1; reflexivity);
    try (exfalso; apply H2; reflexivity);
    try (exfalso; apply H3; reflexivity);
    repeat split; discriminate.
Qed.

Lemma like_underscore p s :
  like (String "_" p) s
  = match s with String _ s' => like p s' | EmptyString => false end.
Proof. reflexivity. Qed.

Lemma word_or_dash_cases c :
  Re.word_or_dash c = true -> c = "_"%char \/ literal c.
Proof.
  destruct c as [[] [] [] [] [] [] [] []]; intros H; try discriminate H;
    first [ left; reflexivity | right; repeat split; discriminate ].
Qed.

Lemma lower_underscore : Py.lower_char "_" = "_"%char.
Proof. reflexivity. Qed.

(** Every name the macro patterns can capture, made of word characters and
    dashes, answers to itself. *)
Lemma ilike_wordy :
  forall name : string,
    (forall c, In c (list_ascii_of_string name) -> Re.word_or_dash c = true) ->
    ilike name name = true.
Proof.
  intros name. unfold ilike. induction name as [|c name IH]; intros Hw; [reflexivity|].
  assert (Hrest : forall c0, In c0 (list_ascii_of_string name) ->
                             Re.word_or_dash c0 = true).
  { intros c0 H0. apply Hw. right. exact H0. }
  cbn [Py.lower].
  destruct (word_or_dash_cases c (Hw c (or_introl eq_refl))) as [-> | Hc].
  - rewrite lower_underscore, like_underscore. exact (IH Hrest).
  - rewrite like_literal by (apply lower_literal, Hc).
    rewrite Ascii.eqb_refl. exact (IH Hrest).
Qed.

(** A name of literal characters is matched without regard to case and in
    no other way. *)
Lemma ilike_literal :
  forall value name : string,
    (forall c, In c (list_ascii_of_string name) -> literal c) ->
    ilike value name = true <-> Py.lower value = Py.lower name.
Proof.
  intros value name. unfold ilike. revert value.
  induction name as [|c name IH]; intros value Hplain.
  - destruct value; cbn; split; intros H; congruence.
  - assert (Hc : literal (Py.lower_char c)).
    { apply lower_literal, Hplain. left. reflexivity. }
    assert (Hrest : forall c0, In c0 (list_ascii_of_string name) -> literal c0).
    { intros c0 H0. apply Hplain. right. exact H0. }
    cbn [Py.lower]. rewrite like_literal by exact Hc.
    destruct value as [|d value]; cbn [Py.lower]; [split; discriminate|].
    rewrite andb_true_iff, (IH value Hrest). split.
    + intros [H1 H2]. apply Ascii.eqb_eq in H1. congruence.
    + intros [= H1 H2]. split; [rewrite H1; apply Ascii.eqb_refl | exact H2].
Qed.

End LikeFacts.

Section LikeProperties.

Import RollDB LikeFacts Notions.

(** X7. A name without [_], [%] and backslash is looked up without regard
    to case and in no other way: the queries on a user's macros select a
    row exactly when it is a row of that user on that guild whose name
    equals the name given once both are lowered. *)
Theorem ilike_plain_name :
  forall (guild userid : Z) (name : string) (r : Row),
    (forall c, In c (list_ascii_of_string name) -> literal c) ->
    selects guild userid name r = true
    <-> Guild r = guild /\ ID r = userid /\ Py.lower (Name r) = Py.lower name.
Proof.
  intros guild userid name r Hplain. unfold selects.
  rewrite !andb_true_iff, !Z.eqb_eq, (ilike_literal _ _ Hplain). tauto.
Qed.

(** X7 at work: the row of "brawl" answers to "BRAWL". *)
Lemma ilike_plain_name_witness :
  let r := {| ID := 2; Name := "brawl"; Syntax := "7 6"; Guild := 1; Comment := None |} in
  selects 1 2 "BRAWL" r = true
  <-> Guild r = 1 /\ ID r = 2 /\ Py.lower (Name r) = Py.lower "BRAWL".
Proof.
  intros r. apply (ilike_plain_name 1 2 "BRAWL" r).
  intros c Hc. cbn in Hc.
  repeat (destruct Hc as [<-|Hc]; [repeat split; discriminate|]). destruct Hc.
Defined.

End LikeProperties.

(** ** Numbers and tokens *)

Module PyFacts.

Import StrFacts Notions.

Lemma spaceless_cons c s : spaceless (String c s) <-> Py.isspace c = false /\ spaceless s.
Proof.
  unfold spaceless. cbn. split.
  - intros H. split; [apply H; left; reflexivity|]. intros d Hd. apply H. right. exact Hd.
  - intros [Hc Hs] d [<-|Hd]; [exact Hc|apply Hs, Hd].
Qed.

(** What [int] skips is white space for [str.isspace] too. *)
Lemma isspace_int_isspace c : Py.isspace c = false -> Py.isspace_int c = false.
Proof. destruct c as [[] [] [] [] [] [] [] []]; intros H; try discriminate H; reflexivity. Qed.

Lemma lstrip_spaceless s : spaceless s -> Py.lstrip s = s.
Proof.
  destruct s as [|c s]; [reflexivity|]. intros H.
  apply spaceless_cons in H as [Hc _]. cbn [Py.lstrip].
  rewrite (isspace_int_isspace c Hc). reflexivity.
Qed.

Lemma strip_spaceless s : spaceless s -> Py.strip s = s.
Proof.
  intros H. unfold Py.strip, Py.rstrip. rewrite (lstrip_spaceless s H).
  rewrite lstrip_spaceless.
  - rewrite list_ascii_of_string_of_list_ascii, rev_involutive.
    apply string_of_list_ascii_of_string.
  - intros c Hc. rewrite list_ascii_of_string_of_list_ascii in Hc.
    apply H. apply in_rev. exact Hc.
Qed.

Lemma digit_not_space c : Py.isdigit_char c = true -> Py.isspace c = false.
Proof. destruct c as [[] [] [] [] [] [] [] []]; intros H; try discriminate H; reflexivity. Qed.

Lemma all_digits_spaceless s : Py.all_digits s = true -> spaceless s.
Proof.
  induction s as [|c s IH]; cbn [Py.all_digits]; intros H.
  - intros c [].
  - apply andb_prop in H as [Hc Hs]. apply spaceless_cons. split.
    + apply digit_not_space, Hc.
    + apply IH, Hs.
Qed.

(** A text of digits is read by [int] digit by digit. *)
Lemma int_all_digits s :
  Py.all_digits s = true -> Py.int s = Py.int_digits s 0 false.
Proof.
  intros H. unfold Py.int. rewrite (strip_spaceless s (all_digits_spaceless s H)).
  destruct s as [|c s]; [reflexivity|].
  cbn [Py.all_digits] in H. apply andb_prop in H as [Hc _].
  destruct c as [[] [] [] [] [] [] [] []]; try discriminate Hc; reflexivity.
Qed.

Lemma uint_all_digits d : Py.all_digits (NilEmpty.string_of_uint d) = true.
Proof. induction d; cbn; auto. Qed.

Lemma int_digits_acc d a :
  Py.int_digits (NilEmpty.string_of_uint d) (Z.pos a) true
  = Some (Z.pos (Pos.of_uint_acc d a)).
Proof.
  revert a. induction d; intros a; cbn [NilEmpty.string_of_uint Pos.of_uint_acc];
    [reflexivity|..];
    cbn [Py.int_digits];
    match goal with
    | |- context [Py.isdigit_char ?c] => change (Py.isdigit_char c) with true
    end; cbv iota;
    match goal with
    | |- context [Py.digit_val ?c] =>
        let k := eval vm_compute in (Py.digit_val c) in
        change (Py.digit_val c) with k
    end;
    match goal with
    | |- Py.int_digits _ ?v true = Some (Z.pos (Pos.of_uint_acc _ ?a')) =>
        replace v with (Z.pos a') by lia
    end; apply IHd.
Qed.

Lemma int_digits_zero d b :
  d <> Decimal.Nil \/ b = true ->
  Py.int_digits (NilEmpty.string_of_uint d) 0 b = Some (Z.of_N (Pos.of_uint d)).
Proof.
  revert b. induction d; intros b Hb; cbn [NilEmpty.string_of_uint Pos.of_uint].
  - destruct Hb as [Hb | ->]; [contradiction|reflexivity].
  - cbn [Py.int_digits]. change (Py.isdigit_char "0") with true. cbv iota.
    change (10 * 0 + Py.digit_val "0") with 0. apply IHd. right. reflexivity.
  - apply (int_digits_acc d 1).
  - apply (int_digits_acc d 2).
  - apply (int_digits_acc d 3).
  - apply (int_digits_acc d 4).
  - apply (int_digits_acc d 5).
  - apply (int_digits_acc d 6).
  - apply (int_digits_acc d 7).
  - apply (int_digits_acc d 8).
  - apply (int_digits_acc d 9).
Qed.

Lemma int_uint d :
  d <> Decimal.Nil ->
  Py.int (NilEmpty.string_of_uint d) = Some (Z.of_N (Pos.of_uint d)).
Proof.
  intros Hd. rewrite int_all_digits by apply uint_all_digits.
  apply int_digits_zero. left. exact Hd.
Qed.

(** [int(str(n))] is [n]. *)
Lemma int_str z : Py.int (Py.str z) = Some z.
Proof.
  unfold Py.str. destruct z as [|p|p]; [reflexivity|..]; cbn [Z.to_int NilZero.string_of_int].
  - pose proof (Unsigned.to_uint_nonnil p) as Hp.
    unfold NilZero.string_of_uint.
    destruct (Pos.to_uint p) eqn:E; [contradiction|..];
      rewrite <- E, int_uint, Unsigned.of_to by (rewrite E; discriminate); reflexivity.
  - pose proof (Unsigned.to_uint_nonnil p) as Hp.
    unfold Py.int. rewrite strip_spaceless.
    + cbv iota. unfold NilZero.string_of_uint.
      destruct (Pos.to_uint p) eqn:E; [contradiction|..]; rewrite <- E;
        rewrite int_digits_zero, Unsigned.of_to by (left; rewrite E; discriminate);
        reflexivity.
    + apply spaceless_cons. split; [reflexivity|].
      apply all_digits_spaceless. unfold NilZero.string_of_uint.
      destruct (Pos.to_uint p); try apply uint_all_digits. reflexivity.
Qed.

End PyFacts.

Module TokenFacts.

Import StrFacts PyFacts RollDB MacroFacts Notions.

Lemma split_aux_spaceless t rest cur :
  spaceless t ->
  Py.split_aux (t +:+ rest) cur = Py.split_aux rest (rev (list_ascii_of_string t) ++ cur).
Proof.
  revert cur. induction t as [|c t IH]; intros cur Ht; [reflexivity|].
  apply spaceless_cons in Ht as [Hc Ht].
  rewrite app_cons. cbn [Py.split_aux list_ascii_of_string rev]. rewrite Hc.
  rewrite (IH _ Ht), <- app_assoc. reflexivity.
Qed.

Lemma flush_token t acc :
  t <> ""%string -> Py.flush (rev (list_ascii_of_string t)) acc = t :: acc.
Proof.
  intros Ht. unfold Py.flush.
  destruct (rev (list_ascii_of_string t)) eqn:E.
  - destruct t; [contradiction|]. cbn in E. apply app_eq_nil in E as [_ E]. discriminate.
  - rewrite <- E, rev_involutive, string_of_list_ascii_of_string. reflexivity.
Qed.

(** [" ".join(l).split()] is [l] when [l] is made of tokens. *)
Lemma split_join l : Forall token_like l -> Py.split (Py.join " " l) = l.
Proof.
  unfold Py.split. induction l as [|x [|y l] IH]; intros Hl.
  - reflexivity.
  - apply Forall_cons in Hl as [[Hx Hs] _]. cbn [Py.join].
    rewrite <- (append_empty_r x) at 1.
    rewrite split_aux_spaceless by exact Hs. cbn [Py.split_aux].
    rewrite app_nil_r. apply flush_token, Hx.
  - apply Forall_cons in Hl as [[Hx Hs] Hl]. rewrite join_cons2.
    rewrite split_aux_spaceless by exact Hs. rewrite app_cons, app_nil.
    cbn [Py.split_aux]. change (Py.isspace " ") with true. cbv iota.
    rewrite app_nil_r, flush_token by exact Hx. rewrite (IH Hl). reflexivity.
Qed.

Lemma flush_tokens cur acc :
  (forall c, In c cur -> Py.isspace c = false) ->
  Forall token_like acc -> Forall token_like (Py.flush cur acc).
Proof.
  intros Hcur Hacc. unfold Py.flush. destruct cur as [|c cur]; [exact Hacc|].
  apply Forall_cons. split; [|exact Hacc]. split.
  - intros H. apply (f_equal list_ascii_of_string) in H.
    rewrite list_ascii_of_string_of_list_ascii in H. cbn in H.
    apply app_eq_nil in H as [_ H]. discriminate.
  - intros d Hd. rewrite list_ascii_of_string_of_list_ascii in Hd.
    apply Hcur. apply in_rev. exact Hd.
Qed.

(** What [split] returns is made of tokens. *)
Lemma split_tokens s : Forall token_like (Py.split s).
Proof.
  unfold Py.split.
  assert (H : forall cur, (forall c, In c cur -> Py.isspace c = false) ->
                          Forall token_like (Py.split_aux s cur)).
  { induction s as [|c s IH]; intros cur Hcur; cbn [Py.split_aux].
    - apply flush_tokens; [exact Hcur|constructor].
    - destruct (Py.isspace c) eqn:Hc.
      + apply flush_tokens; [exact Hcur|]. apply IH. intros d [].
      + apply IH. intros d [<-|Hd]; [exact Hc|apply Hcur, Hd]. }
  apply H. intros c [].
Qed.

Lemma uint_chars_spaceless d : spaceless (NilEmpty.string_of_uint d).
Proof. apply all_digits_spaceless, uint_all_digits. Qed.

Lemma str_token z : token_like (Py.str z).
Proof.
  split.
  - intros H. pose proof (int_str z) as Hi. rewrite H in Hi. discriminate.
  - unfold Py.str, NilZero.string_of_int, NilZero.string_of_uint.
    destruct (Z.to_int z) as [d|d].
    + destruct d; try apply uint_chars_spaceless.
      apply all_digits_spaceless. reflexivity.
    + apply spaceless_cons. split; [reflexivity|].
      destruct d; try apply uint_chars_spaceless.
      apply all_digits_spaceless. reflexivity.
Qed.

Lemma isdigit_token t : Py.isdigit t = true -> token_like t.
Proof.
  intros H. destruct t as [|c t]; [discriminate|]. split; [discriminate|].
  apply all_digits_spaceless. exact H.
Qed.

Lemma int_digits_some s acc b :
  Py.all_digits s = true -> s <> ""%string \/ b = true ->
  is_Some (Py.int_digits s acc b).
Proof.
  revert acc b. induction s as [|c s IH]; intros acc b Hs Hb; cbn [Py.int_digits].
  - destruct Hb as [Hb | ->]; [contradiction|]. eauto.
  - cbn [Py.all_digits] in Hs. apply andb_prop in Hs as [Hc Hs]. rewrite Hc.
    apply IH; [exact Hs|]. right. reflexivity.
Qed.

Lemma isdigit_int t : Py.isdigit t = true -> is_Some (Py.int t).
Proof.
  intros H. destruct t as [|c t]; [discriminate|].
  rewrite int_all_digits by exact H.
  apply int_digits_some; [exact H|]. left. discriminate.
Qed.

End TokenFacts.

Section RebuiltSyntax.

Import StrFacts PyFacts TokenFacts RollDB MacroFacts Notions.

(** X8. Whenever the modifiers of a use are applied and a syntax comes out,
    that syntax splits again into the new pool, the new difficulty and the
    stored tokens that followed them: the pool token reads as the stored
    pool plus the pool modifier, and the difficulty token reads as an
    integer too. *)
Theorem rebuilt_syntax_tokens :
  forall (stored ms : string) (sign : option string) (syntax override : string),
    apply_mods stored ms sign = Ok (inr (syntax, override)) ->
    exists (t0 : string) (ts : list string) (pool_mod : Z)
           (p : string) (rest : list string) (pool : Z)
           (pool' diff' : string) (tail : list string),
      Py.split ms = t0 :: ts /\ Py.int t0 = Some pool_mod
      /\ Py.split stored = p :: rest /\ Py.int p = Some pool
      /\ Py.split syntax = pool' :: diff' :: tail
      /\ Py.int pool' = Some (pool + pool_mod)
      /\ is_Some (Py.int diff')
      /\ (tail = rest \/ exists d, rest = d :: tail).
Proof.
  intros stored ms sign syntax override H. unfold apply_mods in H.
  destruct (Py.split ms) as [|t0 ts] eqn:Hms; [discriminate|].
  destruct (Py.int t0) as [pool_mod|] eqn:Ht0; [|discriminate].
  destruct (negb (pool_mod =? 0) && negb (Py.truthy sign)); [discriminate|].
  pose proof (split_tokens stored) as Htok.
  destruct (Py.split stored) as [|p rest] eqn:Hst; [discriminate|].
  apply Forall_cons in Htok as [_ Hrest].
  exists t0, ts, pool_mod, p, rest.
  assert (Hcases :
    exists (d : token) (tail : list string),
      (tail = rest \/ exists d0, rest = d0 :: tail)
      /\ match int_token (TStr p) with
         | None => Raise value_error
         | Some pool =>
             if Py.isdigit (match ts with [] => "+0"%string | m1 :: _ => m1 end) then
               Ok (inr (Py.join " " (Py.str (pool + pool_mod)
                          :: match ts with [] => "+0"%string | m1 :: _ => m1 end
                          :: tail),
                        pool_desc pool_mod +:+
                        ("Diff. to " +:+ match ts with [] => "+0"%string | m1 :: _ => m1 end
                         +:+ ".")))
             else
               match Py.int (match ts with [] => "+0"%string | m1 :: _ => m1 end) with
               | None => Raise value_error
               | Some delta =>
                   match int_token d with
                   | None => Raise value_error
                   | Some current_diff =>
                       Ok (inr (Py.join " " (Py.str (pool + pool_mod)
                                  :: Py.str (current_diff + delta) :: tail),
                                pool_desc pool_mod +:+
                                (if negb (delta =? 0)
                                 then "Diff. " +:+ Py.format_plus delta +:+ "."
                                 else "")))
                   end
               end
         end = (Ok (inr (syntax, override)) : outcome (string + string * string))).
  { destruct rest as [|r rs]; cbn [map starts_with_digit option_map] in H.
    - exists (TInt 6), []. split; [left; reflexivity|].
      cbn [token_strings option_map map] in H. exact H.
    - destruct r as [|c r]; cbn [starts_with_digit option_map] in H; [discriminate|].
      destruct (Py.isdigit_char c); cbn [negb] in H.
      + exists (TStr (String c r)), rs. split; [right; eauto|].
        cbn [token_strings] in H. rewrite token_strings_TStr in H.
        cbn [option_map] in H. exact H.
      + exists (TInt 6), (String c r :: rs). split; [left; reflexivity|].
        cbn [token_strings] in H.
        change (match token_strings (map TStr rs) with
                | Some l => Some (String c r :: l) | None => None end)
          with (option_map (cons (String c r)) (token_strings (map TStr rs))) in H.
        rewrite token_strings_TStr in H. cbn [option_map] in H. exact H. }
  clear H. destruct Hcases as (d & tail & Htail & Hc). cbn [int_token] in Hc.
  assert (Htl : Forall token_like tail).
  { destruct Htail as [-> | [d0 ->]]; [exact Hrest|].
    apply Forall_cons in Hrest as [_ Hrest]. exact Hrest. }
  destruct (Py.int p) as [pool|] eqn:Hp; [|discriminate].
  exists pool.
  destruct (Py.isdigit (match ts with [] => _ | _ => _ end)) eqn:Hdig.
  - injection Hc as <- _.
    exists (Py.str (pool + pool_mod)),
           (match ts with [] => "+0"%string | m1 :: _ => m1 end), tail.
    repeat split; try reflexivity; try assumption.
    + apply (split_join (_ :: _ :: tail)).
      repeat (apply Forall_cons; split);
        [apply str_token|apply isdigit_token, Hdig|exact Htl].
    + apply int_str.
    + apply isdigit_int, Hdig.
  - destruct (Py.int (match ts with [] => _ | _ => _ end)) as [delta|]; [|discriminate].
    destruct (int_token d) as [cur|]; [|discriminate].
    injection Hc as <- _.
    exists (Py.str (pool + pool_mod)), (Py.str (cur + delta)), tail.
    repeat split; try reflexivity; try assumption.
    + apply (split_join (_ :: _ :: tail)).
      repeat (apply Forall_cons; split); [apply str_token|apply str_token|exact Htl].
    + apply int_str.
    + rewrite int_str. eauto.
Qed.

(** X8 at work: "-1 +2" on the stored syntax "7 w". *)
Lemma rebuilt_syntax_tokens_witness :
  exists (t0 : string) (ts : list string) (pool_mod : Z)
         (p : string) (rest : list string) (pool : Z)
         (pool' diff' : string) (tail : list string),
    Py.split "-1 +2" = t0 :: ts /\ Py.int t0 = Some pool_mod
    /\ Py.split "7 w" = p :: rest /\ Py.int p = Some pool
    /\ Py.split "6 8 w" = pool' :: diff' :: tail
    /\ Py.int pool' = Some (pool + pool_mod)
    /\ is_Some (Py.int diff')
    /\ (tail = rest \/ exists d, rest = d :: tail).
Proof.
  exact (rebuilt_syntax_tokens "7 w" "-1 +2" (Some "-"%string) "6 8 w"
           "Pool -1. Diff. +2." eq_refl).
Defined.

End RebuiltSyntax.

(** ** The description of a traditional roll *)

Module DescriptionFacts.

Import StrFacts PyFacts Traditional.

Lemma split_on_none c x : Py.index c x = None -> split_on c x = [x].
Proof.
  induction x as [|d x IH]; [reflexivity|]. cbn [Py.index split_on].
  destruct (Ascii.eqb d c); [discriminate|].
  destruct (Py.index c x); [discriminate|]. intros _. rewrite (IH eq_refl). reflexivity.
Qed.

Lemma split_on_nonempty c s : split_on c s <> [].
Proof.
  induction s as [|d s IH]; [discriminate|]. cbn [split_on].
  destruct (split_on c s); [contradiction|]. destruct (Ascii.eqb d c); discriminate.
Qed.

Lemma split_on_app c x y :
  Py.index c x = None -> split_on c (x +:+ String c y) = x :: split_on c y.
Proof.
  induction x as [|d x IH]; intros Hx.
  - rewrite app_nil. cbn [split_on]. rewrite Ascii.eqb_refl.
    destruct (split_on c y) eqn:E; [destruct (split_on_nonempty c y E)|reflexivity].
  - rewrite app_cons. cbn [split_on Py.index] in *.
    destruct (Ascii.eqb d c); [discriminate|].
    destruct (Py.index c x); [discriminate|]. rewrite (IH eq_refl). reflexivity.
Qed.

(** The terms of a description are the texts of the rolls. *)
Lemma split_on_join_str rolls :
  rolls <> [] -> split_on "+" (Py.join "+" (map Py.str rolls)) = map Py.str rolls.
Proof.
  induction rolls as [|a [|b rolls] IH]; intros Hne; [contradiction|..].
  - cbn [map Py.join]. apply split_on_none, str_no_plus.
  - cbn [map]. rewrite join_cons2.
    change (Py.str a +:+ "+" +:+ Py.join "+" (Py.str b :: map Py.str rolls))
      with (Py.str a +:+ String "+" (Py.join "+" (map Py.str (b :: rolls)))).
    rewrite split_on_app by apply str_no_plus. rewrite IH by discriminate. reflexivity.
Qed.

End DescriptionFacts.

Section TraditionalProperties.

Import StrFacts PyFacts DescriptionFacts RollDB Traditional.

(** X9. Whatever rolls were made, the result shown is their sum.  When more
    than one value was rolled, the description read back term by term, at
    its [+] signs, gives exactly the rolls, so what is displayed adds up to
    the result; with one value or none there is no description. *)
Theorem description_adds_up_to_result :
  forall (author : string) (command : gmap string string) (rolls : list Z)
         (rolling_initiative : bool),
    Py.truthy (command !! "compact") = false ->
    exists e result,
      traditional_roll author command (rolls, rolling_initiative)
      = (rolling_initiative, inr e)
      /\ fields e = [("Result"%string, result, false)]
      /\ Py.int result = Some (sum rolls)
      /\ match description e with
         | Some d =>
             (1 < length rolls)%nat
             /\ map Py.int (split_on "+" d) = map Some rolls
         | None => (length rolls <= 1)%nat
         end.
Proof.
  intros author command rolls ri Hc. unfold traditional_roll. rewrite Hc.
  eexists. eexists. split; [reflexivity|]. cbn [fields description].
  split; [reflexivity|]. split; [apply int_str|].
  destruct (Nat.ltb_spec 1 (length rolls)) as [Hlt|Hle]; [|exact Hle].
  split; [exact Hlt|].
  rewrite split_on_join_str by (destruct rolls; [cbn in Hlt; lia|discriminate]).
  rewrite map_map. apply map_ext. intros z. apply int_str.
Qed.

(** X9 at work on the rolls 4, 5 and 3. *)
Lemma description_adds_up_to_result_witness :
  exists e result,
    traditional_roll "author" {["syntax" := "2d6+3"%string]} ([4; 5; 3], false)
    = (false, inr e)
    /\ fields e = [("Result"%string, result, false)]
    /\ Py.int result = Some (sum [4; 5; 3])
    /\ match description e with
       | Some d =>
           (1 < length [4; 5; 3])%nat
           /\ map Py.int (split_on "+" d) = map Some [4; 5; 3]
       | None => (length [4; 5; 3] <= 1)%nat
       end.
Proof.
  exact (description_adds_up_to_result "author" {["syntax" := "2d6+3"%string]}
           [4; 5; 3] false eq_refl).
Defined.

End TraditionalProperties.

(** ** Updating and reading settings *)

Module UpdateFacts.

Import RollDB SettingsDB SettingsFacts PyFacts.

(** The keys that [update] handles in a way of their own. *)
Lemma validated_chronicles v v' :
  validated_parameter CHRONICLES v = Ok v' -> exists b, v' = VBool b.
Proof.
  unfold validated_parameter.
  change (negb (bool_decide (CHRONICLES ∈ available_parameters))) with false.
  change (String.eqb CHRONICLES DEFAULT_DIFF) with false.
  change (String.eqb CHRONICLES PREFIX) with false. cbv iota.
  destruct (strtobool v) as [n|[]]; try discriminate. intros [= <-]. eauto.
Qed.

(** The state after a Chronicles update: five writes, one after the other. *)
Lemma update_chronicles fuel st g v b :
  validated_parameter CHRONICLES v = Ok (VBool b) ->
  update (S (S fuel)) st g CHRONICLES v
  = (Ok ((if b then "Enabling" else "Disabling") +:+ " Chronicles of Darkness mode."),
     written (written (written (written (written st g CHRONICLES (VBool b))
       g DEFAULT_DIFF (VInt (if b then 8 else 6)))
       g XPL_ALWAYS (VBool b)) g NULLIFY_ONES (VBool b)) g NO_BOTCH (VBool b)).
Proof.
  intros Hv.
  change (update (S (S fuel)) st g CHRONICLES v)
    with (match validated_parameter CHRONICLES v with
          | Raise e => (Raise e, st)
          | Ok value =>
              let st := written st g CHRONICLES value in
              match update (S fuel) st g DEFAULT_DIFF
                      (VInt (if is_true value then 8 else 6)) with
              | (Raise e, st) => (Raise e, st)
              | (Ok _, st) =>
              match update (S fuel) st g XPL_ALWAYS (VStr (str_value value)) with
              | (Raise e, st) => (Raise e, st)
              | (Ok _, st) =>
              match update (S fuel) st g NULLIFY_ONES (VStr (str_value value)) with
              | (Raise e, st) => (Raise e, st)
              | (Ok _, st) =>
              match update (S fuel) st g NO_BOTCH (VStr (str_value value)) with
              | (Raise e, st) => (Raise e, st)
              | (Ok _, st) =>
                  (Ok ((if is_true value then "Enabling" else "Disabling")
                       +:+ " Chronicles of Darkness mode."), st)
              end end end end
          end).
  rewrite Hv. cbv zeta. cbn [is_true].
  rewrite (update_plain fuel _ g DEFAULT_DIFF _ (VInt (if b then 8 else 6)))
    by (try reflexivity; destruct b; reflexivity).
  rewrite (update_plain fuel _ g XPL_ALWAYS _ (VBool b))
    by (try reflexivity; apply validated_bool_text; set_solver).
  rewrite (update_plain fuel _ g NULLIFY_ONES _ (VBool b))
    by (try reflexivity; apply validated_bool_text; set_solver).
  rewrite (update_plain fuel _ g NO_BOTCH _ (VBool b))
    by (try reflexivity; apply validated_bool_text; set_solver).
  reflexivity.
Qed.

(** Whatever it answers, [update] leaves the state it was given or that
    state after some writes for the guild; when it succeeds, the validated
    value is the one written under the key. *)
Lemma update_is_writes fuel st g key v r st' :
  update (S (S fuel)) st g key v = (r, st') ->
  exists writes : list (string * value),
    st' = foldl (fun s kv => written s g (fst kv) (snd kv)) st writes
    /\ (forall msg, r = Ok msg ->
        exists v0, validated_parameter key v = Ok v0
                   /\ In (key, v0) writes
                   /\ forall k w, In (k, w) writes -> k = key -> w = v0).
Proof.
  destruct (validated_parameter key v) as [v0|e] eqn:Hv.
  2:{ cbn [update]. rewrite Hv. intros [= <- <-]. exists []. split; [reflexivity|].
      intros v' H. discriminate. }
  destruct (String.eqb key CHRONICLES) eqn:Hc.
  - apply String.eqb_eq in Hc. subst key.
    destruct (validated_chronicles _ _ Hv) as [b ->].
    rewrite (update_chronicles fuel st g v b Hv). intros H.
    apply pair_equal_spec in H as [<- <-].
    exists [(CHRONICLES, VBool b); (DEFAULT_DIFF, VInt (if b then 8 else 6));
            (XPL_ALWAYS, VBool b); (NULLIFY_ONES, VBool b); (NO_BOTCH, VBool b)].
    split; [cbn [foldl fst snd]; reflexivity|]. intros v' _. exists (VBool b).
    split; [reflexivity|]. split; [left; reflexivity|].
    intros k w Hk ->.
    repeat (destruct Hk as [Hk|Hk];
            [injection Hk as Hk; try discriminate Hk; symmetry; exact Hk|]).
    destruct Hk.
  - cbn [update]. rewrite Hv, Hc.
    intros H. exists [(key, v0)].
    assert (Hst : st' = written st g key v0).
    { destruct (String.eqb key PREFIX); [|injection H as _ <-; reflexivity].
      destruct (is_true v0); [|injection H as _ <-; reflexivity].
      destruct v0; try (injection H as _ <-; reflexivity).
      destruct (3 <? String.length s)%nat; injection H as _ <-; reflexivity. }
    split; [exact Hst|].
    intros v' Hr. exists v0. split; [reflexivity|]. split; [left; reflexivity|].
    intros k w [[= <- <-]|[]] _. reflexivity.
Qed.

Lemma written_own st g k v d :
  all_settings st !! g = Some (Own d) ->
  all_settings (written st g k v) !! g = Some (Own (<[k := v]> d)).
Proof.
  intros H. unfold written, set_cached, execute_update. cbn. rewrite H. cbn.
  apply lookup_insert_eq.
Qed.

Lemma written_other_entry st g g' k v :
  g <> g' -> all_settings (written st g k v) !! g' = all_settings st !! g'.
Proof.
  intros H. unfold written, set_cached, execute_update. cbn.
  destruct (all_settings st !! g) as [[d|]|]; cbn; apply lookup_insert_ne, H.
Qed.

Lemma written_frame st g g' k v :
  g <> g' ->
  (exists d, all_settings st !! g = Some (Own d))
  \/ (exists d, all_settings st !! g' = Some (Own d)) ->
  cached (written st g k v) g' = cached st g'.
Proof.
  intros Hg Hown. unfold cached, settings_for_guild.
  rewrite (written_other_entry st g g' k v Hg).
  destruct (all_settings st !! g') as [[d'|]|] eqn:E'; try reflexivity.
  - destruct Hown as [[d Hd]|[d Hd]]; [|discriminate].
    unfold written, set_cached, execute_update. cbn. rewrite Hd. reflexivity.
  - destruct Hown as [[d Hd]|[d Hd]]; [|discriminate].
    unfold written, set_cached, execute_update. cbn. rewrite Hd. reflexivity.
Qed.

Lemma writes_frame writes st g g' :
  g <> g' ->
  (exists d, all_settings st !! g = Some (Own d))
  \/ (exists d, all_settings st !! g' = Some (Own d)) ->
  cached (foldl (fun s kv => written s g (fst kv) (snd kv)) st writes) g' = cached st g'.
Proof.
  intros Hg. revert st. induction writes as [|[k w] writes IH]; intros st Hown;
    [reflexivity|].
  cbn [foldl fst snd]. rewrite IH.
  - apply written_frame; assumption.
  - destruct Hown as [[d Hd]|[d Hd]].
    + left. eexists. apply written_own, Hd.
    + right. exists d. rewrite written_other_entry by exact Hg. exact Hd.
Qed.

Lemma writes_last writes st g key v0 :
  In (key, v0) writes ->
  (forall k w, In (k, w) writes -> (k = key -> w = v0)) ->
  cached (foldl (fun s kv => written s g (fst kv) (snd kv)) st writes) g !! key = Some v0.
Proof.
  revert st. induction writes as [|[k w] writes IH] using rev_ind; intros st Hin Hall;
    [destruct Hin|].
  rewrite foldl_app. cbn [foldl fst snd].
  destruct (string_dec k key) as [->|Hne].
  - assert (Hw : w = v0).
    { apply (Hall key w); [|reflexivity]. apply in_or_app. right. left. reflexivity. }
    subst w. apply cached_written_eq.
  - rewrite cached_written_ne by exact Hne.
    apply IH.
    + apply in_app_or in Hin as [Hin|[[= -> _]|[]]]; [exact Hin|contradiction].
    + intros k0 w0 H0. apply Hall. apply in_or_app. left. exact H0.
Qed.

(** Reading a key the guild is shown gives what is shown. *)
Lemma getitem_cached st g k v :
  cached st g !! k = Some v -> fst (getitem st g k) = Ok v.
Proof.
  unfold cached, settings_for_guild, getitem.
  destruct (all_settings st !! g) as [[d|]|]; cbn; intros ->; reflexivity.
Qed.

Lemma validated_known key v v0 :
  validated_parameter key v = Ok v0 -> bool_decide (key ∈ available_parameters) = true.
Proof.
  unfold validated_parameter.
  destruct (bool_decide (key ∈ available_parameters)); [reflexivity|discriminate].
Qed.

(** A prefix that [update] accepts is a text or counts as false. *)
Lemma update_prefix_text fuel st g v v0 message st' :
  validated_parameter PREFIX v = Ok v0 ->
  update (S fuel) st g PREFIX v = (Ok message, st') ->
  is_true v0 = true -> exists s, v0 = VStr s.
Proof.
  intros Hv H Ht. cbn [update] in H. rewrite Hv in H.
  change (String.eqb PREFIX PREFIX) with true in H. cbv iota zeta in H.
  rewrite Ht in H. destruct v0; try discriminate H. eauto.
Qed.

End UpdateFacts.

Section SettingsProperties.

Import RollDB SettingsDB SettingsFacts PyFacts UpdateFacts Examples.

(** X10. [update] of the default difficulty with a text succeeds exactly
    when the text reads as an integer from 2 to 10: then that integer is what
    the guild's settings hold; in every other case the call raises the
    [ValueError] about the range and the state is left as it was. *)
Theorem update_default_diff_range :
  forall (fuel : nat) (st : state) (guild : Z) (text : string),
    match Py.int text with
    | Some n =>
        if (2 <=? n) && (n <=? 10) then
          exists st',
            update (S fuel) st guild DEFAULT_DIFF (VStr text)
            = (Ok ("Setting `default_diff` to `" +:+ Py.str n +:+ "`!"), st')
            /\ cached st' guild !! DEFAULT_DIFF = Some (VInt n)
        else
          update (S fuel) st guild DEFAULT_DIFF (VStr text)
          = (Raise (Py.ValueError
                      "Error! `default_diff` must be an integer between 2-10."), st)
    | None =>
        update (S fuel) st guild DEFAULT_DIFF (VStr text)
        = (Raise (Py.ValueError
                    "Error! `default_diff` must be an integer between 2-10."), st)
    end.
Proof.
  intros fuel st guild text.
  assert (Hv : validated_parameter DEFAULT_DIFF (VStr text)
               = match Py.int text with
                 | Some n =>
                     if negb ((2 <=? n) && (n <=? 10)) then
                       Raise (Py.ValueError
                                "Error! `default_diff` must be an integer between 2-10.")
                     else Ok (VInt n)
                 | None =>
                     Raise (Py.ValueError
                              "Error! `default_diff` must be an integer between 2-10.")
                 end).
  { unfold validated_parameter.
    change (negb (bool_decide (DEFAULT_DIFF ∈ available_parameters))) with false.
    change (String.eqb DEFAULT_DIFF DEFAULT_DIFF) with true. cbv iota.
    unfold int_value. destruct (Py.int text); reflexivity. }
  destruct (Py.int text) as [n|].
  - destruct ((2 <=? n) && (n <=? 10)); cbn [negb] in Hv.
    + eexists. split.
      * apply (update_plain fuel st guild DEFAULT_DIFF _ (VInt n)); [reflexivity..|exact Hv].
      * apply cached_written_eq.
    + cbn [update]. rewrite Hv. reflexivity.
  - cbn [update]. rewrite Hv. reflexivity.
Qed.

(** X11. When [update] succeeds, for whatever key, what the guild's settings
    hold under that key afterwards is the validated value, and [value] reads
    it back: the value itself, except under the key of the prefix when the
    value counts as false, where [value] answers with the two default
    prefixes joined by a comma. *)
Theorem update_then_read :
  forall (fuel : nat) (st st' : state) (guild : Z) (key : string) (v : value)
         (message : string),
    update (S (S fuel)) st guild key v = (Ok message, st') ->
    exists v0,
      validated_parameter key v = Ok v0
      /\ cached st' guild !! key = Some v0
      /\ fst (value_of st' guild key)
         = Ok (if String.eqb key PREFIX && negb (is_true v0) then VStr "!m, /m" else v0).
Proof.
  intros fuel st st' guild key v message H.
  destruct (update_is_writes fuel st guild key v _ _ H) as (writes & Hst & Hw).
  destruct (Hw message eq_refl) as (v0 & Hv & Hin & Hall).
  assert (Hc : cached st' guild !! key = Some v0).
  { rewrite Hst. apply writes_last; assumption. }
  exists v0. split; [exact Hv|]. split; [exact Hc|].
  unfold value_of. rewrite (validated_known _ _ _ Hv). cbn [negb].
  destruct (String.eqb_spec key PREFIX) as [->|Hne].
  - unfold get_prefixes.
    pose proof (getitem_cached _ _ _ _ Hc) as Hg.
    destruct (getitem st' guild PREFIX) as [r st2]. cbn [fst] in Hg. subst r.
    destruct (is_true v0) eqn:Ht; cbn [andb negb].
    + destruct (update_prefix_text _ _ _ _ _ _ _ Hv H Ht) as [s ->]. reflexivity.
    + reflexivity.
  - cbn [andb]. apply getitem_cached, Hc.
Qed.

(** X11 at work: "yes" for nullify_ones is read back as [True]. *)
Lemma update_then_read_witness :
  exists v0,
    validated_parameter NULLIFY_ONES (VStr "yes") = Ok v0
    /\ cached (snd (update 2 (fetch_all_settings ∅) 1 NULLIFY_ONES (VStr "yes"))) 1
       !! NULLIFY_ONES = Some v0
    /\ fst (value_of (snd (update 2 (fetch_all_settings ∅) 1 NULLIFY_ONES (VStr "yes")))
              1 NULLIFY_ONES)
       = Ok (if String.eqb NULLIFY_ONES PREFIX && negb (is_true v0)
             then VStr "!m, /m" else v0).
Proof.
  exact (update_then_read 0 (fetch_all_settings ∅) _ 1 NULLIFY_ONES (VStr "yes") _
           eq_refl).
Defined.

(** X12. Whatever [update] answers for one guild, the settings of another
    guild are the same afterwards as soon as one of the two has a
    dictionary of its own in the cache, that is, had a row when the
    settings were loaded. *)
Theorem update_frame_with_own_entry :
  forall (fuel : nat) (st st' : state) (guild guild' : Z) (key : string)
         (v : value) (r : outcome string),
    guild <> guild' ->
    (exists d, all_settings st !! guild = Some (Own d))
    \/ (exists d, all_settings st !! guild' = Some (Own d)) ->
    update (S (S fuel)) st guild key v = (r, st') ->
    cached st' guild' = cached st guild'.
Proof.
  intros fuel st st' guild guild' key v r Hg Hown H.
  destruct (update_is_writes fuel st guild key v _ _ H) as (writes & -> & _).
  apply writes_frame; assumption.
Qed.

(** X12 at work: guild 1 was loaded with a row of its own; its update does
    not reach guild 2. *)
Lemma update_frame_with_own_entry_witness :
  cached (snd (update 2 (fetch_all_settings {[ 1 := default_row ]}) 1 DEFAULT_DIFF
                 (VStr "8"))) 2
  = cached (fetch_all_settings {[ 1 := default_row ]}) 2.
Proof.
  refine (update_frame_with_own_entry 0 (fetch_all_settings {[ 1 := default_row ]}) _
            1 2 DEFAULT_DIFF (VStr "8") _ ltac:(discriminate) _ eq_refl).
  left. eexists. reflexivity.
Defined.

(** X13. Setting the prefix to a text always succeeds.  A text that is not
    empty becomes the only prefix of the guild, and the answer warns when
    it is longer than three characters; the empty text brings back the two
    default prefixes. *)
Theorem update_prefix_then_get_prefixes :
  forall (fuel : nat) (st : state) (guild : Z) (prefix : string),
    exists message st',
      update (S fuel) st guild PREFIX (VStr prefix) = (Ok message, st')
      /\ fst (get_prefixes st' guild)
         = Ok (match prefix with
               | EmptyString => [VStr "!m"; VStr "/m"]
               | _ => [VStr prefix]
               end)
      /\ message
         = match prefix with
           | EmptyString => "Reset the command prefix to `/m` and `!m`."%string
           | _ =>
               if (3 <? String.length prefix)%nat
               then ("Setting the prefix to `" +:+ prefix +:+ "`.")
                    +:+ " A prefix this long might be annoying to type!"
               else "Setting the prefix to `" +:+ prefix +:+ "`."
           end.
Proof.
  intros fuel st guild prefix.
  assert (Hread : forall st0,
             fst (get_prefixes (written st0 guild PREFIX (VStr prefix)) guild)
             = Ok (match prefix with
                   | EmptyString => [VStr "!m"; VStr "/m"]
                   | _ => [VStr prefix]
                   end)).
  { intros st0. unfold get_prefixes, getitem, written, set_cached, execute_update.
    cbn. destruct (all_settings st0 !! guild) as [[d|]|]; cbn;
      rewrite lookup_insert_eq; cbn; rewrite ?lookup_insert_eq;
      destruct prefix; reflexivity. }
  cbn [update].
  change (validated_parameter PREFIX (VStr prefix)) with (@Ok value (VStr prefix)).
  cbv iota zeta. change (String.eqb PREFIX PREFIX) with true. cbv iota.
  destruct prefix as [|c p].
  - eexists. eexists. split; [reflexivity|]. split; [apply Hread|reflexivity].
  - cbn [is_true String.eqb negb str_value].
    destruct (3 <? String.length (String c p))%nat; eexists; eexists;
      (split; [reflexivity|]); (split; [apply Hread|reflexivity]).
Qed.

End SettingsProperties.

Section LoadedSettings.

Import RollDB SettingsDB SettingsFacts.

(** X14. After the settings are loaded, a guild that has a row reads, for
    each available parameter, the value of its row, and has no other key; a
    guild without a row reads default difficulty 6 and no prefix, so that
    its prefixes are the two default ones. *)
Theorem loaded_settings :
  forall (table : gmap Z (gmap string value)) (guild : Z),
    match table !! guild with
    | Some row =>
        forall key,
          cached (fetch_all_settings table) guild !! key
          = if bool_decide (key ∈ available_parameters)
            then Some (default VNone (row !! key)) else None
    | None =>
        cached (fetch_all_settings table) guild !! DEFAULT_DIFF = Some (VInt 6)
        /\ cached (fetch_all_settings table) guild !! PREFIX = Some VNone
        /\ fst (get_prefixes (fetch_all_settings table) guild)
           = Ok [VStr "!m"; VStr "/m"]
    end.
Proof.
  intros table guild.
  destruct (table !! guild) as [row|] eqn:E.
  - intros key. unfold cached, settings_for_guild, fetch_all_settings. cbn.
    rewrite lookup_fmap, E. cbn. unfold row_parameters.
    destruct (bool_decide (key ∈ available_parameters)) eqn:Hk.
    + apply bool_decide_eq_true in Hk.
      repeat (apply elem_of_cons in Hk as [-> | Hk]); try reflexivity.
      apply elem_of_nil in Hk. destruct Hk.
    + apply bool_decide_eq_false in Hk.
      cbn. repeat (rewrite lookup_insert_ne;
                   [|intros <-; apply Hk; unfold available_parameters; set_solver]).
      apply lookup_empty.
  - unfold cached, settings_for_guild, get_prefixes, getitem, fetch_all_settings. cbn.
    rewrite lookup_fmap, E. cbn. repeat split; reflexivity.
Qed.

End LoadedSettings.

(** ** Initiative rolls and the initiative command *)

Section InitiativeProperties.

Import RollDB InitiativeFacts ParseInitiative Examples.

(** X15. A new initiative roll never fails and keeps the modifier and the
    action it is given.  A die it is given is kept, and the dice are left
    alone, unless that die is 0: the die 0 is taken as no die at all, and
    then, as without a die, one ten-sided die is drawn. *)
Theorem new_initiative_die :
  forall (g : Roll.generator) (modifier : Z) (die : option Z) (action : option string),
    exists (i : Initiative.t) (g' : Roll.generator),
      Initiative.new g modifier die action = (Ok i, g')
      /\ Initiative.modifier i = modifier /\ Initiative.action i = action
      /\ Initiative.init i = modifier + Initiative.die i
      /\ if match die with Some d => negb (d =? 0) | None => false end then
           die = Some (Initiative.die i) /\ g' = g
         else
           Roll.roll g 1 10 = ([Initiative.die i], g')
           /\ Initiative.new g modifier None action = (Ok i, g').
Proof.
  intros g modifier die action.
  destruct die as [[|d|d]|]; cbn [Initiative.new Roll.roll Roll.next_face];
    eexists; eexists; (split; [reflexivity|]);
    cbn [Initiative.modifier Initiative.action Initiative.die Z.eqb negb];
    repeat split; reflexivity.
Qed.

(** X16. Without a modifier, or with a modifier that is not an integer,
    nothing is rolled: the answer is the table of the channel when the
    modifier is missing and the channel has one, and the usage text in
    every other case; tables, persisted rows, statistics and dice stay as
    they are. *)
Theorem initiative_without_number :
  forall (w : world) (ctx : context) (modifier character_name : option string),
    SettingsDB.has_prefix_keys (settings w) ->
    match modifier with
    | Some text => Py.int text = None
    | None => True
    end ->
    exists (r : response) (w' : world) (prefix : SettingsDB.value)
           (others : list SettingsDB.value) (st' : SettingsDB.state),
      SettingsDB.get_prefixes (settings w) (guild ctx) = (Ok (prefix :: others), st')
      /\ initiative w ctx modifier character_name = (Ok r, w')
      /\ tables w' = tables w /\ persisted w' = persisted w
      /\ initiative_rolls w' = initiative_rolls w /\ dice w' = dice w
      /\ match modifier, get_table w (channel ctx) with
         | (None | Some EmptyString), Some m =>
             response_embed r
             = Some {| title := "Initiative"; embed_description := OfTable m;
                       footer := "Commands: remove | clear | reroll | declare" |}
             /\ content r = (if String.eqb (invoked_with ctx) "reroll"
                             then Some "Rerolling initiative!"%string else None)
         | _, _ =>
             r = {| content := Some (usage (SettingsDB.str_value prefix));
                    response_embed := None |}
         end.
Proof.
  intros w ctx modifier character_name Hwf Hmod.
  destruct (get_prefixes_ok (settings w) (guild ctx) Hwf) as (prefix & rest & st' & Hp).
  unfold initiative. rewrite Hp. cbv zeta.
  change (get_table (with_settings w st') (channel ctx)) with (get_table w (channel ctx)).
  destruct modifier as [[|c text]|].
  - destruct (get_table w (channel ctx)) as [m|];
      eexists; eexists; exists prefix, rest, st';
      (split; [reflexivity|]); (split; [reflexivity|]); cbn; repeat split; reflexivity.
  - rewrite Hmod.
    destruct (get_table w (channel ctx)) as [m|];
      eexists; eexists; exists prefix, rest, st';
      (split; [reflexivity|]); (split; [reflexivity|]); cbn; repeat split; reflexivity.
  - destruct (get_table w (channel ctx)) as [m|];
      eexists; eexists; exists prefix, rest, st';
      (split; [reflexivity|]); (split; [reflexivity|]); cbn; repeat split; reflexivity.
Qed.

(** X16 at work: "abc" is no modifier; Bob gets the usage text. *)
Lemma initiative_without_number_witness :
  exists (r : response) (w' : world),
    initiative quiet_world bob_in_channel_7 (Some "abc"%string) None = (Ok r, w')
    /\ tables w' = tables quiet_world /\ persisted w' = persisted quiet_world
    /\ r = {| content := Some (usage "!m"); response_embed := None |}.
Proof.
  destruct (initiative_without_number quiet_world bob_in_channel_7 (Some "abc"%string)
              None (fetch_has_prefix_keys ∅) eq_refl)
    as (r & w' & prefix & others & st' & Hp & Hi & Ht & Hpe & _ & _ & Hr).
  injection Hp as <- _ _. exists r, w'. repeat split; assumption.
Defined.

End InitiativeProperties.

(** ** How a command is told apart by the patterns *)

Module ReFacts.

Import Re Notions.

Lemma run_seq a b s gs k :
  run (Seq a b) s gs k = run a s gs (fun s' gs' => run b s' gs' k).
Proof. reflexivity. Qed.

Lemma run_class p c s gs k :
  run (Class p) (String c s) gs k = if p c then k s gs else None.
Proof. reflexivity. Qed.

Lemma run_group g a s gs k :
  run (Group g a) s gs k
  = run a s gs (fun s' gs' =>
      k s' (<[g := substring 0 (String.length s - String.length s') s]> gs')).
Proof. reflexivity. Qed.

(** The two equations of a greedy repetition of one character class. *)
Lemma run_star_nil a gs k : run (Star a) "" gs k = k ""%string gs.
Proof. reflexivity. Qed.

Lemma run_star_cons p c s gs k :
  run (Star (Class p)) (String c s) gs k
  = if p c then
      match run (Star (Class p)) s gs k with
      | Some res => Some res
      | None => k (String c s) gs
      end
    else k (String c s) gs.
Proof.
  cbn [run String.length]. destruct (p c); [|reflexivity].
  assert (H : (String.length s <? S (String.length s))%nat = true)
    by (apply Nat.ltb_lt; lia).
  rewrite H. reflexivity.
Qed.

(** Repetition takes all of a text made of the class when what follows
    accepts the empty rest. *)
Lemma run_star_all p s gs k res :
  (forall c, In c (list_ascii_of_string s) -> p c = true) ->
  k ""%string gs = Some res ->
  run (Star (Class p)) s gs k = Some res.
Proof.
  induction s as [|c s IH]; intros Hp Hk; [exact Hk|].
  rewrite run_star_cons, (Hp c (or_introl eq_refl)).
  rewrite IH; [reflexivity| |exact Hk].
  intros d Hd. apply Hp. right. exact Hd.
Qed.

(** Repetition fails when what follows refuses every rest. *)
Lemma run_star_none p s gs k :
  (forall s' gs', k s' gs' = None) -> run (Star (Class p)) s gs k = None.
Proof.
  intros Hk. induction s as [|c s IH]; [apply Hk|].
  rewrite run_star_cons. destruct (p c); [rewrite IH|]; apply Hk.
Qed.

Lemma word_not_space c : word_or_dash c = true -> space c = false.
Proof. destruct c as [[] [] [] [] [] [] [] []]; intros H; try discriminate H; reflexivity. Qed.

Lemma word_not_equals c : word_or_dash c = true -> is_char "=" c = false.
Proof. destruct c as [[] [] [] [] [] [] [] []]; intros H; try discriminate H; reflexivity. Qed.

Lemma substring_all s : substring 0 (String.length s) s = s.
Proof. induction s as [|c s IH]; [reflexivity|]. cbn. rewrite IH. reflexivity. Qed.

Lemma wordy_tail c s : wordy (String c s) -> wordy s.
Proof. intros H d Hd. apply H. right. exact Hd. Qed.

(** A continuation that refuses every wordy rest makes the name fail. *)
Lemma run_star_wordy_none s gs k :
  wordy s ->
  (forall s' gs', wordy s' -> k s' gs' = None) ->
  run (Star (Class word_or_dash)) s gs k = None.
Proof.
  induction s as [|c s IH]; intros Hs Hk; [apply Hk, Hs|].
  rewrite run_star_cons. rewrite (Hs c (or_introl eq_refl)).
  rewrite (IH (wordy_tail _ _ Hs) Hk). apply Hk, Hs.
Qed.

(** After the name, a pattern that goes on with white space and then a
    character that is neither a word character nor a dash finds nothing in
    a wordy rest. *)
Lemma after_name_needs p more s gs k :
  (forall c, word_or_dash c = true -> p c = false) ->
  wordy s ->
  run (Seq (Star (Class space)) (Seq (Class p) more)) s gs k = None.
Proof.
  intros Hp Hs. rewrite run_seq. destruct s as [|c s]; [reflexivity|].
  rewrite run_star_cons.
  rewrite (word_not_space c (Hs c (or_introl eq_refl))).
  rewrite run_seq, run_class. rewrite (Hp c (Hs c (or_introl eq_refl))). reflexivity.
Qed.

Lemma after_name_needs_space more s gs k :
  wordy s ->
  run (Seq (Plus (Class space)) more) s gs k = None.
Proof.
  intros Hs. unfold Plus. rewrite !run_seq. destruct s as [|c s]; [reflexivity|].
  rewrite run_class, (word_not_space c (Hs c (or_introl eq_refl))). reflexivity.
Qed.

(** The name group on a wordy text: it fails when what follows refuses every
    wordy rest, and it takes the whole text when what follows accepts the
    empty rest. *)
Lemma name_group_none c s gs k :
  wordy (String c s) ->
  (forall s' gs', wordy s' -> k s' gs' = None) ->
  run (Group "name" (Plus (Class word_or_dash))) (String c s) gs k = None.
Proof.
  intros Hs Hk. unfold Plus. rewrite run_group, run_seq, run_class.
  rewrite (Hs c (or_introl eq_refl)).
  apply run_star_wordy_none; [exact (wordy_tail _ _ Hs)|].
  intros s' gs' Hs'. apply Hk, Hs'.
Qed.

Lemma name_group_all c s gs k res :
  wordy (String c s) ->
  k ""%string (<["name" := String c s]> gs) = Some res ->
  run (Group "name" (Plus (Class word_or_dash))) (String c s) gs k = Some res.
Proof.
  intros Hs Hk. unfold Plus. rewrite run_group, run_seq, run_class.
  rewrite (Hs c (or_introl eq_refl)).
  apply run_star_all; [exact (wordy_tail _ _ Hs)|].
  change (String.length "") with O. rewrite Nat.sub_0_r, substring_all. exact Hk.
Qed.

(** On a name, the patterns for storing and for commenting fail, and the
    pattern for use captures the whole name. *)
Lemma name_dispatch c rest :
  (forall d, In d (list_ascii_of_string (String c rest)) -> word_or_dash d = true) ->
  match_ RollDB.storex (String c rest) = None
  /\ match_ RollDB.commentx (String c rest) = None
  /\ RollDB.usex_match (String c rest)
     = Some {| RollDB.name := String c rest; RollDB.mods := None; RollDB.sign := None |}.
Proof.
  intros Hw. repeat split.
  - unfold match_, RollDB.storex, RollDB.name_group. rewrite run_seq.
    apply name_group_none; [exact Hw|].
    intros s' gs' Hs'. apply after_name_needs; [apply word_not_equals|exact Hs'].
  - unfold match_, RollDB.commentx, RollDB.name_group. rewrite run_seq.
    apply name_group_none; [exact Hw|].
    intros s' gs' Hs'. apply after_name_needs_space, Hs'.
  - unfold RollDB.usex_match, match_, RollDB.usex, RollDB.name_group. rewrite run_seq.
    erewrite name_group_all; [|exact Hw|reflexivity].
    rewrite lookup_insert_eq, !lookup_insert_ne, !lookup_empty by discriminate.
    reflexivity.
Qed.

End ReFacts.

Section Dispatch.

Import Re ReFacts RollDB MacroFacts LikeFacts Notions Examples.

(** X17. A text made of word characters and dashes only is always read as
    the use, without modifiers, of the macro of that very name: the patterns
    for storing and for commenting do not match it, and the pattern for use
    captures the whole text as the name.  So [query_saved_rolls] answers
    such a text as [__match_stored_roll] answers that name. *)
Theorem bare_name_is_a_use :
  forall similar is_valid_roll (db : list Row) (guild userid : Z)
         (command : gmap string string) (c : ascii) (rest : string),
    (forall d, In d (list_ascii_of_string (String c rest)) -> word_or_dash d = true) ->
    command !! "syntax" = Some (String c rest) ->
    usex_match (String c rest)
    = Some {| name := String c rest; mods := None; sign := None |}
    /\ query_saved_rolls similar is_valid_roll db guild userid command
       = match_stored_roll similar db command
           {| name := String c rest; mods := None; sign := None |} guild userid.
Proof.
  intros similar is_valid_roll db guild userid command c rest Hw Hs.
  destruct (name_dispatch c rest Hw) as (Hstore & Hcomment & Huse).
  split; [exact Huse|].
  apply (query_use _ _ _ _ _ _ (String c rest)); assumption.
Qed.

(** X17 at work: the text "brawl" is the use of the macro "brawl". *)
Lemma bare_name_is_a_use_witness :
  usex_match "brawl" = Some {| name := "brawl"; mods := None; sign := None |}
  /\ query_saved_rolls no_similar any_roll brawl_db 1 2 {[ "syntax" := "brawl"%string ]}
     = match_stored_roll no_similar brawl_db {[ "syntax" := "brawl"%string ]}
         {| name := "brawl"; mods := None; sign := None |} 1 2.
Proof.
  assert (Hw : forall d, In d (list_ascii_of_string "brawl") -> word_or_dash d = true).
  { intros d Hd. cbn in Hd.
    repeat (destruct Hd as [<-|Hd]; [reflexivity|]). destruct Hd. }
  exact (bare_name_is_a_use no_similar any_roll brawl_db 1 2
           {[ "syntax" := "brawl"%string ]} "b" "rawl" Hw eq_refl).
Defined.

(** X18. Storing and using go together for every name the patterns can
    capture: once [__store_roll] has stored a syntax under a name made of
    word characters and dashes, the command whose text is that name comes
    back from [query_saved_rolls] carrying that syntax, and the table is
    not changed by the use. *)
Theorem store_then_query_by_name :
  forall similar is_valid_roll (db : list Row) (guild userid : Z)
         (command : gmap string string) (c : ascii) (rest syntax : string)
         (comment : option string),
    (forall d, In d (list_ascii_of_string (String c rest)) -> word_or_dash d = true) ->
    command !! "syntax" = Some (String c rest) ->
    let db' := snd (store_roll db guild userid (String c rest) syntax comment) in
    exists command',
      query_saved_rolls similar is_valid_roll db' guild userid command
      = (Ok Command, command', db')
      /\ command' !! "syntax" = Some syntax.
Proof.
  intros similar is_valid_roll db guild userid command c rest syntax comment Hw Hs db'.
  destruct (name_dispatch c rest Hw) as (Hstore & Hcomment & Huse).
  rewrite (query_use _ _ _ _ _ _ _ _ Hs Hstore Hcomment Huse).
  destruct (retrieve_after_store db guild userid (String c rest) syntax comment
              (ilike_wordy _ Hw)) as [c' Hret].
  fold db' in Hret.
  eexists. split.
  - apply (match_hit_plain similar db' guild userid
             {| name := String c rest; mods := None; sign := None |} _ Hret).
    reflexivity.
  - apply finish_command_syntax.
Qed.

(** X18 at work: "claws" is stored beside "brawl" and then used. *)
Lemma store_then_query_by_name_witness :
  exists command',
    query_saved_rolls no_similar any_roll
      (snd (store_roll brawl_db 1 2 "claws" "5 6" None)) 1 2
      {[ "syntax" := "claws"%string ]}
    = (Ok Command, command', snd (store_roll brawl_db 1 2 "claws" "5 6" None))
    /\ command' !! "syntax" = Some "5 6"%string.
Proof.
  assert (Hw : forall d, In d (list_ascii_of_string "claws") -> word_or_dash d = true).
  { intros d Hd. cbn in Hd.
    repeat (destruct Hd as [<-|Hd]; [reflexivity|]). destruct Hd. }
  exact (store_then_query_by_name no_similar any_roll brawl_db 1 2
           {[ "syntax" := "claws"%string ]} "c" "laws" "5 6" None Hw eq_refl).
Defined.

End Dispatch.

Module ConsumeFacts.

Import Re ReFacts Notions StrFacts.

Lemma in_append (a b : string) c :
  In c (list_ascii_of_string (a +:+ b))
  <-> In c (list_ascii_of_string a) \/ In c (list_ascii_of_string b).
Proof.
  induction a as [|x a IH]; [rewrite app_nil; cbn; tauto|].
  rewrite app_cons. cbn. rewrite IH. tauto.
Qed.

(** A pattern hands on only what is left after a run of characters that its
    classes take: when what follows refuses every such rest, the pattern
    fails. *)
Lemma run_consumes r :
  forall s gs k,
    (forall pre s' gs',
        s = pre +:+ s' ->
        (forall c, In c (list_ascii_of_string pre) -> accepts r c = true) ->
        k s' gs' = None) ->
    run r s gs k = None.
Proof.
  induction r as [| p | a IHa b IHb | a IHa b IHb | a IHa | g a IHa | ];
    intros s gs k Hk.
  - apply (Hk ""%string); [reflexivity|intros c []].
  - destruct s as [|c s]; [reflexivity|]. rewrite run_class.
    destruct (p c) eqn:Hp; [|reflexivity].
    apply (Hk (String c "")); [reflexivity|]. intros d [<-|[]]. exact Hp.
  - rewrite run_seq. apply IHa. intros pre1 s1 gs1 -> H1.
    apply IHb. intros pre2 s2 gs2 -> H2.
    apply (Hk (pre1 +:+ pre2)); [symmetry; apply append_assoc|].
    intros c Hc. apply in_append in Hc as [Hc|Hc]; cbn [accepts].
    + rewrite (H1 c Hc). reflexivity.
    + rewrite (H2 c Hc). apply orb_true_r.
  - cbn [run].
    rewrite IHa.
    + apply IHb. intros pre s' gs' Hs Hc. apply (Hk pre s' gs' Hs).
      intros c Hin. cbn [accepts]. rewrite (Hc c Hin). apply orb_true_r.
    + intros pre s' gs' Hs Hc. apply (Hk pre s' gs' Hs).
      intros c Hin. cbn [accepts]. rewrite (Hc c Hin). reflexivity.
  - cbn [run]. generalize (String.length s) as n. intros n.
    revert s gs Hk. induction n as [|n IHn]; intros s gs Hk.
    + apply (Hk ""%string); [reflexivity|intros c []].
    + rewrite IHa.
      * apply (Hk ""%string); [reflexivity|intros c []].
      * intros pre1 s1 gs1 -> H1.
        destruct (String.length s1 <? String.length (pre1 +:+ s1))%nat; [|reflexivity].
        apply IHn. intros pre2 s2 gs2 -> H2.
        apply (Hk (pre1 +:+ pre2)); [symmetry; apply append_assoc|].
        intros c Hc. apply in_append in Hc as [Hc|Hc].
        -- exact (H1 c Hc).
        -- exact (H2 c Hc).
  - rewrite run_group. apply IHa. intros pre s' gs' Hs Hc. apply (Hk pre s' _ Hs Hc).
  - destruct s as [|c [|d s]]; cbn [run]; try reflexivity.
    + apply (Hk ""%string); [reflexivity|intros c []].
    + destruct (Ascii.eqb c newline); [|reflexivity].
      apply (Hk ""%string); [reflexivity|intros c0 []].
Qed.

(** What is left of a text that holds a character no class of the pattern
    takes still holds it. *)
Lemma index_rest c pre s' :
  Py.index c (pre +:+ s') <> None ->
  (forall d, In d (list_ascii_of_string pre) -> d <> c) ->
  Py.index c s' <> None.
Proof.
  induction pre as [|x pre IH]; intros H Hpre; [exact H|].
  rewrite app_cons in H. cbn [Py.index] in H.
  destruct (Ascii.eqb_spec x c) as [->|Hne].
  - destruct (Hpre c (or_introl eq_refl) eq_refl).
  - apply IH.
    + destruct (Py.index c (pre +:+ s')); [discriminate|contradiction].
    + intros d Hd. apply Hpre. right. exact Hd.
Qed.

(** What is left of a text without a character is without it. *)
Lemma index_none_rest c pre s' :
  Py.index c (pre +:+ s') = None -> Py.index c s' = None.
Proof.
  induction pre as [|x pre IH]; intros H; [exact H|].
  rewrite app_cons in H. cbn [Py.index] in H.
  destruct (Ascii.eqb x c); [discriminate|].
  apply IH. destruct (Py.index c (pre +:+ s')); [discriminate|reflexivity].
Qed.

(** A pattern that must read a character of a class right after [a] fails on
    a text in which no character is of that class. *)
Lemma needs_class a p b s gs k :
  (forall s', (exists pre, s = pre +:+ s') -> match s' with
                                             | String c _ => p c = false
                                             | EmptyString => True
                                             end) ->
  run (Seq a (Seq (Class p) b)) s gs k = None.
Proof.
  intros Hs. rewrite run_seq. apply run_consumes. intros pre s' gs' -> _.
  rewrite run_seq. destruct s' as [|c s']; [reflexivity|].
  rewrite run_class. rewrite (Hs (String c s') (ex_intro _ pre eq_refl)). reflexivity.
Qed.

Lemma no_equals_suffix s :
  Py.index "=" s = None ->
  forall s', (exists pre, s = pre +:+ s') ->
             match s' with
             | String c _ => is_char "=" c = false
             | EmptyString => True
             end.
Proof.
  intros Hs s' [pre ->]. apply index_none_rest in Hs.
  destruct s' as [|c s']; [exact I|]. cbn [Py.index] in Hs. unfold is_char.
  rewrite Ascii.eqb_sym. destruct (Ascii.eqb c "="); [discriminate|reflexivity].
Qed.

End ConsumeFacts.

Module EqualsFacts.

Import Re ReFacts ConsumeFacts Notions StrFacts RollDB.

(** The patterns that store, comment and delete need an equals sign. *)
Lemma storex_needs_equals text : Py.index "=" text = None -> match_ storex text = None.
Proof.
  intros H. unfold match_, storex. rewrite run_seq.
  apply run_consumes. intros pre s1 gs1 -> _.
  apply needs_class. apply no_equals_suffix. exact (index_none_rest _ _ _ H).
Qed.

Lemma deletex_needs_equals text : Py.index "=" text = None -> match_ deletex text = None.
Proof.
  intros H. unfold match_, deletex. rewrite run_seq.
  apply run_consumes. intros pre s1 gs1 -> _.
  apply needs_class. apply no_equals_suffix. exact (index_none_rest _ _ _ H).
Qed.

Lemma commentx_needs_equals text : Py.index "=" text = None -> match_ commentx text = None.
Proof.
  intros H. unfold match_, commentx. rewrite run_seq.
  apply run_consumes. intros pre s1 gs1 -> _.
  rewrite run_seq. apply run_consumes. intros pre2 s2 gs2 -> _.
  apply needs_class. apply no_equals_suffix.
  exact (index_none_rest _ _ _ (index_none_rest _ _ _ H)).
Qed.

(** The pattern of a use takes no equals sign. *)
Lemma usex_takes_no_equals d : accepts usex d = true -> d <> "="%char.
Proof. intros H ->. discriminate H. Qed.

Lemma end_refuses_equals s gs k : Py.index "=" s <> None -> run End s gs k = None.
Proof.
  destruct s as [|c [|d s]]; cbn [run Py.index]; intros H.
  - contradiction.
  - destruct (Ascii.eqb_spec c newline) as [->|_]; [|reflexivity].
    exfalso. apply H. reflexivity.
  - reflexivity.
Qed.

Lemma rest_keeps_equals r pre s' :
  accepts r "=" = false ->
  Py.index "=" (pre +:+ s') <> None ->
  (forall c, In c (list_ascii_of_string pre) -> accepts r c = true) ->
  Py.index "=" s' <> None.
Proof.
  intros Hr H Hpre. apply (index_rest _ pre); [exact H|].
  intros d Hd ->. rewrite (Hpre _ Hd) in Hr. discriminate.
Qed.

Lemma usex_refuses_equals text : Py.index "=" text <> None -> usex_match text = None.
Proof.
  intros H. unfold usex_match, match_, usex.
  rewrite run_seq, run_consumes; [reflexivity|].
  intros pre1 s1 gs1 -> H1.
  pose proof (fun Hr => rest_keeps_equals _ _ _ Hr H H1) as E1.
  specialize (E1 eq_refl).
  rewrite run_seq. apply run_consumes. intros pre2 s2 gs2 -> H2.
  pose proof (fun Hr => rest_keeps_equals _ _ _ Hr E1 H2) as E2.
  specialize (E2 eq_refl).
  rewrite run_seq. apply run_consumes. intros pre3 s3 gs3 -> H3.
  pose proof (fun Hr => rest_keeps_equals _ _ _ Hr E2 H3) as E3.
  specialize (E3 eq_refl).
  apply end_refuses_equals, E3.
Qed.

(** A use leaves the table alone. *)
Lemma match_stored_roll_table similar db command m guild userid :
  snd (match_stored_roll similar db command m guild userid) = db.
Proof.
  unfold match_stored_roll.
  destruct (retrieve_stored_roll db guild userid (name m)) as [compound|].
  - destruct (mods m) as [[|c ms]|]; try reflexivity.
    destruct (apply_mods _ _ _) as [[msg|[syntax override]]|e]; reflexivity.
  - destruct (find_similar_macro similar db guild userid (name m)); reflexivity.
Qed.

End EqualsFacts.

Section EqualsSign.

Import Re ReFacts ConsumeFacts EqualsFacts Notions RollDB Examples.

(** X19. A command whose text has no equals sign never changes the stored
    rolls: whatever [query_saved_rolls] answers, the table is the one it was
    given. *)
Theorem no_equals_sign_no_change :
  forall similar is_valid_roll (db : list Row) (guild userid : Z)
         (command : gmap string string),
    (forall text, command !! "syntax" = Some text -> Py.index "=" text = None) ->
    snd (query_saved_rolls similar is_valid_roll db guild userid command) = db.
Proof.
  intros similar is_valid_roll db guild userid command H. unfold query_saved_rolls.
  destruct (command !! "syntax") as [text|]; [|reflexivity].
  specialize (H text eq_refl).
  rewrite (storex_needs_equals text H), (commentx_needs_equals text H).
  destruct (usex_match text) as [m|]; [apply match_stored_roll_table|].
  rewrite (deletex_needs_equals text H).
  destruct (match_ multiwordx text); reflexivity.
Qed.

(** X19 at work: the text "brawl 2" leaves the table as it was. *)
Lemma no_equals_sign_no_change_witness :
  snd (query_saved_rolls no_similar any_roll brawl_db 1 2 {[ "syntax" := "brawl 2"%string ]})
  = brawl_db.
Proof.
  apply no_equals_sign_no_change.
  intros text Ht. rewrite lookup_singleton_eq in Ht.
  injection Ht as <-. reflexivity.
Defined.

(** X20. A command whose text has an equals sign is never the use of a
    macro: [query_saved_rolls] answers it with a message, and the command
    is left as it was. *)
Theorem equals_sign_never_a_use :
  forall similar is_valid_roll (db : list Row) (guild userid : Z)
         (command : gmap string string) (text : string),
    command !! "syntax" = Some text ->
    Py.index "=" text <> None ->
    usex_match text = None
    /\ exists message db',
        query_saved_rolls similar is_valid_roll db guild userid command
        = (Ok (Message message), command, db').
Proof.
  intros similar is_valid_roll db guild userid command text Hs H.
  pose proof (usex_refuses_equals text H) as Hu. split; [exact Hu|].
  unfold query_saved_rolls. rewrite Hs, Hu.
  destruct (match_ storex text) as [gs|].
  - destruct (is_valid_roll _); [|eauto].
    destruct (store_roll _ _ _ _ _ _) as [msg db']. eauto.
  - destruct (match_ commentx text) as [gs|].
    + destruct (update_stored_comment _ _ _ _ _) as [msg db']. eauto.
    + destruct (match_ deletex text) as [gs|].
      * destruct (delete_stored_roll _ _ _ _) as [msg db']. eauto.
      * destruct (match_ multiwordx text); eauto.
Qed.

(** X20 at work: "brawl = 5 7" is answered with a message. *)
Lemma equals_sign_never_a_use_witness :
  usex_match "brawl = 5 7" = None
  /\ exists message db',
      query_saved_rolls no_similar any_roll brawl_db 1 2
        {[ "syntax" := "brawl = 5 7"%string ]}
      = (Ok (Message message), {[ "syntax" := "brawl = 5 7"%string ]}, db').
Proof.
  apply equals_sign_never_a_use; [reflexivity|discriminate].
Defined.

End EqualsSign.

(** ** The listing of stored rolls *)

Section ListingProperties.

Import RollDB Examples.

(** X21. The listing of a user's macros has one line for each macro that
    [macro_count] counts, whatever the order the database gives them in; the
    lines are those of the rows of that user on that guild, each with the
    name and the syntax of its row, followed by [ # ] and the comment when
    the row has a comment that is not empty. *)
Theorem stored_rolls_lists_the_macros :
  forall (order_by_name : list Row -> list Row) (db : list Row) (guild userid : Z),
    (forall l, order_by_name l ≡ₚ l) ->
    let line (r : Row) :=
      (Name r,
       match Comment r with
       | Some (String c rest) => Syntax r +:+ " # " +:+ String c rest
       | _ => Syntax r
       end) in
    length (stored_rolls order_by_name db guild userid) = macro_count db guild userid
    /\ forall entry,
         In entry (stored_rolls order_by_name db guild userid)
         <-> exists r, In r db /\ Guild r = guild /\ ID r = userid /\ entry = line r.
Proof.
  intros order_by_name db guild userid Hperm line. unfold stored_rolls, macro_count.
  split.
  - rewrite length_map. apply Permutation_length, Hperm.
  - intros entry. rewrite in_map_iff. split.
    + intros (r & <- & Hr). exists r.
      apply list_elem_of_In in Hr. rewrite (Hperm _) in Hr.
      apply list_elem_of_filter in Hr as [Hsel Hr].
      apply andb_true_iff in Hsel as [Hg Hu].
      apply Z.eqb_eq in Hg, Hu. apply list_elem_of_In in Hr.
      repeat split; try assumption.
      unfold line. destruct (Comment r) as [[|c rest]|]; reflexivity.
    + intros (r & Hr & Hg & Hu & ->). exists r. split.
      * unfold line. destruct (Comment r) as [[|c rest]|]; reflexivity.
      * apply list_elem_of_In. rewrite (Hperm _).
        apply list_elem_of_filter. split.
        -- rewrite Hg, Hu, !Z.eqb_refl. reflexivity.
        -- apply list_elem_of_In, Hr.
Qed.

(** X21 at work: the listing of user 2 on guild 1, in the order of the
    table. *)
Lemma stored_rolls_lists_the_macros_witness :
  length (stored_rolls (fun l => l) brawl_with_comment 1 2)
  = macro_count brawl_with_comment 1 2
  /\ In ("brawl"%string, "7 6 # stored"%string)
        (stored_rolls (fun l => l) brawl_with_comment 1 2).
Proof.
  pose proof (stored_rolls_lists_the_macros (fun l => l) brawl_with_comment 1 2
                (fun l => Permutation_refl l)) as H.
  cbv zeta in H. destruct H as [Hlen Hin]. split; [exact Hlen|].
  apply Hin. eexists. split; [left; reflexivity|]. repeat split.
Defined.

End ListingProperties.

(** ** The pattern of a traditional roll *)

Module TradxFacts.

Import Re ReFacts ConsumeFacts Notions StrFacts Traditional.

(** The characters the classes of [__tradx] take. *)
Lemma tradx_accepts c :
  accepts tradx c = true ->
  digit c || is_char "d" c || is_char "+" c || space c = true.
Proof.
  unfold tradx, Plus, Opt. cbn [accepts].
  destruct (digit c), (is_char "d" c), (is_char "+" c), (space c);
    intros H; try reflexivity; discriminate H.
Qed.

(** The end of the text is not reached while a character that no class
    takes is still ahead. *)
Lemma end_refuses_rest r c pre s' gs k :
  accepts r c = false -> space c = false ->
  In c (list_ascii_of_string (pre +:+ s')) ->
  (forall d, In d (list_ascii_of_string pre) -> accepts r d = true) ->
  run End s' gs k = None.
Proof.
  intros Hc Hsp Hin Hpre. apply in_append in Hin as [Hin|Hin].
  - rewrite (Hpre c Hin) in Hc. discriminate.
  - destruct s' as [|x [|y s']]; cbn [run]; [destruct Hin| |reflexivity].
    destruct Hin as [->|[]].
    destruct (Ascii.eqb_spec c newline) as [->|_]; [discriminate Hsp|reflexivity].
Qed.

End TradxFacts.

Section TraditionalPattern.

Import Re ReFacts ConsumeFacts Notions StrFacts Traditional TradxFacts.

(** X22. A text that [__tradx] accepts begins with a digit and is made of
    digits, the letter d, plus signs and white space only: a text with any
    other character, a minus sign for one, is never taken for a traditional
    roll. *)
Theorem tradx_alphabet :
  forall (text : string) (gs : gmap string string),
    match_ tradx text = Some gs ->
    (exists c rest, text = String c rest /\ digit c = true)
    /\ forall c, In c (list_ascii_of_string text) ->
         digit c || is_char "d" c || is_char "+" c || space c = true.
Proof.
  intros text gs H. split.
  - unfold match_, tradx, Plus in H. rewrite run_seq, run_group, !run_seq in H.
    destruct text as [|c rest]; [discriminate H|].
    rewrite run_class in H. destruct (digit c) eqn:Hd; [|discriminate H]. eauto.
  - intros c Hc.
    destruct (digit c || is_char "d" c || is_char "+" c || space c) eqn:E;
      [reflexivity|].
    assert (Hacc : accepts tradx c = false).
    { destruct (accepts tradx c) eqn:Ha; [|reflexivity].
      rewrite (tradx_accepts c Ha) in E. discriminate. }
    assert (Hsp : space c = false).
    { destruct (space c); [|reflexivity]. rewrite !orb_true_r in E. discriminate. }
    assert (Hnone : match_ tradx text = None).
    { unfold match_. unfold tradx at 1. rewrite run_seq.
      apply run_consumes. intros pre s' gs' -> Hpre.
      apply (end_refuses_rest tradx c pre); try assumption.
      intros d Hd. pose proof (Hpre d Hd) as Hx. unfold tradx.
      cbn [accepts] in Hx |- *. rewrite Hx. reflexivity. }
    rewrite Hnone in H. discriminate.
Qed.

(** X22 at work on "2d6 + 3". *)
Lemma tradx_alphabet_witness :
  (exists c rest, "2d6 + 3"%string = String c rest /\ digit c = true)
  /\ forall c, In c (list_ascii_of_string "2d6 + 3") ->
       digit c || is_char "d" c || is_char "+" c || space c = true.
Proof.
  exact (tradx_alphabet "2d6 + 3" {[ "syntax" := "2d6 + 3"%string ]} eq_refl).
Defined.

(** X23. A text of digits only, one at least, is accepted by [__tradx], and
    the syntax captured is the whole text. *)
Theorem number_is_traditional :
  forall (c : ascii) (rest : string),
    (forall d, In d (list_ascii_of_string (String c rest)) -> digit d = true) ->
    match_ tradx (String c rest) = Some {[ "syntax" := String c rest ]}.
Proof.
  intros c rest Hd. unfold match_, tradx, Plus, Opt.
  rewrite run_seq, run_group, !run_seq, run_class, (Hd c (or_introl eq_refl)).
  apply run_star_all; [intros d H; apply Hd; right; exact H|].
  cbn [run String.length Nat.sub].
  change (S (String.length rest)) with (String.length (String c rest)).
  rewrite substring_all. reflexivity.
Qed.

(** X23 at work on "15". *)
Lemma number_is_traditional_witness :
  match_ tradx "15" = Some {[ "syntax" := "15"%string ]}.
Proof.
  apply (number_is_traditional "1" "5").
  intros d Hd. cbn in Hd.
  repeat (destruct Hd as [<-|Hd]; [reflexivity|]). destruct Hd.
Defined.

End TraditionalPattern.
